(** * DataService: the grid-classification engine of the Excel chat add-in

    A shallow embedding of the pure part of the [DataService] class: cell
    type detection, the type histogram, header-row detection, row
    classification, quarterly extraction, the sampling decision and the
    column-letter helpers, followed by the properties proved about them. *)

From Stdlib Require Import ZArith List Bool Ascii String DecimalString Sorted Lia.
From Stdlib Require Import Floats.SpecFloat.
From Equations Require Import Equations.
Import ListNotations.

Local Open Scope string_scope.
Local Open Scope Z_scope.

(* ===================================================================== *)
(** * JavaScript strings *)
(* ===================================================================== *)

(** A JavaScript string is a sequence of UTF-16 code units.  The model keeps
    the code units below 256 (the Latin-1 range), one [ascii] per code unit;
    every literal and every pattern of the source lives there. *)
Module JsString.

Definition code (c : ascii) : Z := Z.of_N (N_of_ascii c).

Definition fromCharCode (n : Z) : ascii := ascii_of_N (Z.to_N n).

(** WhiteSpace and LineTerminator code units below 256: TAB, LF, VT, FF,
    CR, SP and NBSP.  These are what [String.prototype.trim] strips. *)
Definition is_whitespace (c : ascii) : bool :=
  let n := code c in
  ((9 <=? n) && (n <=? 13)) || (n =? 32) || (n =? 160).

Definition is_digit (c : ascii) : bool :=
  let n := code c in (48 <=? n) && (n <=? 57).

Definition is_upper (c : ascii) : bool :=
  let n := code c in (65 <=? n) && (n <=? 90).

Definition is_lower (c : ascii) : bool :=
  let n := code c in (97 <=? n) && (n <=? 122).

(** Canonicalisation of a code unit under the [i] flag, as far as a
    comparison with an ASCII pattern character can tell: a-z go to A-Z;
    no code unit of 128 or more is ever identified with an ASCII one. *)
Definition canonicalize (c : ascii) : ascii :=
  if is_lower c then fromCharCode (code c - 32) else c.

Definition eqb_ci (a b : ascii) : bool :=
  Ascii.eqb (canonicalize a) (canonicalize b).

Definition is_empty (s : string) : bool :=
  match s with EmptyString => true | String _ _ => false end.

Fixpoint all_whitespace (s : string) : bool :=
  match s with
  | EmptyString => true
  | String c s' => is_whitespace c && all_whitespace s'
  end.

Fixpoint trimStart (s : string) : string :=
  match s with
  | EmptyString => EmptyString
  | String c s' => if is_whitespace c then trimStart s' else s
  end.

Fixpoint trimEnd (s : string) : string :=
  match s with
  | EmptyString => EmptyString
  | String c s' =>
      let t := trimEnd s' in
      if is_whitespace c && is_empty t then EmptyString else String c t
  end.

(** [s.trim()] *)
Definition trim (s : string) : string := trimEnd (trimStart s).

(** [s.startsWith(p)] *)
Fixpoint startsWith (p s : string) : bool :=
  match p, s with
  | EmptyString, _ => true
  | String a p', String b s' => Ascii.eqb a b && startsWith p' s'
  | String _ _, EmptyString => false
  end.

(** [s.includes(p)] *)
Fixpoint includes (p s : string) : bool :=
  startsWith p s ||
  match s with
  | EmptyString => false
  | String _ s' => includes p s'
  end.

(** A literal pattern matched at the start of [s] under the [i] flag. *)
Fixpoint startsWith_ci (p s : string) : bool :=
  match p, s with
  | EmptyString, _ => true
  | String a p', String b s' => eqb_ci a b && startsWith_ci p' s'
  | String _ _, EmptyString => false
  end.

(** A literal pattern matched anywhere in [s] under the [i] flag. *)
Fixpoint includes_ci (p s : string) : bool :=
  startsWith_ci p s ||
  match s with
  | EmptyString => false
  | String _ s' => includes_ci p s'
  end.

End JsString.
Import JsString.

(* ===================================================================== *)
(** * Integers held in Numbers *)
(* ===================================================================== *)

(** A Number is a binary64 value: it holds an integer exactly when the
    integer has at most 53 significant bits, so every integer up to 2^53 in
    magnitude and, beyond that, one integer in 2, in 4, and so on.  The
    result of an arithmetic operation is the exact result rounded to the
    nearest Number, a tie going to the one with the even significand.  The
    column helpers compute on integers; this module is that arithmetic,
    with an integer-valued Number written as the integer it holds. *)
Module JsInteger.

(** [a / b] rounded to the nearest integer, a tie going to the even one;
    [0 <= a] and [0 < b]. *)
Definition nearest_even (a b : Z) : Z :=
  let m := a / b in
  let r := a mod b in
  if 2 * r <? b then m
  else if b <? 2 * r then m + 1
  else if Z.even m then m else m + 1.

(** The Number nearest to the integer [z], the exponent left unbounded:
    [z] itself below 2^53, and otherwise the nearest multiple of the power
    of two that leaves 53 significant bits. *)
Definition round (z : Z) : Z :=
  let a := Z.abs z in
  if a <? 2 ^ 53 then z
  else
    let unit := 2 ^ (Z.log2 a - 52) in
    Z.sgn z * (nearest_even a unit * unit).

(** [Math.floor(d / k)] for Numbers holding the integers [0 <= d] and
    [0 < k < 2^53]: the quotient is rounded to 53 significant bits first,
    and the floor is taken of the rounded quotient.  A quotient below 1
    stays below 1. *)
Definition floor_div (d k : Z) : Z :=
  let q := d / k in
  if q =? 0 then 0
  else
    let e := Z.log2 q - 52 in
    if e <? 0 then nearest_even (d * 2 ^ (- e)) k / 2 ^ (- e)
    else nearest_even d (k * 2 ^ e) * 2 ^ e.

(** An integer-valued Number or an infinity. *)
Inductive t : Type :=
| Finite (z : Z)
| Infinite (negative : bool).

(** The Number an operation gives whose exact result is the integer [z]:
    a result that rounds to 2^1024 or beyond overflows to an infinity. *)
Definition of_exact (z : Z) : t :=
  let r := round z in
  if 2 ^ 1024 <=? Z.abs r then Infinite (r <? 0) else Finite r.

(** [x * k] and [x + k] for a Number [x] and an integer [k] that a Number
    holds, [0 < k] for the product. *)
Definition mul (x : t) (k : Z) : t :=
  match x with
  | Finite a => of_exact (a * k)
  | Infinite negative => Infinite negative
  end.

Definition add (x : t) (k : Z) : t :=
  match x with
  | Finite a => of_exact (a + k)
  | Infinite negative => Infinite negative
  end.

End JsInteger.

(* ===================================================================== *)
(** * Excel column letters *)
(* ===================================================================== *)

(** [getColumnLetter]: the [while (columnNumber > 0)] loop, with the letters
    accumulated so far in [columnLetter].  [columnNumber] is the integer the
    Number holds; [columnNumber - 1] is rounded as a Number is, [%] is exact
    on Numbers, and [Math.floor(_ / 26)] floors the rounded quotient.  The
    loop ends because each turn at least halves the number. *)
Equations? getColumnLetter_loop (columnNumber : Z) (columnLetter : string) : string
  by wf (Z.to_nat (Z.log2 (columnNumber * 2))) lt :=
  getColumnLetter_loop columnNumber columnLetter with Z_lt_dec 0 columnNumber := {
    | left _ =>
        let remainder := Z.rem (JsInteger.round (columnNumber - 1)) 26 in
        getColumnLetter_loop
          (JsInteger.floor_div (JsInteger.round (columnNumber - 1)) 26)
          (String (fromCharCode (65 + remainder)) columnLetter)
    | right _ => columnLetter
  }.
Proof.
  set (z := columnNumber - 1). assert (Hz : 0 <= z) by (subst z; lia).
  assert (Hnear : forall a b, 0 <= a -> 0 < b ->
            a / b <= JsInteger.nearest_even a b <= a / b + 1).
  { intros a b Ha Hb. unfold JsInteger.nearest_even.
    destruct (2 * (a mod b) <? b); [lia|].
    destruct (b <? 2 * (a mod b)); [lia|].
    destruct (Z.even (a / b)); lia. }
  assert (Hround : 0 <= JsInteger.round z <= 2 * z).
  { unfold JsInteger.round. rewrite Z.abs_eq by lia.
    destruct (Z.ltb_spec z (2 ^ 53)) as [Hs|Hb]; [lia|].
    assert (Hzpos : 0 < z) by lia.
    rewrite Z.sgn_pos, Z.mul_1_l by lia.
    set (u := 2 ^ (Z.log2 z - 52)).
    assert (Hlog : 53 <= Z.log2 z) by (apply Z.log2_le_pow2; lia).
    assert (Hu : 0 < u) by (subst u; apply Z.pow_pos_nonneg; lia).
    assert (Hle : u <= z).
    { subst u. etransitivity; [|apply (proj1 (Z.log2_spec z Hzpos))].
      apply Z.pow_le_mono_r; lia. }
    pose proof (Hnear z u ltac:(lia) Hu) as [Hlo Hhi].
    pose proof (Z.mul_div_le z u Hu).
    assert (0 <= z / u) by (apply Z.div_pos; lia).
    nia. }
  set (d := JsInteger.round z) in *.
  assert (Hq : 0 <= d / 26) by (apply Z.div_pos; lia).
  assert (Hfloor : 0 <= JsInteger.floor_div d 26 <= 2 * (d / 26)).
  { unfold JsInteger.floor_div.
    destruct (Z.eqb_spec (d / 26) 0) as [H0|H0]; [lia|].
    set (q := d / 26) in *. assert (Hqpos : 0 < q) by lia.
    destruct (Z.ltb_spec (Z.log2 q - 52) 0) as [He|He].
    - set (f := - (Z.log2 q - 52)). assert (Hf : 0 < f) by (subst f; lia).
      set (p := 2 ^ f). assert (Hp : 0 < p) by (subst p; apply Z.pow_pos_nonneg; lia).
      pose proof (Hnear (d * p) 26 ltac:(nia) ltac:(lia)) as [Hlo Hhi].
      assert (Hm : d * p / 26 + 1 <= (q + 1) * p).
      { assert (d * p / 26 < (q + 1) * p); [|lia].
        apply Z.div_lt_upper_bound; [lia|].
        pose proof (Z.mod_pos_bound d 26 ltac:(lia)).
        pose proof (Z.div_mod d 26 ltac:(lia)). subst q. nia. }
      assert (0 <= d * p / 26) by (apply Z.div_pos; nia).
      split; [apply Z.div_pos; lia|].
      assert (JsInteger.nearest_even (d * p) 26 / p <= q + 1); [|lia].
      apply Z.div_le_upper_bound; [lia|]. nia.
    - set (u := 2 ^ (Z.log2 q - 52)).
      assert (Hu : 0 < u) by (subst u; apply Z.pow_pos_nonneg; lia).
      assert (Hle : u <= q).
      { subst u. etransitivity; [|apply (proj1 (Z.log2_spec q Hqpos))].
        apply Z.pow_le_mono_r; lia. }
      pose proof (Hnear d (26 * u) ltac:(lia) ltac:(lia)) as [Hlo Hhi].
      assert (Hdu : d / (26 * u) = q / u) by (subst q; now rewrite Z.div_div by lia).
      pose proof (Z.mul_div_le q u Hu).
      assert (0 <= q / u) by (apply Z.div_pos; lia).
      rewrite Hdu in Hlo, Hhi. nia. }
  assert (Hd26 : d / 26 * 26 <= d) by (pose proof (Z.mul_div_le d 26); lia).
  set (next := JsInteger.floor_div d 26) in *.
  assert (Hhalf : 2 * next <= columnNumber) by (subst z; lia).
  assert (Hpos : 0 < columnNumber) by (subst z; lia).
  apply Z2Nat.inj_lt; try apply Z.log2_nonneg.
  rewrite !(Z.mul_comm _ 2).
  destruct (Z.eq_dec next 0) as [Hnext|Hnext].
  - rewrite Hnext. change (Z.log2 (2 * 0)) with 0. apply Z.log2_pos. lia.
  - rewrite (Z.log2_double columnNumber) by lia.
    assert (Z.log2 (2 * next) <= Z.log2 columnNumber) by (apply Z.log2_le_mono; lia).
    lia.
Qed.

Definition getColumnLetter (columnNumber : Z) : string :=
  getColumnLetter_loop columnNumber "".

(** [getColumnNumber]: the [for] loop over the characters, with the running
    [columnNumber]; the product and the sum are each rounded as a Number
    is, and a long enough text overflows to [Infinity]. *)
Fixpoint getColumnNumber_loop (columnNumber : JsInteger.t) (columnLetter : string)
  : JsInteger.t :=
  match columnLetter with
  | EmptyString => columnNumber
  | String c rest =>
      getColumnNumber_loop
        (JsInteger.add (JsInteger.mul columnNumber 26) (code c - 64)) rest
  end.

Definition getColumnNumber (columnLetter : string) : JsInteger.t :=
  getColumnNumber_loop (JsInteger.Finite 0) columnLetter.

(* ===================================================================== *)
(** * JavaScript numbers and the built-in conversions *)
(* ===================================================================== *)

(** A Number is an IEEE 754 binary64 value: the Standard Library's
    [spec_float] at precision 53 and maximal exponent 1024. *)
Module JsNumber.

Definition t : Type := spec_float.

Definition prec : Z := 53.
Definition emax : Z := 1024.

Definition NaN : t := S754_nan.
Definition Infinity (negative : bool) : t := S754_infinity negative.

(** The Number nearest to an integer (ties to even). *)
Definition of_Z (z : Z) : t := binary_normalize prec emax z 0 false.

(** The Number nearest to [m * 10^e] for [0 <= m], with the sign given
    apart so that "-0" keeps it.  An engine may round a literal of more
    than 20 significant digits at the 20th digit first; the model rounds
    the exact value. *)
Definition of_decimal (negative : bool) (m e : Z) : t :=
  if m =? 0 then S754_zero negative
  else if 0 <=? e then
    binary_normalize prec emax (cond_Zopp negative (m * 10 ^ e)) 0 negative
  else
    let '(q, e', l) := SFdiv_core_binary prec emax m 0 (10 ^ (- e)) 0 in
    binary_round_aux prec emax negative q e' l.

Definition is_nan (x : t) : bool :=
  match x with S754_nan => true | _ => false end.

Definition is_finite (x : t) : bool :=
  match x with S754_zero _ | S754_finite _ _ _ => true | _ => false end.

(** ToBoolean on a Number: false for +0, -0 and NaN. *)
Definition truthy (x : t) : bool :=
  match x with S754_zero _ | S754_nan => false | _ => true end.

End JsNumber.

(** ** Numeric literals in strings (ECMA-262, StringNumericLiteral) *)
Module StrNumeric.
Import JsNumber.

(** The leading decimal digits of [s], and what follows them. *)
Fixpoint span_digits (s : string) : string * string :=
  match s with
  | String c s' =>
      if is_digit c then let '(ds, rest) := span_digits s' in (String c ds, rest)
      else (EmptyString, s)
  | EmptyString => (EmptyString, EmptyString)
  end.

Fixpoint digits_value (acc : Z) (ds : string) : Z :=
  match ds with
  | EmptyString => acc
  | String c ds' => digits_value (acc * 10 + (code c - 48)) ds'
  end.

(** [strip_prefix p s] is what follows [p] in [s] when [s] starts with [p]. *)
Fixpoint strip_prefix (p s : string) : option string :=
  match p, s with
  | EmptyString, _ => Some s
  | String a p', String b s' => if Ascii.eqb a b then strip_prefix p' s' else None
  | String _ _, EmptyString => None
  end.

(** StrUnsignedDecimalLiteral: [Infinity], or integer digits, fraction
    digits and a decimal exponent. *)
Inductive StrDecimal : Type :=
| DecInfinity
| DecDigits (int frac : string) (exponent : Z).

(** An optional sign at the start of [s]: whether it is a minus, and what
    follows it. *)
Definition parse_sign (s : string) : bool * string :=
  match s with
  | String c r =>
      if Ascii.eqb c "+" then (false, r)
      else if Ascii.eqb c "-" then (true, r)
      else (false, s)
  | EmptyString => (false, s)
  end.

(** ExponentPart, when one is there: [e] or [E], an optional sign and at
    least one digit; otherwise nothing is consumed. *)
Definition parse_exponent (s : string) : Z * string :=
  match s with
  | String c r =>
      if Ascii.eqb c "e" || Ascii.eqb c "E" then
        let '(negative, r') := parse_sign r in
        let '(ds, rest) := span_digits r' in
        if is_empty ds then (0, s)
        else (cond_Zopp negative (digits_value 0 ds), rest)
      else (0, s)
  | EmptyString => (0, s)
  end.

(** The longest prefix of [s] that is a StrUnsignedDecimalLiteral, with
    the rest of [s]. *)
Definition parse_unsigned (s : string) : option (StrDecimal * string) :=
  match strip_prefix "Infinity" s with
  | Some rest => Some (DecInfinity, rest)
  | None =>
      let '(ip, r1) := span_digits s in
      match r1 with
      | String c r2 =>
          if Ascii.eqb c "." then
            let '(fp, r3) := span_digits r2 in
            if is_empty ip && is_empty fp then None
            else let '(e, r4) := parse_exponent r3 in Some (DecDigits ip fp e, r4)
          else if is_empty ip then None
          else let '(e, r4) := parse_exponent r1 in Some (DecDigits ip EmptyString e, r4)
      | EmptyString =>
          if is_empty ip then None
          else Some (DecDigits ip EmptyString 0, EmptyString)
      end
  end.

(** The longest prefix that is a StrDecimalLiteral: an optional sign and
    an unsigned literal. *)
Definition parse_signed (s : string) : option (bool * StrDecimal * string) :=
  let '(negative, r) := parse_sign s in
  match parse_unsigned r with
  | Some (d, rest) => Some (negative, d, rest)
  | None => None
  end.

(** The Number a StrDecimalLiteral denotes. *)
Definition decimal_value (negative : bool) (d : StrDecimal) : t :=
  match d with
  | DecInfinity => Infinity negative
  | DecDigits ip fp e =>
      of_decimal negative (digits_value 0 (ip ++ fp))
                 (e - Z.of_nat (String.length fp))
  end.

(** NonDecimalIntegerLiteral: [0b], [0o] or [0x] (either case) and at
    least one digit of that base, nothing else. *)
Definition digit_in_base (base : Z) (c : ascii) : option Z :=
  let n := code c in
  let v := if is_digit c then n - 48
           else if is_lower c then n - 97 + 10
           else if is_upper c then n - 65 + 10
           else base in
  if v <? base then Some v else None.

Fixpoint base_value (base acc : Z) (ds : string) : option Z :=
  match ds with
  | EmptyString => Some acc
  | String c ds' =>
      match digit_in_base base c with
      | Some v => base_value base (acc * base + v) ds'
      | None => None
      end
  end.

Definition parse_non_decimal (s : string) : option Z :=
  match s with
  | String z (String c (String d ds)) =>
      let digits := String d ds in
      if negb (Ascii.eqb z "0") then None
      else if Ascii.eqb c "x" || Ascii.eqb c "X" then base_value 16 0 digits
      else if Ascii.eqb c "o" || Ascii.eqb c "O" then base_value 8 0 digits
      else if Ascii.eqb c "b" || Ascii.eqb c "B" then base_value 2 0 digits
      else None
  | _ => None
  end.

(** StringToNumber: what [Number(s)] gives for a string. *)
Definition StringToNumber (s : string) : t :=
  let literal := trim s in
  if is_empty literal then S754_zero false
  else match parse_non_decimal literal with
       | Some n => of_Z n
       | None =>
           match parse_signed literal with
           | Some (negative, d, EmptyString) => decimal_value negative d
           | _ => NaN
           end
       end.

(** [parseFloat] on a string: leading white space is skipped and the
    longest prefix that is a StrDecimalLiteral is converted. *)
Definition parseFloat_string (s : string) : t :=
  match parse_signed (trimStart s) with
  | Some (negative, d, _) => decimal_value negative d
  | None => NaN
  end.

End StrNumeric.

(* ===================================================================== *)
(** * Cell values *)
(* ===================================================================== *)

(** What a cell of [range.values] or [range.formulas] holds: Excel delivers
    strings, numbers and booleans; [null] and [undefined] are there because
    the code tests for them. *)
Inductive Value : Type :=
| VNull
| VUndefined
| VBool (b : bool)
| VNum (n : JsNumber.t)
| VStr (s : string).

Inductive JsType : Type := TObject | TUndefined | TBoolean | TNumber | TString.

Definition typeof (v : Value) : JsType :=
  match v with
  | VNull => TObject
  | VUndefined => TUndefined
  | VBool _ => TBoolean
  | VNum _ => TNumber
  | VStr _ => TString
  end.

Definition JsType_eqb (a b : JsType) : bool :=
  match a, b with
  | TObject, TObject | TUndefined, TUndefined | TBoolean, TBoolean
  | TNumber, TNumber | TString, TString => true
  | _, _ => false
  end.

(** [v === null], [v === undefined], [v === ''] *)
Definition is_null (v : Value) : bool :=
  match v with VNull => true | _ => false end.

Definition is_undefined (v : Value) : bool :=
  match v with VUndefined => true | _ => false end.

Definition is_empty_string (v : Value) : bool :=
  match v with VStr s => is_empty s | _ => false end.

(** ToBoolean, as [!v], [a || b] and [a && b] use it. *)
Definition truthy (v : Value) : bool :=
  match v with
  | VNull | VUndefined => false
  | VBool b => b
  | VNum n => JsNumber.truthy n
  | VStr s => negb (is_empty s)
  end.

(** ToNumber *)
Definition ToNumber (v : Value) : JsNumber.t :=
  match v with
  | VUndefined => JsNumber.NaN
  | VNull => S754_zero false
  | VBool b => if b then JsNumber.of_Z 1 else S754_zero false
  | VNum n => n
  | VStr s => StrNumeric.StringToNumber s
  end.

(** The global [isNaN] and [isFinite] convert their argument first. *)
Definition isNaN (v : Value) : bool := JsNumber.is_nan (ToNumber v).

Definition isFinite (v : Value) : bool := JsNumber.is_finite (ToNumber v).

(** The global [parseFloat] converts its argument to a string first.  For a
    Number the string is the shortest decimal that reads back as the same
    Number, "0" for both zeros, "Infinity" and "NaN"; [true], [false],
    [null] and [undefined] print as words that start no numeric literal. *)
Definition parseFloat (v : Value) : JsNumber.t :=
  match v with
  | VStr s => StrNumeric.parseFloat_string s
  | VNum (S754_zero _) => S754_zero false
  | VNum n => n
  | VBool _ | VNull | VUndefined => JsNumber.NaN
  end.

(** [a || b] where [a] is a Number. *)
Definition number_or (a : JsNumber.t) (b : Value) : Value :=
  if JsNumber.truthy a then VNum a else b.

(* ===================================================================== *)
(** * Arrays *)
(* ===================================================================== *)

(** [arr.map((x, i) => f x i)] *)
Fixpoint mapi_from {A B : Type} (i : nat) (f : A -> nat -> B) (l : list A) : list B :=
  match l with
  | [] => []
  | x :: rest => f x i :: mapi_from (S i) f rest
  end.

Definition mapi {A B : Type} (f : A -> nat -> B) (l : list A) : list B :=
  mapi_from 0 f l.

(** [arr.forEach((x, i) => ...)] where the body updates a state [s]; also the
    counting [for] loops over an array. *)
Fixpoint forEach_from {A S : Type} (i : nat) (body : S -> A -> nat -> S)
  (l : list A) (s : S) : S :=
  match l with
  | [] => s
  | x :: rest => forEach_from (Datatypes.S i) body rest (body s x i)
  end.

Definition forEach {A S : Type} (body : S -> A -> nat -> S) (l : list A) (s : S) : S :=
  forEach_from 0 body l s.

(** [grid && grid[r] && grid[r][c]], for a grid that may be absent: the
    entry, or nothing (a falsy value) when any step is missing. *)
Definition grid_entry {A : Type} (grid : option (list (list A))) (r c : nat) : option A :=
  match grid with
  | None => None
  | Some g =>
      match nth_error g r with
      | None => None
      | Some row => nth_error row c
      end
  end.

(* ===================================================================== *)
(** * Label and header patterns *)
(* ===================================================================== *)

(** [/^[1-4]Q\d{2}$/i.test(s)] *)
Definition quarter_test (s : string) : bool :=
  match s with
  | String a (String q (String d1 (String d2 EmptyString))) =>
      (49 <=? code a) && (code a <=? 52) && eqb_ci q "Q" && is_digit d1 && is_digit d2
  | _ => false
  end.

(** [/^(total|sum|grand total|net|aggregate|consolidated)/i] *)
Definition totalKeywords : list string :=
  ["total"; "sum"; "grand total"; "net"; "aggregate"; "consolidated"].

(** [/subtotal|sub-total|sub total/i] *)
Definition subtotalKeywords : list string :=
  ["subtotal"; "sub-total"; "sub total"].

(** The six [keyPatterns], each a list of alternatives. *)
Definition keyPatterns : list (list string) :=
  [ ["revenue"; "sales"; "income"];
    ["expense"; "cost"; "opex"; "capex"];
    ["profit"; "loss"; "ebitda"; "ebit"];
    ["cash"; "flow"; "fcf"];
    ["margin"; "ratio"];
    ["growth"; "change"] ].

(** An alternation of literals anchored at the start, and one matched
    anywhere, both under the [i] flag. *)
Definition test_anchored (alternatives : list string) (s : string) : bool :=
  existsb (fun p => startsWith_ci p s) alternatives.

Definition test_anywhere (alternatives : list string) (s : string) : bool :=
  existsb (fun p => includes_ci p s) alternatives.

Definition isLikelyTotalRow (label : Value) : bool :=
  match label with
  | VStr s => test_anchored totalKeywords (trim s)
  | _ => false
  end.

Definition isLikelySubtotalRow (label : Value) : bool :=
  match label with
  | VStr s => test_anywhere subtotalKeywords (trim s)
  | _ => false
  end.

Definition isKeyFinancialRow (label : Value) : bool :=
  match label with
  | VStr s => existsb (fun pattern => test_anywhere pattern s) keyPatterns
  | _ => false
  end.

Definition categorizeRowLabel (label : Value) : string :=
  match label with
  | VStr s => trim s
  | _ => "data"
  end.

(** [hasQuarterlyPattern]: the test runs on [String(h)]; the string of a
    number, a boolean, [null] or [undefined] has no Q in second place, so
    only string headers can match. *)
Definition hasQuarterlyPattern (headers : list Value) : bool :=
  existsb (fun h => match h with VStr s => quarter_test s | _ => false end) headers.

(* ===================================================================== *)
(** * Ranges and sampling *)
(* ===================================================================== *)

(** [this.CONFIG.MAX_ANALYSIS_CELLS] *)
Definition MAX_ANALYSIS_CELLS : Z := 100000.

(** A loaded range: the properties the code reads, and the two marks
    [getSmartSampledRange] sets on the range it returns. *)
Record Range : Type := {
  range_values : list (list Value);
  range_formulas : list (list Value);
  range_numberFormat : list (list string);
  rowCount : Z;
  columnCount : Z;
  address : string;
  _isSampled : bool;
  _originalSize : option (Z * Z)
}.

(** The active worksheet: its used range, when there is one, and the range
    it gives for an A1-style address. *)
Record Worksheet : Type := {
  getUsedRange : option Range;
  getRange : string -> Range
}.

(** A template literal prints an integer in decimal. *)
Definition string_of_Z (z : Z) : string := NilZero.string_of_int (Z.to_int z).

Section Sampling.

Variable worksheet : Worksheet.
Variable originalRange : Range.

Let totalRows := rowCount originalRange.
Let totalCols := columnCount originalRange.

Definition maxSampleRows : Z := Z.min (Z.sqrt MAX_ANALYSIS_CELLS) totalRows.
(** [MAX_ANALYSIS_CELLS / 0] is [Infinity], which leaves [totalCols] as the
    minimum. *)
Definition maxSampleCols : Z :=
  if maxSampleRows =? 0 then totalCols
  else Z.min (MAX_ANALYSIS_CELLS / maxSampleRows) totalCols.

Definition headerRows : Z := Z.min 5 totalRows.
Definition footerRows : Z := Z.min 3 (totalRows - headerRows).
Definition middleRows : Z := Z.max 0 (maxSampleRows - headerRows - footerRows).

Definition sampleCols : Z := Z.min maxSampleCols totalCols.

(** The composite list [ranges] of header, middle and footer addresses.
    The code builds it and never reads it. *)
Definition compositeRanges : list string :=
  let startCol := getColumnLetter 1 in
  let endCol := getColumnLetter sampleCols in
  (if 0 <? headerRows
   then [startCol ++ "1:" ++ endCol ++ string_of_Z headerRows] else [])
  ++ (if 0 <? middleRows
      then
        let step := (totalRows - headerRows - footerRows) / middleRows in
        map (fun i =>
               let rowNum := headerRows + 1 + Z.of_nat i * step in
               startCol ++ string_of_Z rowNum ++ ":" ++ endCol ++ string_of_Z rowNum)
            (seq 0 (Z.to_nat middleRows))
      else [])
  ++ (if 0 <? footerRows
      then
        let startRow := totalRows - footerRows + 1 in
        [startCol ++ string_of_Z startRow ++ ":" ++ endCol ++ string_of_Z totalRows]
      else []).

(** [getSmartSampledRange]: the range actually returned is the one at
    [A1:<last sampled column><maxSampleRows>], marked as sampled. *)
Definition getSmartSampledRange : Range :=
  let simplifiedEndCol := getColumnLetter sampleCols in
  let simplifiedRange :=
    getRange worksheet ("A1:" ++ simplifiedEndCol ++ string_of_Z maxSampleRows) in
  {| range_values := range_values simplifiedRange;
     range_formulas := range_formulas simplifiedRange;
     range_numberFormat := range_numberFormat simplifiedRange;
     rowCount := rowCount simplifiedRange;
     columnCount := columnCount simplifiedRange;
     address := address simplifiedRange;
     _isSampled := true;
     _originalSize := Some (totalRows, totalCols) |}.

End Sampling.

(** The outcome of the range selection in [readCurrentWorksheetDataEnhanced]:
    [range], [isSelection] and [isSampled] as they stand when the metadata
    is collected. *)
Record Selection : Type := {
  range : option Range;
  isSelection : bool;
  isSampled : bool
}.

(** [selectedRange.values[0][0]].  A grid without rows has no [values[0]],
    and reading [[0]] of [undefined] raises a TypeError: [None].  A first
    row without cells gives [undefined]. *)
Definition first_cell (r : Range) : option Value :=
  match range_values r with
  | [] => None
  | [] :: _ => Some VUndefined
  | (v :: _) :: _ => Some v
  end.

(** The choice of the range in [readCurrentWorksheetDataEnhanced].  [None]
    is an exception raised on the way: the [catch] turns it into a rejection
    of the promise ('Failed to read Excel data: ...').  The first cell of
    the selection is read only when the selection has neither more than one
    row nor more than one column. *)
Definition selectRange (shouldUseSelection : bool) (selectedRange : Range)
  (worksheet : Worksheet) : option Selection :=
  let unused := {| range := None; isSelection := false; isSampled := false |} in
  let fromSelection : option Selection :=
    if shouldUseSelection then
      let valid : option bool :=
        if (1 <? rowCount selectedRange) || (1 <? columnCount selectedRange)
        then Some true
        else
          match first_cell selectedRange with
          | Some v => Some (negb (is_null v) && negb (is_empty_string v))
          | None => None
          end in
      match valid with
      | Some true =>
          let totalCells := rowCount selectedRange * columnCount selectedRange in
          if totalCells <=? MAX_ANALYSIS_CELLS
          then Some {| range := Some selectedRange;
                       isSelection := true; isSampled := false |}
          else Some {| range := Some (getSmartSampledRange worksheet selectedRange);
                       isSelection := true; isSampled := true |}
      | Some false => Some unused
      | None => None
      end
    else Some unused in
  match fromSelection with
  | None => None
  | Some fromSelection =>
      match range fromSelection with
      | Some _ => Some fromSelection
      | None =>
          match getUsedRange worksheet with
          | Some usedRange =>
              let totalCells := rowCount usedRange * columnCount usedRange in
              if totalCells <=? MAX_ANALYSIS_CELLS
              then Some {| range := Some usedRange;
                           isSelection := false; isSampled := false |}
              else Some {| range := Some (getSmartSampledRange worksheet usedRange);
                           isSelection := false; isSampled := true |}
          | None => Some fromSelection
          end
      end
  end.

(* ===================================================================== *)
(** * DataService *)
(* ===================================================================== *)

(** The seven type tags: ['empty'], ['boolean'], ['number'], ['currency'],
    ['percentage'], ['date'], ['text']. *)
Inductive CellType : Type :=
| T_empty | T_boolean | T_number | T_currency | T_percentage | T_date | T_text.

Definition tag (t : CellType) : string :=
  match t with
  | T_empty => "empty"
  | T_boolean => "boolean"
  | T_number => "number"
  | T_currency => "currency"
  | T_percentage => "percentage"
  | T_date => "date"
  | T_text => "text"
  end.

(** The [types] object of [analyzeDataTypes]: six counters. *)
Record TypeCounts : Type := {
  text : Z; number : Z; date : Z; currency : Z; percentage : Z; boolean : Z
}.

(** [types.hasOwnProperty(detectedType)]: the object has the six keys it was
    created with, and ['empty'] is not one of them. *)
Definition hasOwnProperty (types : TypeCounts) (detectedType : CellType) : bool :=
  match detectedType with
  | T_empty => false
  | _ => true
  end.

(** [types[detectedType]++] *)
Definition increment (types : TypeCounts) (detectedType : CellType) : TypeCounts :=
  match detectedType with
  | T_text => {| text := text types + 1; number := number types; date := date types;
                 currency := currency types; percentage := percentage types;
                 boolean := boolean types |}
  | T_number => {| text := text types; number := number types + 1; date := date types;
                   currency := currency types; percentage := percentage types;
                   boolean := boolean types |}
  | T_date => {| text := text types; number := number types; date := date types + 1;
                 currency := currency types; percentage := percentage types;
                 boolean := boolean types |}
  | T_currency => {| text := text types; number := number types; date := date types;
                     currency := currency types + 1; percentage := percentage types;
                     boolean := boolean types |}
  | T_percentage => {| text := text types; number := number types; date := date types;
                       currency := currency types; percentage := percentage types + 1;
                       boolean := boolean types |}
  | T_boolean => {| text := text types; number := number types; date := date types;
                    currency := currency types; percentage := percentage types;
                    boolean := boolean types + 1 |}
  | T_empty => types
  end.

(** [Object.values(types).reduce((sum, count) => sum + count, 0)] *)
Definition sum_counts (types : TypeCounts) : Z :=
  text types + number types + date types + currency types + percentage types
  + boolean types.

(** A cleaned cell that is not a string: the object literal built in
    [analyzeAdvancedTableStructure].  [isFormula] is kept as the truth value
    of the [&&] chain, the only way it is read. *)
Record EnhancedCell : Type := {
  value : Value;
  originalType : JsType;
  format : option string;
  isFormula : bool;
  detectedType : CellType
}.

(** A cell of [cleanData]: a string (['' ] for null and undefined, the
    trimmed text for a string) or an [EnhancedCell]. *)
Inductive CleanCell : Type :=
| CleanString (s : string)
| CleanObject (c : EnhancedCell).

(** [typeof cell === 'object' ? cell.value : cell] *)
Definition cell_value (cell : CleanCell) : Value :=
  match cell with
  | CleanObject c => value c
  | CleanString s => VStr s
  end.

Record RowData : Type := {
  rowIndex : nat;
  label : Value;
  values : list Value;
  originalRow : list CleanCell;
  isTotal : bool;
  isSubtotal : bool;
  category : string;
  hasFormulas : bool;
  dataTypes_row : list CellType
}.

Record Quarter : Type := {
  quarter : string;
  quarter_value : Value;
  columnIndex : nat
}.

Record QuarterlyRow : Type := {
  quarterly_label : Value;
  labelType : string;
  quarters : list Quarter;
  quarterly_isTotal : bool
}.

Record FormulaAnalysis : Type := {
  formula_hasFormulas : bool;
  formulaCount : Z;
  formula_types : list string
}.

Record FormatAnalysis : Type := {
  hasFormatting : bool;
  format_types : list string
}.

(** The result object of a non-empty grid. *)
Record TableAnalysis : Type := {
  type : string;
  headers : list Value;
  columnHeaders : list Value;
  dataRows : list RowData;
  keyRows : list RowData;
  totalRows : list RowData;
  quarterlyData : list QuarterlyRow;
  rowLabels : list Value;
  formulaAnalysis : FormulaAnalysis;
  formatAnalysis : FormatAnalysis;
  dataTypes : TypeCounts
}.

(** The result object of an empty or absent grid: four fields only. *)
Record EmptyAnalysis : Type := {
  empty_type : string;
  empty_headers : list Value;
  empty_dataRows : list RowData;
  empty_keyRows : list RowData
}.

Inductive StructuredData : Type :=
| EmptyResult (e : EmptyAnalysis)
| TableResult (t : TableAnalysis).

(** Field reads on either variant; [totalRows] is absent from the empty
    one, which holds no row. *)
Definition result_type (r : StructuredData) : string :=
  match r with EmptyResult e => empty_type e | TableResult t => type t end.

Definition result_headers (r : StructuredData) : list Value :=
  match r with EmptyResult e => empty_headers e | TableResult t => headers t end.

Definition result_dataRows (r : StructuredData) : list RowData :=
  match r with EmptyResult e => empty_dataRows e | TableResult t => dataRows t end.

Definition result_keyRows (r : StructuredData) : list RowData :=
  match r with EmptyResult e => empty_keyRows e | TableResult t => keyRows t end.

Definition result_totalRows (r : StructuredData) : list RowData :=
  match r with EmptyResult _ => [] | TableResult t => totalRows t end.

Definition result_quarterlyData (r : StructuredData) : list QuarterlyRow :=
  match r with EmptyResult _ => [] | TableResult t => quarterlyData t end.

(** [set.add(x)] on a [Set] kept in insertion order. *)
Definition set_add (x : string) (set : list string) : list string :=
  if existsb (String.eqb x) set then set else set ++ [x].

(** [extractQuarterlyData] *)
Definition extractQuarterlyData (rowData : RowData) (headers : list Value) : QuarterlyRow :=
  let quarters :=
    forEach (fun quarters header index =>
      match header with
      | VStr h =>
          if quarter_test h then
            (* rowData.values[index - 1]; index 0 reads values[-1] *)
            let value :=
              match index with
              | O => VUndefined
              | S k => nth k (values rowData) VUndefined
              end in
            if negb (is_null value) && negb (is_undefined value)
               && negb (is_empty_string value)
            then (quarters ++ [ {| quarter := h;
                                   quarter_value := number_or (parseFloat value) value;
                                   columnIndex := index |} ])%list
            else quarters
          else quarters
      | _ => quarters
      end) headers [] in
  {| quarterly_label := label rowData;
     labelType := category rowData;
     quarters := quarters;
     quarterly_isTotal := isTotal rowData |}.

(** [findHeaderRow]: the two counts taken on a row, and the loop over the
    first five rows. *)
Definition quarterlyPattern (row : list CleanCell) : nat :=
  List.length (filter (fun cell =>
    let val := cell_value cell in
    match val with
    | VStr s => quarter_test s
    | _ => false
    end) row).

Definition textCellCount (row : list CleanCell) : nat :=
  List.length (filter (fun cell =>
    let val := cell_value cell in
    match val with
    | VStr s => (0 <? Z.of_nat (String.length s)) && isNaN val
    | _ => false
    end) row).

Fixpoint findHeaderRow_from (i : nat) (rows : list (list CleanCell)) : option nat :=
  match rows with
  | [] => None
  | row :: rest =>
      if (2 <=? quarterlyPattern row)%nat then Some i
      else if (3 <=? textCellCount row)%nat then Some i
      else findHeaderRow_from (S i) rest
  end.

Definition findHeaderRow (cleanData : list (list CleanCell)) : nat :=
  match findHeaderRow_from 0 (firstn 5 cleanData) with
  | Some i => i
  | None => 0%nat (* Default to first row *)
  end.

(** [analyzeFormulas]: the function names of a formula, the matches of
    [/([A-Z]+)\(/g] without their parenthesis: each maximal run of capital
    letters that an opening parenthesis follows. *)
Fixpoint function_names (run : string) (s : string) : list string :=
  match s with
  | EmptyString => []
  | String c s' =>
      if is_upper c then function_names (run ++ String c EmptyString) s'
      else if Ascii.eqb c "(" && negb (is_empty run) then run :: function_names EmptyString s'
      else function_names EmptyString s'
  end.

Definition is_formula (cell : Value) : bool :=
  match cell with
  | VStr s => startsWith "=" s
  | _ => false
  end.

Definition analyzeFormulas (rawFormulas : option (list (list Value))) : FormulaAnalysis :=
  match rawFormulas with
  | None => {| formula_hasFormulas := false; formulaCount := 0; formula_types := [] |}
  | Some rows =>
      let '(formulaCount, formulaTypes) :=
        fold_left (fun st row =>
          fold_left (fun '(formulaCount, formulaTypes) cell =>
            match cell with
            | VStr s =>
                if startsWith "=" s
                then (formulaCount + 1,
                      fold_left (fun set m => set_add m set) (function_names EmptyString s)
                                formulaTypes)
                else (formulaCount, formulaTypes)
            | _ => (formulaCount, formulaTypes)
            end) row st) rows (0, []) in
      {| formula_hasFormulas := 0 <? formulaCount;
         formulaCount := formulaCount;
         formula_types := formulaTypes |}
  end.

(** [analyzeNumberFormats] *)
Definition analyzeNumberFormats (numberFormats : option (list (list string))) : FormatAnalysis :=
  match numberFormats with
  | None => {| hasFormatting := false; format_types := [] |}
  | Some rows =>
      let formatTypes :=
        fold_left (fun set row =>
          fold_left (fun set format =>
            if negb (is_empty format) && negb (String.eqb format "General")
            then set_add format set else set) row set) rows [] in
      {| hasFormatting := (0 <? List.length formatTypes)%nat; format_types := formatTypes |}
  end.

Section DataService.

(** [Date.parse]: the time value of a date string, NaN when the string is
    not recognised.  Outside the ISO format the recognised strings are
    left to the engine, so the function is a parameter of the model. *)
Variable Date_parse : string -> JsNumber.t.

(** [detectCellType] *)
Definition detectCellType (value : Value) (format : option string) : CellType :=
  if is_null value || is_undefined value || is_empty_string value then T_empty
  else if JsType_eqb (typeof value) TBoolean then T_boolean
  else if JsType_eqb (typeof value) TNumber then
    match format with
    | Some format =>
        if negb (is_empty format) then
          if includes "$" format || includes "currency" format then T_currency
          else if includes "%" format then T_percentage
          else if includes "d" format || includes "m" format || includes "y" format
               then T_date
          else T_number
        else T_number
    | None => T_number
    end
  else
    match value with
    | VStr s =>
        if negb (JsNumber.is_nan (Date_parse s)) then T_date
        else if negb (JsNumber.is_nan (parseFloat value)) && isFinite value then T_number
        else T_text
    | _ => T_text
    end.

(** [analyzeDataTypes] *)
Definition analyzeDataTypes (rawValues : list (list Value))
  (numberFormats : option (list (list string))) : TypeCounts :=
  let types := {| text := 0; number := 0; date := 0; currency := 0;
                  percentage := 0; boolean := 0 |} in
  forEach (fun types row rowIndex =>
    forEach (fun types cell colIndex =>
      let format := grid_entry numberFormats rowIndex colIndex in
      let detectedType := detectCellType cell format in
      if hasOwnProperty types detectedType
      then increment types detectedType
      else types) row types) rawValues types.

(** The cleaning pass: [rawValues.map((row, rowIndex) => row.map(...))]. *)
Definition cleanData_of (rawValues : list (list Value))
  (rawFormulas : option (list (list Value)))
  (numberFormats : option (list (list string))) : list (list CleanCell) :=
  mapi (fun row rowIndex =>
    mapi (fun cell colIndex =>
      match cell with
      | VNull | VUndefined => CleanString ""
      | VStr s => CleanString (trim s)
      | _ =>
          let format := grid_entry numberFormats rowIndex colIndex in
          CleanObject
            {| value := cell;
               originalType := typeof cell;
               format := format;
               isFormula :=
                 match grid_entry rawFormulas rowIndex colIndex with
                 | Some f => truthy f && is_formula f
                 | None => false
                 end;
               detectedType := detectCellType cell format |}
      end) row) rawValues.

(** [row[0]] unwrapped: [undefined] when the row has no cell. *)
Definition rowLabel_of (row : list CleanCell) : Value :=
  match row with
  | [] => VUndefined
  | cell :: _ => cell_value cell
  end.

(** The object literal [rowData] of row [i]. *)
Definition rowData_of (i : nat) (row : list CleanCell) : RowData :=
  let rowLabel := rowLabel_of row in
  {| rowIndex := i;
     label := rowLabel;
     values := map cell_value (tl row);
     originalRow := row;
     isTotal := isLikelyTotalRow rowLabel;
     isSubtotal := isLikelySubtotalRow rowLabel;
     category := categorizeRowLabel rowLabel;
     hasFormulas :=
       existsb (fun cell =>
         match cell with CleanObject c => isFormula c | CleanString _ => false end) row;
     dataTypes_row :=
       map (fun cell =>
         match cell with CleanObject c => detectedType c | CleanString _ => T_text end) row
  |}.

(** One turn of the [for] loop over [cleanData]. *)
Definition processRow (result : TableAnalysis) (row : list CleanCell) (i : nat)
  : TableAnalysis :=
  let rowLabel := rowLabel_of row in
  if negb (truthy rowLabel) || is_empty_string rowLabel then result (* continue *)
  else
    let rowData := rowData_of i row in
    let isKey := isTotal rowData || isKeyFinancialRow rowLabel in
    let quarterlyRow := extractQuarterlyData rowData (columnHeaders result) in
    {| type := type result;
       headers := headers result;
       columnHeaders := columnHeaders result;
       dataRows := dataRows result ++ [rowData];
       keyRows := if isKey then keyRows result ++ [rowData] else keyRows result;
       totalRows :=
         if isTotal rowData then totalRows result ++ [rowData] else totalRows result;
       quarterlyData :=
         if hasQuarterlyPattern (columnHeaders result)
            && (0 <? List.length (quarters quarterlyRow))%nat
         then quarterlyData result ++ [quarterlyRow]
         else quarterlyData result;
       rowLabels := rowLabels result ++ [rowLabel];
       formulaAnalysis := formulaAnalysis result;
       formatAnalysis := formatAnalysis result;
       dataTypes := dataTypes result |}.

(** [analyzeAdvancedTableStructure] *)
Definition analyzeAdvancedTableStructure (rawValues : option (list (list Value)))
  (rawFormulas : option (list (list Value)))
  (numberFormats : option (list (list string))) : StructuredData :=
  match rawValues with
  | None | Some [] =>
      EmptyResult {| empty_type := "empty"; empty_headers := [];
                     empty_dataRows := []; empty_keyRows := [] |}
  | Some rawValues =>
      let result :=
        {| type := "advanced_financial_table";
           headers := [];
           columnHeaders := [];
           dataRows := [];
           keyRows := [];
           totalRows := [];
           quarterlyData := [];
           rowLabels := [];
           formulaAnalysis := analyzeFormulas rawFormulas;
           formatAnalysis := analyzeNumberFormats numberFormats;
           dataTypes := analyzeDataTypes rawValues numberFormats |} in
      let cleanData := cleanData_of rawValues rawFormulas numberFormats in
      let headerRowIndex := findHeaderRow cleanData in
      let result :=
        {| type := type result;
           headers := headers result;
           columnHeaders := map cell_value (nth headerRowIndex cleanData []);
           dataRows := dataRows result;
           keyRows := keyRows result;
           totalRows := totalRows result;
           quarterlyData := quarterlyData result;
           rowLabels := rowLabels result;
           formulaAnalysis := formulaAnalysis result;
           formatAnalysis := formatAnalysis result;
           dataTypes := dataTypes result |} in
      TableResult (forEach processRow cleanData result)
  end.

(** The [structuredData] field of what [readCurrentWorksheetDataEnhanced]
    resolves to: the empty result when there is no range or the range has
    no row or no column, else the analysis of the chosen range's grids;
    [None] when the promise is rejected. *)
Definition readCurrentWorksheetDataEnhanced (shouldUseSelection : bool)
  (selectedRange : Range) (worksheet : Worksheet) : option StructuredData :=
  match selectRange shouldUseSelection selectedRange worksheet with
  | None => None
  | Some selection =>
      match range selection with
      | None =>
          Some (EmptyResult {| empty_type := "empty"; empty_headers := [];
                               empty_dataRows := []; empty_keyRows := [] |})
      | Some range =>
          if (rowCount range =? 0) || (columnCount range =? 0)
          then Some (EmptyResult {| empty_type := "empty"; empty_headers := [];
                                    empty_dataRows := []; empty_keyRows := [] |})
          else Some (analyzeAdvancedTableStructure (Some (range_values range))
                       (Some (range_formulas range))
                       (Some (range_numberFormat range)))
      end
  end.

End DataService.

(* ===================================================================== *)
(** * The specification's notions *)
(* ===================================================================== *)

(** The grid's dimensions: its row count and the length of its first row. *)
Definition grid_rowCount {A : Type} (grid : list (list A)) : Z :=
  Z.of_nat (List.length grid).

Definition grid_colCount {A : Type} (grid : list (list A)) : Z :=
  Z.of_nat (List.length (hd [] grid)).

(** A cell that holds nothing: [null], [undefined] or the empty string. *)
Definition is_empty_cell (v : Value) : bool :=
  is_null v || is_undefined v || is_empty_string v.

Definition count_empty_cells (grid : list (list Value)) : Z :=
  Z.of_nat (List.length (filter is_empty_cell (List.concat grid))).

Definition count_nonempty (row : list Value) : Z :=
  Z.of_nat (List.length (filter (fun v => negb (is_empty_cell v)) row)).

(** Markers in a number format, in the specification's words. *)
Definition has_currency_marker (format : option string) : bool :=
  match format with
  | Some f => includes "$" f || includes "currency" f
  | None => false
  end.

Definition has_percent_marker (format : option string) : bool :=
  match format with
  | Some f => includes "%" f
  | None => false
  end.

Definition has_date_letters (format : option string) : bool :=
  match format with
  | Some f => includes "d" f || includes "m" f || includes "y" f
  | None => false
  end.

(** A StrDecimalLiteral starts [s]: after an optional sign comes
    [Infinity], a digit, or a point and a digit. *)
Definition starts_unsigned_decimal (s : string) : bool :=
  startsWith "Infinity" s
  || match s with
     | String c r =>
         is_digit c
         || (Ascii.eqb c "."
             && match r with String d _ => is_digit d | EmptyString => false end)
     | EmptyString => false
     end.

Definition starts_decimal (s : string) : bool :=
  starts_unsigned_decimal (snd (StrNumeric.parse_sign s)).

Fixpoint all_digits (s : string) : bool :=
  match s with
  | EmptyString => true
  | String c s' => is_digit c && all_digits s'
  end.

(** What [parse_unsigned] and [parse_signed] accept. *)
Inductive well_formed : StrNumeric.StrDecimal -> Prop :=
| wf_infinity : well_formed StrNumeric.DecInfinity
| wf_digits ip fp e :
    all_digits ip = true -> all_digits fp = true ->
    well_formed (StrNumeric.DecDigits ip fp e).

Section CellClassifier.

Variable Date_parse : string -> JsNumber.t.

Definition parses_as_date (s : string) : bool :=
  negb (JsNumber.is_nan (Date_parse s)).

(** The string is not blank and [Number] of it is finite. *)
Definition parses_as_finite_number (s : string) : bool :=
  JsNumber.is_finite (StrNumeric.StringToNumber s) && negb (all_whitespace s).

(** The decision table of the specification, one constructor per rule;
    each rule carries the failure of the rules before it. *)
Inductive classify : Value -> option string -> CellType -> Prop :=
| classify_null format : classify VNull format T_empty
| classify_undefined format : classify VUndefined format T_empty
| classify_empty_string format : classify (VStr "") format T_empty
| classify_boolean b format : classify (VBool b) format T_boolean
| classify_currency n format :
    has_currency_marker format = true ->
    classify (VNum n) format T_currency
| classify_percentage n format :
    has_currency_marker format = false ->
    has_percent_marker format = true ->
    classify (VNum n) format T_percentage
| classify_date_format n format :
    has_currency_marker format = false ->
    has_percent_marker format = false ->
    has_date_letters format = true ->
    classify (VNum n) format T_date
| classify_number n format :
    has_currency_marker format = false ->
    has_percent_marker format = false ->
    has_date_letters format = false ->
    classify (VNum n) format T_number
| classify_date_string s format :
    is_empty s = false ->
    parses_as_date s = true ->
    classify (VStr s) format T_date
| classify_number_string s format :
    is_empty s = false ->
    parses_as_date s = false ->
    parses_as_finite_number s = true ->
    classify (VStr s) format T_number
| classify_text s format :
    is_empty s = false ->
    parses_as_date s = false ->
    parses_as_finite_number s = false ->
    classify (VStr s) format T_text.

End CellClassifier.

(** [word] and [head] are the same text up to the case of the letters a-z. *)
Fixpoint same_ignoring_case (word head : string) : bool :=
  match word, head with
  | EmptyString, EmptyString => true
  | String a word', String b head' => eqb_ci a b && same_ignoring_case word' head'
  | _, _ => false
  end.

(** [s] begins with one of [words], and [s] has one of [words] somewhere
    in it, in either case. *)
Definition begins_with_one_of (words : list string) (s : string) : Prop :=
  exists word head rest,
    In word words /\ s = head ++ rest /\ same_ignoring_case word head = true.

Definition contains_one_of (words : list string) (s : string) : Prop :=
  exists word before head rest,
    In word words /\ s = before ++ head ++ rest /\ same_ignoring_case word head = true.

(** The rows the loop of [analyzeAdvancedTableStructure] keeps, from row
    [i] on: those whose label is neither falsy nor the empty string. *)
Definition keeps_row (row : list CleanCell) : bool :=
  truthy (rowLabel_of row) && negb (is_empty_string (rowLabel_of row)).

Fixpoint materialized_from (i : nat) (cleanData : list (list CleanCell)) : list RowData :=
  match cleanData with
  | [] => []
  | row :: rest =>
      if keeps_row row
      then rowData_of i row :: materialized_from (S i) rest
      else materialized_from (S i) rest
  end.

Definition isKeyRow (rowData : RowData) : bool :=
  isTotal rowData || isKeyFinancialRow (label rowData).

(** The test the loop of [findHeaderRow] makes on one row. *)
Definition header_test (row : list CleanCell) : bool :=
  (2 <=? quarterlyPattern row)%nat || (3 <=? textCellCount row)%nat.

(** The header rules in the specification's words.  A quarter label is a
    text of four characters: one of the digits 1 to 4, the letter Q in
    either case, and two decimal digits. *)
Definition decimal_digits : list ascii :=
  ["0"; "1"; "2"; "3"; "4"; "5"; "6"; "7"; "8"; "9"]%char.

Definition quarter_label (v : Value) : Prop :=
  exists a q d1 d2,
    v = VStr (String a (String q (String d1 (String d2 ""))))
    /\ In a ["1"; "2"; "3"; "4"]%char
    /\ In q ["Q"; "q"]%char
    /\ In d1 decimal_digits
    /\ In d2 decimal_digits.

(** A non-empty text that does not parse as a number: [Number] of it is
    [NaN]. *)
Definition non_numeric_text (v : Value) : Prop :=
  exists s,
    v = VStr s /\ s <> "" /\ JsNumber.is_nan (StrNumeric.StringToNumber s) = true.

(** At least [n] elements of the list satisfy [P]. *)
Inductive at_least {A : Type} (P : A -> Prop) : nat -> list A -> Prop :=
| at_least_none l : at_least P 0 l
| at_least_skip n x l : at_least P n l -> at_least P n (x :: l)
| at_least_take n x l : P x -> at_least P n l -> at_least P (S n) (x :: l).

(** Rule (a): at least two cells whose value is a quarter label; rule (b):
    at least three cells whose value is a non-numeric text. *)
Definition rule_a (row : list CleanCell) : Prop :=
  at_least quarter_label 2 (map cell_value row).

Definition rule_b (row : list CleanCell) : Prop :=
  at_least non_numeric_text 3 (map cell_value row).

Definition header_rule (row : list CleanCell) : Prop := rule_a row \/ rule_b row.


(** The range [getSmartSampledRange] returns for a block of [rows] by
    [cols] cells: what the worksheet holds at the address from A1 to the
    block's last column and row, marked as sampled from [original]. *)
Definition sampled_block (worksheet : Worksheet) (rows cols : Z) (original : Range) : Range :=
  let block := getRange worksheet ("A1:" ++ getColumnLetter cols ++ string_of_Z rows) in
  {| range_values := range_values block;
     range_formulas := range_formulas block;
     range_numberFormat := range_numberFormat block;
     rowCount := rowCount block;
     columnCount := columnCount block;
     address := address block;
     _isSampled := true;
     _originalSize := Some (rowCount original, columnCount original) |}.

(** The step both paths of [selectRange] take on their candidate range: the
    candidate itself within the budget, the sampled range beyond it. *)
Definition fit_or_sample (worksheet : Worksheet) (candidate : Range) (selected : bool)
  : Selection :=
  if rowCount candidate * columnCount candidate <=? MAX_ANALYSIS_CELLS
  then {| range := Some candidate; isSelection := selected; isSampled := false |}
  else {| range := Some (getSmartSampledRange worksheet candidate);
          isSelection := selected; isSampled := true |}.

(** The test that lets a selection stand: more than one row or column, or
    a first cell that is neither [null] nor the empty text. *)
Definition selection_usable (selectedRange : Range) : bool :=
  (1 <? rowCount selectedRange) || (1 <? columnCount selectedRange)
  || match first_cell selectedRange with
     | Some v => negb (is_null v) && negb (is_empty_string v)
     | None => false
     end.


(** The top-left block of [rows] rows and [cols] columns of a grid. *)
Definition top_left_block {A : Type} (rows cols : Z) (grid : list (list A))
  : list (list A) :=
  map (firstn (Z.to_nat cols)) (firstn (Z.to_nat rows) grid).

(** The number a text of letters stands for in Excel's column numbering,
    in exact arithmetic: A is 1, Z is 26, AA is 27. *)
Fixpoint column_value (start : Z) (letters : string) : Z :=
  match letters with
  | EmptyString => start
  | String c rest => column_value (start * 26 + (code c - 64)) rest
  end.

(** ** Sample grids *)

(** A numeric cell holding the integer [z]. *)
Definition num (z : Z) : Value := VNum (JsNumber.of_Z z).

(** The cleaned form of a numeric cell with no format and no formula. *)
Definition clean_num (z : Z) : CleanCell :=
  CleanObject {| value := num z; originalType := TNumber; format := None;
                 isFormula := false; detectedType := T_number |}.

(** One row of two cells, a number and an empty text. *)
Definition grid_with_empty_cell : list (list Value) :=
  [ [num 100; VStr ""] ].

(** A total row, a key-financial row and a plain row under a header. *)
Definition grid_financial : list (list Value) :=
  [ [VStr "Label"; VStr "1Q23"; VStr "2Q23"];
    [VStr "Total Revenue"; num 100; num 200];
    [VStr "Gross Margin %"; num 40; num 45];
    [VStr "Headcount"; num 7; num 8] ].

(** A blank-labelled row between two labelled ones. *)
Definition grid_with_blank_label : list (list Value) :=
  [ [VStr "Sales"; num 1];
    [VStr "   "; num 2];
    [VStr "Total"; num 3] ].

(** A header row whose first cell is the number 0. *)
Definition grid_zero_label_header : list (list Value) :=
  [ [num 0; VStr "1Q24"; VStr "2Q24"];
    [VStr "Revenue"; num 1; num 2] ].

(** A quarterly row whose first value is the text "0". *)
Definition grid_zero_text : list (list Value) :=
  [ [VStr "Label"; VStr "1Q23"; VStr "2Q23"];
    [VStr "Revenue"; VStr "0"; num 200] ].

(** The specification's example of a quarterly row. *)
Definition grid_quarterly : list (list Value) :=
  [ [VStr "Label"; VStr "1Q23"; VStr "2Q23"];
    [VStr "Revenue"; num 100; num 200] ].

(** A header row with a text in its first cell. *)
Definition grid_labelled_header : list (list Value) :=
  [ [VStr "Net income"; VStr "1Q24"; VStr "2Q24"];
    [VStr "Revenue"; num 1; num 2] ].

(** ** A sample worksheet *)

(** The leading capital letters of [s] and what follows them. *)
Fixpoint span_upper (s : string) : string * string :=
  match s with
  | String c s' =>
      if is_upper c then let '(letters, rest) := span_upper s' in (String c letters, rest)
      else (EmptyString, s)
  | EmptyString => (EmptyString, EmptyString)
  end.

(** An address [<letters><digits>:<letters><digits>] as first row, first
    column, last row and last column. *)
Definition parse_address (address : string) : option (Z * Z * Z * Z) :=
  let '(col1, rest) := span_upper address in
  let '(row1, rest) := StrNumeric.span_digits rest in
  match rest with
  | String sep rest =>
      let '(col2, rest) := span_upper rest in
      let '(row2, rest) := StrNumeric.span_digits rest in
      if Ascii.eqb sep ":" && is_empty rest
         && negb (is_empty col1) && negb (is_empty row1)
         && negb (is_empty col2) && negb (is_empty row2)
      then Some (StrNumeric.digits_value 0 row1, column_value 0 col1,
                 StrNumeric.digits_value 0 row2, column_value 0 col2)
      else None
  | EmptyString => None
  end.

(** A worksheet that holds in the cell of row [r] and column [c] the number
    [1000 * r + c], constants without a format; its range of [rows] rows and
    [cols] columns from the cell of row [row] and column [col]. *)
Definition sheet_cell (row col : Z) : Value := num (1000 * row + col).

Definition sheet_grid {A : Type} (cell : Z -> Z -> A) (row col rows cols : Z)
  : list (list A) :=
  map (fun i =>
         map (fun j => cell (row + Z.of_nat i) (col + Z.of_nat j))
             (seq 0 (Z.to_nat cols)))
      (seq 0 (Z.to_nat rows)).

Definition sheet_block (row col rows cols : Z) (address : string) : Range :=
  {| range_values := sheet_grid sheet_cell row col rows cols;
     range_formulas := sheet_grid sheet_cell row col rows cols;
     range_numberFormat := sheet_grid (fun _ _ => "General") row col rows cols;
     rowCount := rows;
     columnCount := cols;
     address := address;
     _isSampled := false;
     _originalSize := None |}.

Definition sheet : Worksheet :=
  {| getUsedRange := Some (sheet_block 1 1 10000 26 "A1:Z10000");
     getRange := fun address =>
       match parse_address address with
       | Some (row1, col1, row2, col2) =>
           sheet_block row1 col1 (row2 - row1 + 1) (col2 - col1 + 1) address
       | None => sheet_block 1 1 0 0 address
       end |}.

(** The selection D10:Z10000 of it: 9991 rows of 23 columns. *)
Definition sheet_selection : Range := sheet_block 10 4 9991 23 "D10:Z10000".

(* ===================================================================== *)
(** * Further notions for the properties of the remaining code *)
(* ===================================================================== *)

(** A text made of the capital letters A-Z only. *)
Fixpoint all_upper (s : string) : bool :=
  match s with
  | EmptyString => true
  | String c s' => is_upper c && all_upper s'
  end.

Definition CellType_eqb (a b : CellType) : bool :=
  match a, b with
  | T_empty, T_empty | T_boolean, T_boolean | T_number, T_number
  | T_currency, T_currency | T_percentage, T_percentage
  | T_date, T_date | T_text, T_text => true
  | _, _ => false
  end.

(** How many times the tag [t] occurs in a list of tags. *)
Definition count_type (t : CellType) (tags : list CellType) : Z :=
  Z.of_nat (List.length (filter (CellType_eqb t) tags)).

(** The counter of the [types] object under the key of a tag; the object
    has none for ['empty']. *)
Definition counter (types : TypeCounts) (t : CellType) : Z :=
  match t with
  | T_text => text types
  | T_number => number types
  | T_date => date types
  | T_currency => currency types
  | T_percentage => percentage types
  | T_boolean => boolean types
  | T_empty => 0
  end.

Section DetectedTypes.

Variable Date_parse : string -> JsNumber.t.

(** The tags of the cells of row [rowIndex] from column [colIndex] on, and
    of the rows of a grid from row [rowIndex] on, each cell taken with the
    format at its position. *)
Definition detected_row (numberFormats : option (list (list string)))
  (rowIndex colIndex : nat) (row : list Value) : list CellType :=
  mapi_from colIndex
    (fun cell colIndex =>
       detectCellType Date_parse cell (grid_entry numberFormats rowIndex colIndex)) row.

Fixpoint detected_from (numberFormats : option (list (list string)))
  (rowIndex : nat) (rawValues : list (list Value)) : list CellType :=
  match rawValues with
  | [] => []
  | row :: rest =>
      (detected_row numberFormats rowIndex 0 row
       ++ detected_from numberFormats (S rowIndex) rest)%list
  end.

Definition detected_types (rawValues : list (list Value))
  (numberFormats : option (list (list string))) : list CellType :=
  detected_from numberFormats 0 rawValues.

End DetectedTypes.

Definition is_boolean_cell (v : Value) : bool :=
  match v with VBool _ => true | _ => false end.

Definition is_number_cell (v : Value) : bool :=
  match v with VNum _ => true | _ => false end.

(** The function names a cell of the formula grid contributes: those of its
    text when it is a formula, none otherwise. *)
Definition names_of_cell (cell : Value) : list string :=
  match cell with
  | VStr s => if startsWith "=" s then function_names EmptyString s else []
  | _ => []
  end.

(** A format that [analyzeNumberFormats] records: not empty and not
    "General". *)
Definition is_custom_format (format : string) : bool :=
  negb (is_empty format) && negb (String.eqb format "General").

(** The text ends with a capital letter. *)
Fixpoint ends_upper (s : string) : bool :=
  match s with
  | EmptyString => false
  | String c s' => if is_empty s' then is_upper c else ends_upper s'
  end.

(** [name] stands in [s] as the name of a called function: a maximal run of
    capital letters with an opening parenthesis right after it. *)
Definition called_in (name s : string) : Prop :=
  exists before rest,
    s = before ++ name ++ String "(" rest
    /\ all_upper name = true
    /\ is_empty name = false
    /\ ends_upper before = false.

(** Field reads on either variant of the result, as above. *)
Definition result_columnHeaders (r : StructuredData) : list Value :=
  match r with EmptyResult _ => [] | TableResult t => columnHeaders t end.

Definition result_rowLabels (r : StructuredData) : list Value :=
  match r with EmptyResult _ => [] | TableResult t => rowLabels t end.

(** What the cleaning pass and the unwrapping together make of a raw cell:
    [null] and [undefined] become the empty text, a text is trimmed, a
    number or a boolean stays. *)
Definition clean_value (cell : Value) : Value :=
  match cell with
  | VNull | VUndefined => VStr ""
  | VStr s => VStr (trim s)
  | _ => cell
  end.

(** The series of the rows that have at least one point, under headers
    with a quarter label among them. *)
Definition quarterly_of (headers : list Value) (rows : list RowData) : list QuarterlyRow :=
  if hasQuarterlyPattern headers
  then filter (fun quarterlyRow => (0 <? List.length (quarters quarterlyRow))%nat)
              (map (fun rowData => extractQuarterlyData rowData headers) rows)
  else [].

(** The tag a row object records for a raw cell at a position: the detected
    type of a number or a boolean, ['text'] for everything else. *)
Definition row_cell_type (Date_parse : string -> JsNumber.t)
  (numberFormats : option (list (list string))) (rowIndex : nat)
  (cell : Value) (colIndex : nat) : CellType :=
  if is_number_cell cell || is_boolean_cell cell
  then detectCellType Date_parse cell (grid_entry numberFormats rowIndex colIndex)
  else T_text.

(** A value that cleaning can leave: not [null], not [undefined], and a
    text only when it is its own trim. *)
Definition is_clean (v : Value) : Prop :=
  match v with
  | VNull | VUndefined => False
  | VStr s => trim s = s
  | _ => True
  end.

(** The cleaning of one cell and of one row, as [cleanData_of] does it at
    row [rowIndex]. *)
Definition clean_cell (Date_parse : string -> JsNumber.t)
  (rawFormulas : option (list (list Value)))
  (numberFormats : option (list (list string)))
  (rowIndex : nat) (cell : Value) (colIndex : nat) : CleanCell :=
  match cell with
  | VNull | VUndefined => CleanString ""
  | VStr s => CleanString (trim s)
  | _ =>
      let format := grid_entry numberFormats rowIndex colIndex in
      CleanObject
        {| value := cell;
           originalType := typeof cell;
           format := format;
           isFormula :=
             match grid_entry rawFormulas rowIndex colIndex with
             | Some f => truthy f && is_formula f
             | None => false
             end;
           detectedType := detectCellType Date_parse cell format |}
  end.

Definition clean_row (Date_parse : string -> JsNumber.t)
  (rawFormulas : option (list (list Value)))
  (numberFormats : option (list (list string)))
  (rowIndex : nat) (row : list Value) : list CleanCell :=
  mapi (clean_cell Date_parse rawFormulas numberFormats rowIndex) row.


(** The row numbers [rowNum] the sampling plan of [getSmartSampledRange]
    takes between the header block and the footer block. *)
Definition sampledMiddleRows (originalRange : Range) : list Z :=
  let totalRows := rowCount originalRange in
  if 0 <? middleRows originalRange
  then
    let step :=
      (totalRows - headerRows originalRange - footerRows originalRange)
      / middleRows originalRange in
    map (fun i => headerRows originalRange + 1 + Z.of_nat i * step)
        (seq 0 (Z.to_nat (middleRows originalRange)))
  else [].

(* ===================================================================== *)
(** * AIService: the conversation history *)
(* ===================================================================== *)

Module AIService.

(** An entry of [conversationHistory]. *)
Record Message : Type := {
  role : string;
  content : string;
  timestamp : string
}.

(** [this.CONFIG.MAX_HISTORY] *)
Definition MAX_HISTORY : nat := 12.

(** [arr.slice(-n)] for [0 < n]: the last [n] elements, all of them when
    there are fewer. *)
Definition slice_last {A : Type} (n : nat) (arr : list A) : list A :=
  skipn (List.length arr - n) arr.

(** [addToConversationHistory(role, content)] on the history; [now] is
    what [new Date().toISOString()] gives at the call. *)
Definition addToConversationHistory (now : string) (role content : string)
  (conversationHistory : list Message) : list Message :=
  let conversationHistory :=
    (conversationHistory
     ++ [ {| role := role; content := content; timestamp := now |} ])%list in
  if (MAX_HISTORY * 2 <? List.length conversationHistory)%nat
  then slice_last (MAX_HISTORY * 2) conversationHistory
  else conversationHistory.

Definition clearConversation (conversationHistory : list Message) : list Message := [].

(** [Math.floor(this.conversationHistory.length / 2)] *)
Definition getConversationLength (conversationHistory : list Message) : nat :=
  (List.length conversationHistory / 2)%nat.

(** The calls that change the history, and a sequence of them run on it. *)
Inductive Call : Type :=
| Add (now role content : string)
| Clear.

Definition call (conversationHistory : list Message) (c : Call) : list Message :=
  match c with
  | Add now role content => addToConversationHistory now role content conversationHistory
  | Clear => clearConversation conversationHistory
  end.

Definition run (calls : list Call) (conversationHistory : list Message) : list Message :=
  fold_left call calls conversationHistory.

(** The calls that add the given messages, in order. *)
Definition adds_of (messages : list Message) : list Call :=
  map (fun m => Add (timestamp m) (role m) (content m)) messages.

End AIService.

(** The three analyses of the result; the 'empty' structure has none. *)
Definition result_formulaAnalysis (r : StructuredData) : option FormulaAnalysis :=
  match r with EmptyResult _ => None | TableResult t => Some (formulaAnalysis t) end.

Definition result_formatAnalysis (r : StructuredData) : option FormatAnalysis :=
  match r with EmptyResult _ => None | TableResult t => Some (formatAnalysis t) end.

Definition result_dataTypes (r : StructuredData) : option TypeCounts :=
  match r with EmptyResult _ => None | TableResult t => Some (dataTypes t) end.
(* ===================================================================== *)
(** * Properties *)
(* ===================================================================== *)

(** ** Integers held in Numbers *)

Lemma nearest_even_bounds (a b : Z) :
  0 <= a -> 0 < b ->
  a / b <= JsInteger.nearest_even a b <= a / b + 1
  /\ 2 * b * JsInteger.nearest_even a b <= 2 * a + b.
Proof.
  intros Ha Hb. unfold JsInteger.nearest_even.
  pose proof (Z.div_mod a b ltac:(lia)) as Hdm.
  pose proof (Z.mod_pos_bound a b Hb) as Hm.
  destruct (Z.ltb_spec (2 * (a mod b)) b); [split; nia|].
  destruct (Z.ltb_spec b (2 * (a mod b))); [split; nia|].
  destruct (Z.even (a / b)); split; nia.
Qed.

Lemma round_exact (z : Z) : Z.abs z < 2 ^ 53 -> JsInteger.round z = z.
Proof.
  intros Hz. unfold JsInteger.round.
  destruct (Z.ltb_spec (Z.abs z) (2 ^ 53)); [reflexivity | lia].
Qed.

Lemma round_nonneg (z : Z) : 0 <= z -> 0 <= JsInteger.round z.
Proof.
  intros Hz. unfold JsInteger.round.
  destruct (Z.ltb_spec (Z.abs z) (2 ^ 53)) as [|Hbig]; [assumption|].
  rewrite Z.abs_eq in * by assumption.
  assert (0 < z) by lia. rewrite Z.sgn_pos, Z.mul_1_l by assumption.
  set (unit := 2 ^ (Z.log2 z - 52)).
  assert (Hlog : 53 <= Z.log2 z) by (apply Z.log2_le_pow2; lia).
  assert (Hu : 0 < unit) by (subst unit; apply Z.pow_pos_nonneg; lia).
  destruct (nearest_even_bounds z unit ltac:(lia) Hu) as [[Hlo _] _].
  assert (0 <= z / unit) by (apply Z.div_pos; lia).
  nia.
Qed.

Lemma of_exact_safe (z : Z) :
  Z.abs z <= 2 ^ 53 -> JsInteger.of_exact z = JsInteger.Finite z.
Proof.
  intros Hz. unfold JsInteger.of_exact.
  assert (Hr : JsInteger.round z = z).
  { destruct (Z.eq_dec (Z.abs z) (2 ^ 53)) as [Heq|Hne];
      [|apply round_exact; lia].
    destruct (Z.abs_eq_or_opp z) as [Ha|Ha]; rewrite Ha in Heq.
    - rewrite Heq. reflexivity.
    - replace z with (- 2 ^ 53) by lia. reflexivity. }
  rewrite Hr.
  destruct (Z.leb_spec (2 ^ 1024) (Z.abs z)) as [Hbig|]; [|reflexivity].
  assert (2 ^ 53 < 2 ^ 1024) by (apply Z.pow_lt_mono_r; lia). lia.
Qed.

(** Below 2^53 the quotient by 26, rounded to 53 bits, never reaches the
    next integer: its fraction is at most 25/26, and the rounding moves it
    by less than 1/32. *)
Lemma floor_div_exact (d : Z) :
  0 <= d < 2 ^ 53 -> JsInteger.floor_div d 26 = d / 26.
Proof.
  intros [Hd Hbig]. unfold JsInteger.floor_div.
  destruct (Z.eqb_spec (d / 26) 0) as [H0|H0]; [now rewrite H0|].
  assert (Hq : 0 <= d / 26) by (apply Z.div_pos; lia).
  set (q := d / 26) in *.
  pose proof (Z.div_mod d 26 ltac:(lia)) as Hdm. fold q in Hdm.
  pose proof (Z.mod_pos_bound d 26 ltac:(lia)) as Hm.
  assert (Hq49 : q < 2 ^ 49).
  { change (2 ^ 53) with (16 * 2 ^ 49) in Hbig. lia. }
  assert (Hlog : Z.log2 q < 49) by (apply Z.log2_lt_pow2; lia).
  assert (Hlog0 : 0 <= Z.log2 q) by apply Z.log2_nonneg.
  destruct (Z.ltb_spec (Z.log2 q - 52) 0) as [_|He]; [|lia].
  set (f := - (Z.log2 q - 52)). assert (Hf : 4 <= f) by (subst f; lia).
  set (p := 2 ^ f).
  assert (Hp : 16 <= p).
  { subst p. change 16 with (2 ^ 4). apply Z.pow_le_mono_r; lia. }
  destruct (nearest_even_bounds (d * p) 26 ltac:(nia) ltac:(lia)) as [[Hlo _] Hhi].
  symmetry. apply Z.div_unique_pos with
    (r := JsInteger.nearest_even (d * p) 26 - q * p); [|lia].
  assert (Hlow : q * p <= d * p / 26) by (apply Z.div_le_lower_bound; nia).
  split; [lia|]. nia.
Qed.

(** ** Column letters *)

Example getColumnLetter_28 : getColumnLetter 28 = "AB".
Proof. reflexivity. Qed.

Example getColumnLetter_16384 : getColumnLetter 16384 = "XFD".
Proof. reflexivity. Qed.

Lemma code_fromCharCode (n : Z) : 0 <= n < 256 -> code (fromCharCode n) = n.
Proof.
  intros Hn. unfold code, fromCharCode.
  rewrite N_ascii_embedding by lia.
  apply Z2N.id; lia.
Qed.

Lemma fromCharCode_code (c : ascii) : fromCharCode (code c) = c.
Proof. unfold fromCharCode, code. now rewrite N2Z.id, ascii_N_embedding. Qed.

Lemma append_empty_r (s : string) : s ++ "" = s.
Proof. induction s; cbn; [reflexivity | now f_equal]. Qed.

Lemma getColumnLetter_loop_step (columnNumber : Z) (columnLetter : string) :
  0 < columnNumber ->
  getColumnLetter_loop columnNumber columnLetter
  = getColumnLetter_loop
      (JsInteger.floor_div (JsInteger.round (columnNumber - 1)) 26)
      (String (fromCharCode (65 + Z.rem (JsInteger.round (columnNumber - 1)) 26))
              columnLetter).
Proof.
  intros Hpos. rewrite getColumnLetter_loop_equation_1.
  destruct (Z_lt_dec 0 columnNumber); [reflexivity | contradiction].
Qed.

Lemma getColumnLetter_loop_stop (columnNumber : Z) (columnLetter : string) :
  columnNumber <= 0 -> getColumnLetter_loop columnNumber columnLetter = columnLetter.
Proof.
  intros Hle. rewrite getColumnLetter_loop_equation_1.
  destruct (Z_lt_dec 0 columnNumber); [lia | reflexivity].
Qed.

(** Up to 2^53 the loop computes in exact arithmetic. *)
Lemma getColumnLetter_loop_step_exact (columnNumber : Z) (columnLetter : string) :
  0 < columnNumber <= 2 ^ 53 ->
  getColumnLetter_loop columnNumber columnLetter
  = getColumnLetter_loop ((columnNumber - 1) / 26)
      (String (fromCharCode (65 + (columnNumber - 1) mod 26)) columnLetter).
Proof.
  intros [Hpos Hbig]. rewrite getColumnLetter_loop_step by assumption.
  rewrite round_exact by lia. rewrite floor_div_exact by lia.
  now rewrite Z.rem_mod_nonneg by lia.
Qed.

Lemma getColumnLetter_loop_all_upper (columnNumber : Z) (columnLetter : string) :
  all_upper columnLetter = true ->
  all_upper (getColumnLetter_loop columnNumber columnLetter) = true.
Proof.
  funelim (getColumnLetter_loop columnNumber columnLetter); intros Hacc; [|assumption].
  apply H. cbn [all_upper]. rewrite Hacc, andb_true_r.
  assert (Hr : 0 <= Z.rem (JsInteger.round (columnNumber - 1)) 26 < 26)
    by (apply Z.rem_bound_pos; [apply round_nonneg|]; lia).
  unfold is_upper. rewrite code_fromCharCode by lia. lia.
Qed.

Lemma getColumnLetter_loop_grows (columnNumber : Z) (columnLetter : string) :
  (String.length columnLetter
   <= String.length (getColumnLetter_loop columnNumber columnLetter))%nat.
Proof.
  funelim (getColumnLetter_loop columnNumber columnLetter); [|lia].
  etransitivity; [|exact H]. cbn. lia.
Qed.

(** The letters written for a number up to 2^53 stand for that number. *)
Lemma column_value_loop_letter (columnNumber : Z) (columnLetter : string) :
  0 <= columnNumber <= 2 ^ 53 ->
  column_value 0 (getColumnLetter_loop columnNumber columnLetter)
  = column_value columnNumber columnLetter.
Proof.
  funelim (getColumnLetter_loop columnNumber columnLetter); intros [Hpos Hbig].
  - rewrite round_exact in * by lia. rewrite floor_div_exact in * by lia.
    assert (Hq : 0 <= (columnNumber - 1) / 26 <= columnNumber - 1).
    { split; [apply Z.div_pos; lia|].
      apply Z.div_le_upper_bound; lia. }
    rewrite H by lia. cbn [column_value]. f_equal.
    assert (Hr : 0 <= Z.rem (columnNumber - 1) 26 < 26)
      by (apply Z.rem_bound_pos; lia).
    rewrite code_fromCharCode by lia.
    rewrite Z.rem_mod_nonneg in * by lia.
    pose proof (Z.div_mod (columnNumber - 1) 26 ltac:(lia)). lia.
  - replace columnNumber with 0 by lia. reflexivity.
Qed.

Lemma column_value_ge (columnLetter : string) (start : Z) :
  all_upper columnLetter = true -> 0 <= start ->
  start <= column_value start columnLetter.
Proof.
  revert start. induction columnLetter as [|c s IH]; intros k Hup Hk; cbn; [lia|].
  cbn [all_upper] in Hup. apply andb_true_iff in Hup as [Hc Hs].
  unfold is_upper in Hc. etransitivity; [|apply IH; [assumption | lia]]. lia.
Qed.

Lemma column_value_bound (columnLetter : string) (start : Z) :
  all_upper columnLetter = true -> 0 <= start ->
  column_value start columnLetter + 2
  <= (start + 2) * 26 ^ Z.of_nat (String.length columnLetter).
Proof.
  revert start. induction columnLetter as [|c s IH]; intros k Hup Hk.
  - cbn. lia.
  - cbn [all_upper] in Hup. apply andb_true_iff in Hup as [Hc Hs].
    unfold is_upper in Hc. cbn [column_value String.length].
    rewrite Nat2Z.inj_succ, Z.pow_succ_r by lia.
    etransitivity; [apply IH; [assumption | lia]|].
    assert (0 < 26 ^ Z.of_nat (String.length s)) by (apply Z.pow_pos_nonneg; lia).
    nia.
Qed.

(** Letters that stand for a number up to 2^53 are read in exact
    arithmetic. *)
Lemma getColumnNumber_loop_exact (columnLetter : string) (start : Z) :
  all_upper columnLetter = true -> 0 <= start ->
  column_value start columnLetter <= 2 ^ 53 ->
  getColumnNumber_loop (JsInteger.Finite start) columnLetter
  = JsInteger.Finite (column_value start columnLetter).
Proof.
  revert start. induction columnLetter as [|c s IH]; intros k Hup Hk Hbig;
    [reflexivity|].
  cbn [all_upper] in Hup. apply andb_true_iff in Hup as [Hc Hs].
  unfold is_upper in Hc. cbn [getColumnNumber_loop column_value] in *.
  pose proof (column_value_ge s (k * 26 + (code c - 64)) Hs ltac:(lia)) as Hge.
  cbn [JsInteger.mul]. rewrite of_exact_safe by lia.
  cbn [JsInteger.add]. rewrite of_exact_safe by lia.
  apply IH; [assumption | lia | assumption].
Qed.

Lemma getColumnLetter_loop_number (columnLetter rest : string) (start : Z) :
  all_upper columnLetter = true -> 0 <= start ->
  column_value start columnLetter <= 2 ^ 53 ->
  getColumnLetter_loop (column_value start columnLetter) rest
  = getColumnLetter_loop start (columnLetter ++ rest).
Proof.
  revert start rest.
  induction columnLetter as [|c s IH]; intros k rest Hup Hk Hbig; [reflexivity|].
  cbn [all_upper] in Hup. apply andb_true_iff in Hup as [Hc Hs].
  cbn [column_value append] in *.
  assert (Hd : 1 <= code c - 64 <= 26) by (unfold is_upper in Hc; lia).
  pose proof (column_value_ge s (k * 26 + (code c - 64)) Hs ltac:(lia)) as Hge.
  rewrite IH by (assumption || lia).
  rewrite getColumnLetter_loop_step_exact by lia.
  replace (k * 26 + (code c - 64) - 1) with ((code c - 65) + k * 26) by lia.
  rewrite Z_mod_plus_full, Z.mod_small by lia.
  rewrite Z.div_add, Z.div_small by lia.
  replace (65 + (code c - 65)) with (code c) by lia.
  rewrite fromCharCode_code. reflexivity.
Qed.

(** C10 (as amended): for every integer n from 1 to 2^53, converting the
    column number to letters and back gives n again:
    getColumnNumber(getColumnLetter(n)) = n.  Up to 2^53 every step of both
    loops is exact in the arithmetic of Numbers. *)
Theorem getColumnNumber_getColumnLetter (n : Z) :
  1 <= n <= 2 ^ 53 ->
  getColumnNumber (getColumnLetter n) = JsInteger.Finite n.
Proof.
  intros Hn. unfold getColumnNumber, getColumnLetter.
  pose proof (column_value_loop_letter n "" ltac:(lia)) as Hv. cbn [column_value] in Hv.
  rewrite getColumnNumber_loop_exact; [now rewrite Hv | | lia | lia].
  now apply getColumnLetter_loop_all_upper.
Qed.

Lemma getColumnNumber_getColumnLetter_witness :
  1 <= 703 <= 2 ^ 53
  /\ getColumnLetter 703 = "AAA"
  /\ getColumnNumber (getColumnLetter 703) = JsInteger.Finite 703.
Proof.
  assert (Hn : 1 <= 703 <= 2 ^ 53) by (split; vm_compute; discriminate).
  split; [exact Hn | split; [reflexivity|]].
  exact (getColumnNumber_getColumnLetter 703 Hn).
Defined.

(** C10, as stated for every integer n >= 1, fails beyond 2^53: the Number
    2^53 + 2 holds an integer, its predecessor 2^53 + 1 is not a Number and
    rounds to 2^53, so the last letter written is that of 2^53 and the way
    back gives 2^53. *)
Lemma getColumnNumber_getColumnLetter_counterexample :
  JsInteger.round (2 ^ 53 + 2) = 2 ^ 53 + 2
  /\ JsInteger.round (2 ^ 53 + 2 - 1) = 2 ^ 53
  /\ getColumnLetter (2 ^ 53 + 2) = "BKTXHSOGHKKG"
  /\ getColumnLetter (2 ^ 53) = "BKTXHSOGHKKF"
  /\ getColumnNumber (getColumnLetter (2 ^ 53 + 2)) = JsInteger.Finite (2 ^ 53)
  /\ JsInteger.Finite (2 ^ 53) <> JsInteger.Finite (2 ^ 53 + 2).
Proof.
  repeat match goal with |- _ /\ _ => split end;
    try (vm_compute; reflexivity).
  vm_compute. discriminate.
Qed.

(** X1: for every integer, [getColumnLetter] returns capital letters A-Z
    only, and it returns the empty text exactly when the number is zero or
    negative. *)
Theorem getColumnLetter_letters (columnNumber : Z) :
  all_upper (getColumnLetter columnNumber) = true
  /\ (getColumnLetter columnNumber = "" <-> columnNumber <= 0).
Proof.
  split; [now apply getColumnLetter_loop_all_upper|].
  unfold getColumnLetter. split.
  - intros Hempty. destruct (Z_lt_dec 0 columnNumber) as [Hpos|]; [|lia].
    rewrite getColumnLetter_loop_step in Hempty by assumption.
    match type of Hempty with
    | getColumnLetter_loop ?n ?acc = _ =>
        pose proof (getColumnLetter_loop_grows n acc) as Hlen
    end.
    rewrite Hempty in Hlen. cbn in Hlen. lia.
  - apply getColumnLetter_loop_stop.
Qed.

(** X2: the letters of a column give back themselves as long as their
    number is a Number: for every text of at most eleven capital letters
    A-Z, getColumnNumber gives a finite number n, at least 1 unless the text
    is empty, and getColumnLetter(n) is the text again. *)
Theorem getColumnLetter_getColumnNumber (columnLetter : string) :
  all_upper columnLetter = true ->
  (String.length columnLetter <= 11)%nat ->
  exists n,
    getColumnNumber columnLetter = JsInteger.Finite n
    /\ getColumnLetter n = columnLetter
    /\ (is_empty columnLetter = false -> 1 <= n).
Proof.
  intros Hup Hlen. exists (column_value 0 columnLetter).
  assert (Hbig : column_value 0 columnLetter <= 2 ^ 53).
  { pose proof (column_value_bound columnLetter 0 Hup ltac:(lia)) as Hb.
    assert (26 ^ Z.of_nat (String.length columnLetter) <= 26 ^ 11)
      by (apply Z.pow_le_mono_r; lia).
    assert (2 * 26 ^ 11 <= 2 ^ 53) by (vm_compute; discriminate).
    lia. }
  split; [|split].
  - unfold getColumnNumber. now apply getColumnNumber_loop_exact.
  - unfold getColumnLetter.
    rewrite getColumnLetter_loop_number by (assumption || lia).
    rewrite getColumnLetter_loop_stop by lia.
    apply append_empty_r.
  - destruct columnLetter as [|c s]; [discriminate|]. intros _.
    cbn [column_value all_upper] in *.
    apply andb_true_iff in Hup as [Hc Hs]. unfold is_upper in Hc.
    etransitivity; [|apply column_value_ge; [assumption | lia]]. lia.
Qed.

Lemma getColumnLetter_getColumnNumber_witness :
  all_upper "XFD" = true
  /\ (String.length "XFD" <= 11)%nat
  /\ getColumnNumber "XFD" = JsInteger.Finite 16384
  /\ exists n,
       getColumnNumber "XFD" = JsInteger.Finite n
       /\ getColumnLetter n = "XFD"
       /\ (is_empty "XFD" = false -> 1 <= n).
Proof.
  assert (Hlen : (String.length "XFD" <= 11)%nat) by (cbn; lia).
  split; [reflexivity | split; [exact Hlen | split; [reflexivity|]]].
  exact (getColumnLetter_getColumnNumber "XFD" eq_refl Hlen).
Defined.

(** Twelve letters can pass 2^53: the number of twelve Z's is rounded, and
    the letters of the rounded number are other letters. *)
Example getColumnNumber_twelve_Z :
  column_value 0 "ZZZZZZZZZZZZ" = 99246114928149462
  /\ getColumnNumber "ZZZZZZZZZZZZ" = JsInteger.Finite 99246114928149472
  /\ getColumnLetter 99246114928149472 = "AAAAAAAAAAAAK".
Proof. repeat split; vm_compute; reflexivity. Qed.

(** ** Arrays *)

Lemma nth_error_mapi_from {A B : Type} (f : A -> nat -> B) (l : list A) (k i : nat) :
  nth_error (mapi_from k f l) i = option_map (fun x => f x (k + i)%nat) (nth_error l i).
Proof.
  revert k i. induction l as [|x l IH]; intros k [|i]; cbn; try reflexivity.
  - now rewrite Nat.add_0_r.
  - rewrite IH. now rewrite Nat.add_succ_r.
Qed.

Lemma nth_error_mapi {A B : Type} (f : A -> nat -> B) (l : list A) (i : nat) :
  nth_error (mapi f l) i = option_map (fun x => f x i) (nth_error l i).
Proof. unfold mapi. now rewrite nth_error_mapi_from. Qed.

(** ** Trimming *)

Lemma trimStart_all_whitespace (s : string) :
  all_whitespace s = true -> trimStart s = "".
Proof.
  induction s as [|c s IH]; cbn; [reflexivity|].
  intros H. apply andb_prop in H as [Hc Hs]. rewrite Hc. auto.
Qed.

Lemma trim_all_whitespace (s : string) :
  all_whitespace s = true -> trim s = "".
Proof.
  intros H. unfold trim. now rewrite trimStart_all_whitespace.
Qed.

Lemma trimEnd_empty (s : string) :
  trimEnd s = "" -> all_whitespace s = true.
Proof.
  induction s as [|c s IH]; cbn; [reflexivity|].
  destruct (is_whitespace c) eqn:Hc; cbn; [|discriminate].
  destruct (trimEnd s) eqn:Ht; cbn; [auto | discriminate].
Qed.

Lemma trimStart_whitespace_tail (s : string) :
  all_whitespace (trimStart s) = true -> all_whitespace s = true.
Proof.
  induction s as [|c s IH]; cbn; [reflexivity|].
  destruct (is_whitespace c) eqn:Hc; cbn; [auto|].
  rewrite Hc. discriminate.
Qed.

(** A string trims to the empty string exactly when it holds white space
    only. *)
Lemma trim_empty_iff (s : string) :
  trim s = "" <-> all_whitespace s = true.
Proof.
  split; [|apply trim_all_whitespace].
  unfold trim. intros H. apply trimEnd_empty in H.
  now apply trimStart_whitespace_tail.
Qed.

(** Trimming the end leaves a prefix. *)
Lemma trimEnd_prefix (s : string) : exists w, s = trimEnd s ++ w.
Proof.
  induction s as [|c s [w IH]]; [now exists ""|].
  cbn [trimEnd]. destruct (is_whitespace c && is_empty (trimEnd s)).
  - now exists (String c s).
  - exists w. cbn. now rewrite <- IH.
Qed.

(** ** Numeric literals *)

Lemma startsWith_app (p s w : string) :
  startsWith p s = true -> startsWith p (s ++ w) = true.
Proof.
  revert s. induction p as [|a p IH]; intros s; [reflexivity|].
  destruct s as [|b s]; cbn; [discriminate|].
  intros H. apply andb_true_iff in H as [Hab Hp]. rewrite Hab. cbn. auto.
Qed.

Lemma strip_prefix_startsWith (p s : string) :
  match StrNumeric.strip_prefix p s with Some _ => true | None => false end
  = startsWith p s.
Proof.
  revert s. induction p as [|a p IH]; intros s; [reflexivity|].
  destruct s as [|b s]; cbn; [reflexivity|].
  destruct (Ascii.eqb a b); cbn; [apply IH | reflexivity].
Qed.

Lemma span_digits_all_digits (s : string) :
  all_digits (fst (StrNumeric.span_digits s)) = true.
Proof.
  induction s as [|c s IH]; cbn; [reflexivity|].
  destruct (is_digit c) eqn:Hc; [|reflexivity].
  destruct (StrNumeric.span_digits s) as [ds rest]. cbn in *. now rewrite Hc.
Qed.

Lemma span_digits_empty (s : string) :
  is_empty (fst (StrNumeric.span_digits s))
  = negb match s with String c _ => is_digit c | EmptyString => false end.
Proof.
  destruct s as [|c s]; cbn; [reflexivity|].
  destruct (is_digit c); [|reflexivity].
  now destruct (StrNumeric.span_digits s).
Qed.

Lemma span_digits_no_digit (c : ascii) (s : string) :
  is_digit c = false -> StrNumeric.span_digits (String c s) = ("", String c s).
Proof. intros H. cbn. now rewrite H. Qed.

Lemma digits_value_nonneg (ds : string) (acc : Z) :
  all_digits ds = true -> 0 <= acc -> 0 <= StrNumeric.digits_value acc ds.
Proof.
  revert acc. induction ds as [|c ds IH]; intros acc; cbn; [auto|].
  intros H Hacc. apply andb_true_iff in H as [Hc Hds].
  apply IH; [assumption|]. unfold is_digit in Hc. lia.
Qed.

Lemma all_digits_app (a b : string) :
  all_digits a = true -> all_digits b = true -> all_digits (a ++ b) = true.
Proof.
  induction a as [|c a IH]; cbn; [auto|].
  intros H Hb. apply andb_true_iff in H as [Hc Ha]. rewrite Hc. cbn. auto.
Qed.

Lemma parse_unsigned_well_formed (s : string) (d : StrNumeric.StrDecimal) (rest : string) :
  StrNumeric.parse_unsigned s = Some (d, rest) -> well_formed d.
Proof.
  unfold StrNumeric.parse_unsigned.
  destruct (StrNumeric.strip_prefix "Infinity" s); [intros [= <- _]; constructor|].
  pose proof (span_digits_all_digits s) as Hip.
  destruct (StrNumeric.span_digits s) as [ip r1]. cbn in Hip.
  destruct r1 as [|c r2].
  - destruct (is_empty ip); [discriminate|]. intros [= <- _]. now constructor.
  - destruct (Ascii.eqb c ".").
    + pose proof (span_digits_all_digits r2) as Hfp.
      destruct (StrNumeric.span_digits r2) as [fp r3]. cbn in Hfp.
      destruct (is_empty ip && is_empty fp); [discriminate|].
      destruct (StrNumeric.parse_exponent r3). intros [= <- _]. now constructor.
    + destruct (is_empty ip); [discriminate|].
      destruct (StrNumeric.parse_exponent (String c r2)). intros [= <- _].
      now constructor.
Qed.

Lemma parse_unsigned_starts (s : string) :
  match StrNumeric.parse_unsigned s with Some _ => true | None => false end
  = starts_unsigned_decimal s.
Proof.
  unfold StrNumeric.parse_unsigned, starts_unsigned_decimal.
  rewrite <- strip_prefix_startsWith.
  destruct (StrNumeric.strip_prefix "Infinity" s); [reflexivity|]. cbn [orb].
  destruct s as [|c s]; [reflexivity|].
  destruct (is_digit c) eqn:Hc.
  - cbn [StrNumeric.span_digits]. rewrite Hc.
    destruct (StrNumeric.span_digits s) as [ds r1].
    destruct r1 as [|c2 r2]; cbn [is_empty]; [reflexivity|].
    destruct (Ascii.eqb c2 ".").
    + destruct (StrNumeric.span_digits r2) as [fp r3]. cbn [is_empty andb].
      now destruct (StrNumeric.parse_exponent r3).
    + now destruct (StrNumeric.parse_exponent (String c2 r2)).
  - rewrite (span_digits_no_digit c s Hc). cbn [orb is_empty].
    destruct (Ascii.eqb c "."); [|reflexivity].
    pose proof (span_digits_empty s) as He.
    destruct (StrNumeric.span_digits s) as [fp r3]. cbn in He. cbn [andb].
    rewrite He.
    destruct s as [|d s']; cbn [negb]; [reflexivity|].
    destruct (is_digit d); cbn [negb]; [|reflexivity].
    now destruct (StrNumeric.parse_exponent r3).
Qed.

Lemma parse_signed_starts (s : string) :
  match StrNumeric.parse_signed s with Some _ => true | None => false end
  = starts_decimal s.
Proof.
  unfold StrNumeric.parse_signed, starts_decimal.
  destruct (StrNumeric.parse_sign s) as [negative r]. cbn [snd].
  rewrite <- parse_unsigned_starts.
  now destruct (StrNumeric.parse_unsigned r) as [[d rest]|].
Qed.

Lemma parse_signed_well_formed (s : string) (negative : bool)
  (d : StrNumeric.StrDecimal) (rest : string) :
  StrNumeric.parse_signed s = Some (negative, d, rest) -> well_formed d.
Proof.
  unfold StrNumeric.parse_signed.
  destruct (StrNumeric.parse_sign s) as [n r].
  destruct (StrNumeric.parse_unsigned r) as [[d' rest']|] eqn:Hp; [|discriminate].
  intros [= _ <- _]. eapply parse_unsigned_well_formed; eauto.
Qed.

Lemma starts_unsigned_decimal_app (s w : string) :
  starts_unsigned_decimal s = true -> starts_unsigned_decimal (s ++ w) = true.
Proof.
  unfold starts_unsigned_decimal. intros H.
  apply orb_true_iff in H as [H|H].
  - now rewrite (startsWith_app _ _ w H).
  - apply orb_true_iff. right.
    destruct s as [|c r]; [discriminate|]. cbn [append].
    destruct (is_digit c); [reflexivity|]. cbn [orb] in *.
    destruct (Ascii.eqb c "."); [|discriminate]. cbn [andb] in *.
    destruct r; [discriminate | exact H].
Qed.

Lemma starts_decimal_app (s w : string) :
  starts_decimal s = true -> starts_decimal (s ++ w) = true.
Proof.
  unfold starts_decimal. destruct s as [|c r]; [discriminate|].
  cbn [append StrNumeric.parse_sign].
  destruct (Ascii.eqb c "+"); [apply starts_unsigned_decimal_app|].
  destruct (Ascii.eqb c "-"); [apply starts_unsigned_decimal_app|].
  apply (starts_unsigned_decimal_app (String c r)).
Qed.

(** ** Rounding never gives NaN *)

Lemma shr_1_nonneg (mrs : shr_record) : 0 <= shr_m mrs -> 0 <= shr_m (shr_1 mrs).
Proof.
  destruct mrs as [m r s]. cbn [shr_m]. intros Hm. unfold shr_1.
  destruct m as [|p|p]; [cbn; lia | | lia].
  destruct p; cbn; lia.
Qed.

Lemma iter_pos_shr_1_nonneg (p : positive) (mrs : shr_record) :
  0 <= shr_m mrs -> 0 <= shr_m (iter_pos shr_1 p mrs).
Proof.
  revert mrs. induction p as [p IH|p IH|]; intros mrs Hm; cbn [iter_pos].
  - apply IH, IH, shr_1_nonneg, Hm.
  - apply IH, IH, Hm.
  - apply shr_1_nonneg, Hm.
Qed.

Lemma shr_fexp_nonneg (m e : Z) (l : location) :
  0 <= m -> 0 <= shr_m (fst (shr_fexp JsNumber.prec JsNumber.emax m e l)).
Proof.
  intros Hm. unfold shr_fexp, shr.
  assert (H0 : 0 <= shr_m (shr_record_of_loc m l))
    by (destruct l as [|[]]; cbn; exact Hm).
  destruct (fexp JsNumber.prec JsNumber.emax
              (Zdigits2 m + e) - e) as [|p|p]; cbn [fst]; auto.
  now apply iter_pos_shr_1_nonneg.
Qed.

Lemma round_nearest_even_nonneg (m : Z) (l : location) :
  0 <= m -> 0 <= round_nearest_even m l.
Proof.
  intros Hm. unfold round_nearest_even.
  destruct l as [|[]]; try lia. destruct (Z.even m); lia.
Qed.

Lemma binary_round_aux_not_nan (s : bool) (m e : Z) (l : location) :
  0 <= m ->
  JsNumber.is_nan (binary_round_aux JsNumber.prec JsNumber.emax s m e l) = false.
Proof.
  intros Hm. unfold binary_round_aux.
  pose proof (shr_fexp_nonneg m e l Hm) as H1.
  destruct (shr_fexp JsNumber.prec JsNumber.emax m e l) as [mrs' e']. cbn [fst] in H1.
  pose proof (shr_fexp_nonneg
                (round_nearest_even (shr_m mrs') (loc_of_shr_record mrs')) e' loc_Exact
                (round_nearest_even_nonneg _ _ H1)) as H2.
  destruct (shr_fexp JsNumber.prec JsNumber.emax
              (round_nearest_even (shr_m mrs') (loc_of_shr_record mrs')) e' loc_Exact)
    as [mrs'' e'']. cbn [fst] in H2.
  destruct (shr_m mrs'') as [|p|p]; [reflexivity | | lia].
  now destruct (e'' <=? JsNumber.emax - JsNumber.prec).
Qed.

Lemma binary_normalize_not_nan (m e : Z) (s : bool) :
  JsNumber.is_nan (binary_normalize JsNumber.prec JsNumber.emax m e s) = false.
Proof.
  unfold binary_normalize, binary_round.
  destruct m as [|p|p]; [reflexivity | |].
  - destruct (shl_align p e _) as [mz ez]. now apply binary_round_aux_not_nan.
  - destruct (shl_align p e _) as [mz ez]. now apply binary_round_aux_not_nan.
Qed.

Lemma of_decimal_not_nan (negative : bool) (m e : Z) :
  0 <= m -> JsNumber.is_nan (JsNumber.of_decimal negative m e) = false.
Proof.
  intros Hm. unfold JsNumber.of_decimal.
  destruct (m =? 0); [reflexivity|].
  destruct (Z.leb_spec 0 e) as [He|He]; [apply binary_normalize_not_nan|].
  unfold SFdiv_core_binary.
  set (e' := Z.min _ _). set (m' := match 0 - 0 - e' with Z0 => m | Zpos _ => _ | Zneg _ => 0 end).
  assert (Hm' : 0 <= m').
  { subst m'. destruct (0 - 0 - e'); [assumption | | lia].
    rewrite Z.shiftl_mul_pow2 by lia. apply Z.mul_nonneg_nonneg; [assumption|].
    apply Z.pow_nonneg. lia. }
  assert (Hpow : 0 < 10 ^ (- e)) by (apply Z.pow_pos_nonneg; lia).
  pose proof (Z.div_pos m' (10 ^ (- e)) Hm' Hpow) as Hq.
  unfold Z.div in Hq.
  destruct (Z.div_eucl m' (10 ^ (- e))) as [q r]. cbn [fst] in Hq.
  now apply binary_round_aux_not_nan.
Qed.

Lemma decimal_value_not_nan (negative : bool) (d : StrNumeric.StrDecimal) :
  well_formed d -> JsNumber.is_nan (StrNumeric.decimal_value negative d) = false.
Proof.
  intros [|ip fp e Hip Hfp]; [reflexivity|]. cbn [StrNumeric.decimal_value].
  apply of_decimal_not_nan, digits_value_nonneg; [|lia].
  now apply all_digits_app.
Qed.

(** [parseFloat] gives NaN on a string exactly when, leading white space
    apart, no StrDecimalLiteral starts it. *)
Lemma parseFloat_string_nan (s : string) :
  JsNumber.is_nan (StrNumeric.parseFloat_string s) = negb (starts_decimal (trimStart s)).
Proof.
  unfold StrNumeric.parseFloat_string. rewrite <- parse_signed_starts.
  destruct (StrNumeric.parse_signed (trimStart s)) as [[[negative d] rest]|] eqn:Hp;
    [|reflexivity].
  cbn [negb]. apply decimal_value_not_nan. eapply parse_signed_well_formed; eauto.
Qed.

(** A string whose [Number] is finite is blank or starts, once trimmed, with
    a numeric literal that [parseFloat] reads too. *)
Lemma StringToNumber_finite_starts (s : string) :
  JsNumber.is_finite (StrNumeric.StringToNumber s) = true ->
  is_empty (trim s) = true \/ starts_decimal (trim s) = true.
Proof.
  unfold StrNumeric.StringToNumber.
  destruct (is_empty (trim s)) eqn:He; [auto|]. intros H. right.
  destruct (StrNumeric.parse_non_decimal (trim s)) as [n|] eqn:Hn.
  - unfold StrNumeric.parse_non_decimal in Hn.
    destruct (trim s) as [|z [|c [|d ds]]]; try discriminate.
    destruct (Ascii.eqb_spec z "0") as [->|]; [reflexivity | discriminate].
  - rewrite <- parse_signed_starts.
    destruct (StrNumeric.parse_signed (trim s)) as [[[negative d] rest]|];
      [reflexivity | discriminate].
Qed.

(** The code's test on a string, [!isNaN(parseFloat(value)) &&
    isFinite(value)], holds exactly when [Number(value)] is finite and the
    string is not blank. *)
Lemma parseFloat_isFinite_test (s : string) :
  negb (JsNumber.is_nan (parseFloat (VStr s))) && isFinite (VStr s)
  = parses_as_finite_number s.
Proof.
  unfold parses_as_finite_number, isFinite, ToNumber, parseFloat.
  rewrite parseFloat_string_nan, negb_involutive.
  destruct (JsNumber.is_finite (StrNumeric.StringToNumber s)) eqn:Hf;
    [|apply andb_false_r].
  rewrite andb_true_r. cbn [andb].
  destruct (all_whitespace s) eqn:Hw; cbn [negb].
  - now rewrite (trimStart_all_whitespace s Hw).
  - apply StringToNumber_finite_starts in Hf as [He|Hs].
    + assert (trim s = "") by (destruct (trim s); [reflexivity | discriminate]).
      apply trim_empty_iff in H. congruence.
    + destruct (trimEnd_prefix (trimStart s)) as [w Hw'].
      rewrite Hw'. apply starts_decimal_app. exact Hs.
Qed.

(** ** Cell type detection *)

Section DetectCellType.

Variable Date_parse : string -> JsNumber.t.

Lemma detectCellType_classify (value : Value) (format : option string) :
  classify Date_parse value format (detectCellType Date_parse value format).
Proof.
  destruct value as [| |b|n|s]; cbn.
  - constructor.
  - constructor.
  - constructor.
  - destruct format as [f|]; cbn.
    + destruct f as [|c f]; cbn - [includes].
      * now apply classify_number.
      * destruct (includes "$" (String c f) || includes "currency" (String c f)) eqn:Hc.
        { now apply classify_currency. }
        destruct (includes "%" (String c f)) eqn:Hp.
        { now apply classify_percentage. }
        destruct (includes "d" (String c f) || includes "m" (String c f)
                  || includes "y" (String c f)) eqn:Hd.
        { now apply classify_date_format. }
        now apply classify_number.
    + now apply classify_number.
  - destruct s as [|c s]; cbn - [parseFloat isFinite].
    + constructor.
    + destruct (JsNumber.is_nan (Date_parse (String c s))) eqn:Hd; cbn [negb].
      * rewrite parseFloat_isFinite_test.
        destruct (parses_as_finite_number (String c s)) eqn:Hn.
        { apply classify_number_string; auto. unfold parses_as_date. now rewrite Hd. }
        { apply classify_text; auto. unfold parses_as_date. now rewrite Hd. }
      * apply classify_date_string; auto. unfold parses_as_date. now rewrite Hd.
Qed.

Lemma classify_functional (value : Value) (format : option string) (t1 t2 : CellType) :
  classify Date_parse value format t1 ->
  classify Date_parse value format t2 ->
  t1 = t2.
Proof.
  intros H1 H2.
  inversion H1; subst; inversion H2; subst; try reflexivity; try congruence;
    try discriminate.
Qed.

(** C4: [detectCellType] returns, for every value and format, the one tag
    the specification's ordered rules give: it is total (a function into
    the seven tags) and no other tag satisfies the rules. *)
Theorem detectCellType_total_deterministic (value : Value) (format : option string) :
  classify Date_parse value format (detectCellType Date_parse value format)
  /\ (forall t, classify Date_parse value format t ->
                t = detectCellType Date_parse value format)
  /\ In (tag (detectCellType Date_parse value format))
        ["empty"; "boolean"; "number"; "currency"; "percentage"; "date"; "text"].
Proof.
  split; [apply detectCellType_classify | split].
  - intros t Ht. eapply classify_functional; eauto using detectCellType_classify.
  - destruct (detectCellType Date_parse value format); cbn; tauto.
Qed.

Lemma detectCellType_empty (value : Value) (format : option string) :
  forall types,
    hasOwnProperty types (detectCellType Date_parse value format)
    = negb (is_empty_cell value).
Proof.
  intros types. pose proof (detectCellType_classify value format) as H.
  inversion H; subst; try reflexivity;
    match goal with
    | Hs : is_empty ?s = false |- _ => destruct s; [discriminate | reflexivity]
    end.
Qed.

End DetectCellType.

(** ** The type histogram *)

Section AnalyzeDataTypes.

Variable Date_parse : string -> JsNumber.t.

Lemma sum_counts_increment (types : TypeCounts) (t : CellType) :
  sum_counts (increment types t)
  = sum_counts types + (if hasOwnProperty types t then 1 else 0).
Proof. destruct t; unfold sum_counts; cbn; lia. Qed.

Lemma count_nonempty_cons (v : Value) (row : list Value) :
  count_nonempty (v :: row)
  = (if is_empty_cell v then 0 else 1) + count_nonempty row.
Proof.
  unfold count_nonempty. cbn [filter].
  destruct (is_empty_cell v); cbn [negb List.length]; lia.
Qed.

Lemma count_nonempty_app (r1 r2 : list Value) :
  count_nonempty (r1 ++ r2) = count_nonempty r1 + count_nonempty r2.
Proof.
  unfold count_nonempty. rewrite filter_app, length_app. lia.
Qed.

Lemma count_nonempty_empty (row : list Value) :
  count_nonempty row + Z.of_nat (List.length (filter is_empty_cell row))
  = Z.of_nat (List.length row).
Proof.
  induction row as [|v row IH]; [reflexivity|].
  rewrite count_nonempty_cons. cbn [filter List.length].
  destruct (is_empty_cell v); cbn [List.length]; lia.
Qed.

(** The inner [forEach]: one count for every cell of the row that is not
    empty. *)
Lemma sum_counts_row (numberFormats : option (list (list string)))
  (rowIndex : nat) (row : list Value) (colIndex : nat) (types : TypeCounts) :
  sum_counts
    (forEach_from colIndex
       (fun types cell colIndex =>
          let format := grid_entry numberFormats rowIndex colIndex in
          let detectedType := detectCellType Date_parse cell format in
          if hasOwnProperty types detectedType
          then increment types detectedType
          else types) row types)
  = sum_counts types + count_nonempty row.
Proof.
  revert colIndex types.
  induction row as [|cell row IH]; intros colIndex types.
  - cbn. unfold count_nonempty. cbn. lia.
  - cbn [forEach_from]. rewrite IH, count_nonempty_cons. cbv zeta.
    rewrite detectCellType_empty.
    destruct (is_empty_cell cell) eqn:He; cbn [negb]; [lia|].
    rewrite sum_counts_increment, detectCellType_empty, He. cbn [negb]. lia.
Qed.

Lemma sum_counts_grid (numberFormats : option (list (list string)))
  (rawValues : list (list Value)) (rowIndex : nat) (types : TypeCounts) :
  sum_counts
    (forEach_from rowIndex
       (fun types row rowIndex =>
          forEach (fun types cell colIndex =>
            let format := grid_entry numberFormats rowIndex colIndex in
            let detectedType := detectCellType Date_parse cell format in
            if hasOwnProperty types detectedType
            then increment types detectedType
            else types) row types) rawValues types)
  = sum_counts types + count_nonempty (List.concat rawValues).
Proof.
  revert rowIndex types.
  induction rawValues as [|row rows IH]; intros rowIndex types.
  - cbn. unfold count_nonempty. cbn. lia.
  - cbn [forEach_from List.concat]. rewrite IH. unfold forEach.
    rewrite sum_counts_row, count_nonempty_app. lia.
Qed.

Lemma sum_counts_analyzeDataTypes (rawValues : list (list Value))
  (numberFormats : option (list (list string))) :
  sum_counts (analyzeDataTypes Date_parse rawValues numberFormats)
  = Z.of_nat (List.length (List.concat rawValues)) - count_empty_cells rawValues.
Proof.
  unfold analyzeDataTypes. cbv zeta.
  etransitivity; [exact (sum_counts_grid numberFormats rawValues 0 _)|].
  unfold count_empty_cells.
  pose proof (count_nonempty_empty (List.concat rawValues)).
  unfold sum_counts; cbn. lia.
Qed.

Lemma length_concat_rectangular {A : Type} (grid : list (list A)) (colCount : nat) :
  Forall (fun row => List.length row = colCount) grid ->
  List.length (List.concat grid) = (List.length grid * colCount)%nat.
Proof.
  induction 1 as [|row rows Hrow _ IH]; [reflexivity|].
  cbn. rewrite length_app, IH, Hrow. reflexivity.
Qed.

(** C1 (as amended): the histogram has the six non-empty tags only; on a
    grid of rowCount rows of colCount cells each, the sum of its counts is
    rowCount * colCount less the number of empty cells (null, undefined or
    the empty string), which are counted nowhere. *)
Theorem analyzeDataTypes_sum (rawValues : list (list Value))
  (numberFormats : option (list (list string))) (colCount : nat) :
  Forall (fun row => List.length row = colCount) rawValues ->
  sum_counts (analyzeDataTypes Date_parse rawValues numberFormats)
  = grid_rowCount rawValues * Z.of_nat colCount - count_empty_cells rawValues.
Proof.
  intros Hrect. rewrite sum_counts_analyzeDataTypes.
  rewrite (length_concat_rectangular rawValues colCount Hrect).
  unfold grid_rowCount. lia.
Qed.

End AnalyzeDataTypes.

(** ** Label patterns *)

Lemma startsWith_ci_iff (p s : string) :
  startsWith_ci p s = true <->
  exists head rest, s = head ++ rest /\ same_ignoring_case p head = true.
Proof.
  revert s. induction p as [|a p IH]; intros s; cbn [startsWith_ci].
  - split; [intros _; exists "", s; auto | auto].
  - destruct s as [|b s].
    + split; [discriminate|]. intros (head & rest & Hs & Hc).
      destruct head; cbn in Hs, Hc; discriminate.
    + rewrite andb_true_iff, IH. split.
      * intros (Hab & head & rest & -> & Hc).
        exists (String b head), rest. cbn. rewrite Hab, Hc. auto.
      * intros (head & rest & Hs & Hc).
        destruct head as [|b' head]; cbn in Hs, Hc; [discriminate|].
        injection Hs as <- ->. apply andb_true_iff in Hc as [Hab Hc].
        split; [assumption|]. exists head, rest. auto.
Qed.

Lemma includes_ci_iff (p s : string) :
  includes_ci p s = true <->
  exists before head rest,
    s = before ++ head ++ rest /\ same_ignoring_case p head = true.
Proof.
  induction s as [|c s IH].
  - cbn [includes_ci]. rewrite orb_false_r, startsWith_ci_iff. split.
    + intros (head & rest & Hs & Hc). exists "", head, rest. auto.
    + intros (before & head & rest & Hs & Hc).
      destruct before; cbn in Hs; [eauto | discriminate].
  - cbn [includes_ci]. rewrite orb_true_iff, startsWith_ci_iff, IH. split.
    + intros [(head & rest & Hs & Hc) | (before & head & rest & -> & Hc)].
      * exists "", head, rest. auto.
      * exists (String c before), head, rest. auto.
    + intros (before & head & rest & Hs & Hc).
      destruct before as [|c' before]; cbn in Hs.
      * left. eauto.
      * right. injection Hs as <- ->. eauto.
Qed.

Lemma test_anchored_iff (words : list string) (s : string) :
  test_anchored words s = true <-> begins_with_one_of words s.
Proof.
  unfold test_anchored, begins_with_one_of. rewrite existsb_exists. split.
  - intros (word & Hin & Hm). apply startsWith_ci_iff in Hm as (head & rest & Hs & Hc).
    eauto 7.
  - intros (word & head & rest & Hin & Hs & Hc). exists word. split; [assumption|].
    apply startsWith_ci_iff. eauto.
Qed.

Lemma test_anywhere_iff (words : list string) (s : string) :
  test_anywhere words s = true <-> contains_one_of words s.
Proof.
  unfold test_anywhere, contains_one_of. rewrite existsb_exists. split.
  - intros (word & Hin & Hm).
    apply includes_ci_iff in Hm as (before & head & rest & Hs & Hc). eauto 8.
  - intros (word & before & head & rest & Hin & Hs & Hc). exists word.
    split; [assumption|]. apply includes_ci_iff. eauto.
Qed.

(** A text label is a total label when, trimmed, it begins with one of the
    total words. *)
Lemma isLikelyTotalRow_iff (s : string) :
  isLikelyTotalRow (VStr s) = true <-> begins_with_one_of totalKeywords (trim s).
Proof. apply test_anchored_iff. Qed.


(** ** Row classification *)

Section RowClassifier.

Variable Date_parse : string -> JsNumber.t.

Lemma In_materialized_from (rowData : RowData) (cleanData : list (list CleanCell)) (i : nat) :
  In rowData (materialized_from i cleanData) <->
  exists j row, nth_error cleanData j = Some row /\ keeps_row row = true
                /\ rowData = rowData_of (i + j) row.
Proof.
  revert i. induction cleanData as [|r rest IH]; intros i; cbn [materialized_from].
  - split; [intros [] | intros (j & row & Hn & _)]. now destruct j.
  - split.
    + intros H.
      assert (Hcases : (keeps_row r = true /\ rowData = rowData_of i r)
                       \/ In rowData (materialized_from (S i) rest)).
      { destruct (keeps_row r); [destruct H as [H|H]; auto | auto]. }
      destruct Hcases as [[Hk ->] | Hin].
      * exists 0%nat, r. rewrite Nat.add_0_r. auto.
      * apply IH in Hin as (j & row & Hn & Hk & ->).
        exists (S j), row. rewrite Nat.add_succ_r. auto.
    + intros (j & row & Hn & Hk & ->). destruct j as [|j]; cbn in Hn.
      * injection Hn as ->. rewrite Hk, Nat.add_0_r. now left.
      * assert (In (rowData_of (i + S j) row) (materialized_from (S i) rest)).
        { apply IH. exists j, row. rewrite Nat.add_succ_r. auto. }
        destruct (keeps_row r); [now right | assumption].
Qed.

(** The loop appends to the four row lists in step. *)
Lemma forEach_processRow (cleanData : list (list CleanCell)) (i : nat)
  (result : TableAnalysis) :
  let final := forEach_from i processRow cleanData result in
  dataRows final = (dataRows result ++ materialized_from i cleanData)%list
  /\ keyRows final
     = (keyRows result ++ filter isKeyRow (materialized_from i cleanData))%list
  /\ totalRows final
     = (totalRows result ++ filter isTotal (materialized_from i cleanData))%list
  /\ rowLabels final
     = (rowLabels result ++ map label (materialized_from i cleanData))%list
  /\ columnHeaders final = columnHeaders result.
Proof.
  revert i result. induction cleanData as [|row rest IH]; intros i result.
  - cbn. now rewrite !app_nil_r.
  - cbn [forEach_from materialized_from].
    specialize (IH (S i) (processRow result row i)).
    cbv zeta in IH |- *. destruct IH as (Hd & Hk & Ht & Hl & Hc).
    rewrite Hd, Hk, Ht, Hl, Hc. clear Hd Hk Ht Hl Hc.
    unfold processRow, keeps_row.
    destruct (truthy (rowLabel_of row)); cbn [negb orb andb];
      [destruct (is_empty_string (rowLabel_of row)); cbn [negb] |];
      try (repeat split; reflexivity).
    cbn [dataRows keyRows totalRows rowLabels columnHeaders filter map].
    unfold isKeyRow at 2. cbn [label isTotal rowData_of].
    destruct (isLikelyTotalRow (rowLabel_of row)); cbn [orb];
      [| destruct (isKeyFinancialRow (rowLabel_of row)) ];
      rewrite <- ?app_assoc; repeat split; reflexivity.
Qed.

(** The row lists of the result, for any grid. *)
Lemma analyzeAdvancedTableStructure_rows (rawValues : list (list Value))
  (rawFormulas : option (list (list Value)))
  (numberFormats : option (list (list string))) :
  let result :=
    analyzeAdvancedTableStructure Date_parse (Some rawValues) rawFormulas numberFormats in
  let rows :=
    materialized_from 0 (cleanData_of Date_parse rawValues rawFormulas numberFormats) in
  result_dataRows result = rows
  /\ result_keyRows result = filter isKeyRow rows
  /\ result_totalRows result = filter isTotal rows.
Proof.
  destruct rawValues as [|row0 rest]; [cbn; auto|].
  cbv zeta. unfold analyzeAdvancedTableStructure.
  cbn [result_dataRows result_keyRows result_totalRows].
  match goal with
  | |- context [forEach processRow ?cd ?r] =>
      pose proof (forEach_processRow cd 0 r) as H
  end.
  cbv zeta in H. destruct H as (Hd & Hk & Ht & _).
  unfold forEach. rewrite Hd, Hk, Ht. cbn [dataRows keyRows totalRows app].
  auto.
Qed.

Lemma In_result_rows (rawValues : option (list (list Value)))
  (rawFormulas : option (list (list Value)))
  (numberFormats : option (list (list string))) (rowData : RowData) :
  let result :=
    analyzeAdvancedTableStructure Date_parse rawValues rawFormulas numberFormats in
  In rowData (result_dataRows result ++ result_keyRows result ++ result_totalRows result) ->
  In rowData (result_dataRows result).
Proof.
  destruct rawValues as [rawValues|]; [|cbn; tauto].
  cbv zeta.
  destruct (analyzeAdvancedTableStructure_rows rawValues rawFormulas numberFormats)
    as (Hd & Hk & Ht).
  cbv zeta in Hd, Hk, Ht. rewrite Hk, Ht, Hd.
  rewrite !in_app_iff, !filter_In. tauto.
Qed.

(** A data row of the result is the row object of a cleaned row that the
    loop kept, at that row's index. *)
Lemma result_dataRows_inv (rawValues : list (list Value))
  (rawFormulas : option (list (list Value)))
  (numberFormats : option (list (list string))) (rowData : RowData) :
  In rowData
     (result_dataRows
        (analyzeAdvancedTableStructure Date_parse (Some rawValues) rawFormulas
           numberFormats)) <->
  exists row,
    nth_error (cleanData_of Date_parse rawValues rawFormulas numberFormats)
              (rowIndex rowData) = Some row
    /\ keeps_row row = true
    /\ rowData = rowData_of (rowIndex rowData) row.
Proof.
  destruct (analyzeAdvancedTableStructure_rows rawValues rawFormulas numberFormats)
    as (Hd & _).
  cbv zeta in Hd. rewrite Hd, In_materialized_from. split.
  - intros (j & row & Hn & Hk & ->). exists row. cbn. auto.
  - intros (row & Hn & Hk & Heq). exists (rowIndex rowData), row. cbn. auto.
Qed.

(** C7: a row whose column-0 label is the empty string or white space only
    is never materialized: no row of dataRows, keyRows or totalRows has
    its index. *)
Theorem blank_label_row_not_materialized (rawValues : list (list Value))
  (rawFormulas : option (list (list Value)))
  (numberFormats : option (list (list string)))
  (i : nat) (s : string) (rest : list Value) (rowData : RowData) :
  nth_error rawValues i = Some (VStr s :: rest) ->
  all_whitespace s = true ->
  let result :=
    analyzeAdvancedTableStructure Date_parse (Some rawValues) rawFormulas numberFormats in
  In rowData (result_dataRows result ++ result_keyRows result ++ result_totalRows result) ->
  rowIndex rowData <> i.
Proof.
  intros Hrow Hws result Hin Hi.
  apply In_result_rows in Hin. apply result_dataRows_inv in Hin.
  destruct Hin as (row & Hn & Hk & _).
  rewrite Hi in Hn. unfold cleanData_of in Hn.
  rewrite nth_error_mapi, Hrow in Hn. cbn in Hn. injection Hn as <-.
  rewrite (trim_all_whitespace s Hws) in Hk. discriminate.
Qed.


(** The row at the detected header index goes through the row classifier
    like every other row: when its cleaned label is kept (neither falsy
    nor the empty string) its row object is in dataRows, in totalRows when
    its label is a total label, and in keyRows when its label is a total
    or a key-financial label. *)
Lemma header_row_is_processed (rawValues : list (list Value))
  (rawFormulas : option (list (list Value)))
  (numberFormats : option (list (list string))) (row : list CleanCell) :
  let cleanData := cleanData_of Date_parse rawValues rawFormulas numberFormats in
  let headerRowIndex := findHeaderRow cleanData in
  let result :=
    analyzeAdvancedTableStructure Date_parse (Some rawValues) rawFormulas numberFormats in
  nth_error cleanData headerRowIndex = Some row ->
  keeps_row row = true ->
  In (rowData_of headerRowIndex row) (result_dataRows result)
  /\ (isLikelyTotalRow (rowLabel_of row) = true ->
      In (rowData_of headerRowIndex row) (result_totalRows result))
  /\ (isLikelyTotalRow (rowLabel_of row) || isKeyFinancialRow (rowLabel_of row) = true ->
      In (rowData_of headerRowIndex row) (result_keyRows result)).
Proof.
  cbv zeta. intros Hn Hk.
  destruct (analyzeAdvancedTableStructure_rows rawValues rawFormulas numberFormats)
    as (Hd & Hkey & Ht).
  cbv zeta in Hd, Hkey, Ht. rewrite Hkey, Ht, !filter_In, Hd.
  assert (Hin : In (rowData_of
                      (findHeaderRow
                         (cleanData_of Date_parse rawValues rawFormulas numberFormats)) row)
                   (materialized_from 0
                      (cleanData_of Date_parse rawValues rawFormulas numberFormats))).
  { apply In_materialized_from. eexists _, row. cbn. eauto. }
  repeat split; auto.
Qed.

End RowClassifier.

(** ** Header detection *)

Lemma findHeaderRow_from_Some (rows : list (list CleanCell)) (i k : nat) :
  findHeaderRow_from i rows = Some k ->
  exists j row,
    k = (i + j)%nat /\ nth_error rows j = Some row /\ header_test row = true
    /\ forall j' row', (j' < j)%nat -> nth_error rows j' = Some row' ->
                       header_test row' = false.
Proof.
  revert i. induction rows as [|r rest IH]; intros i; cbn [findHeaderRow_from];
    [discriminate|].
  destruct (header_test r) eqn:Hr.
  - intros Hk.
    assert (k = i) as ->.
    { unfold header_test in Hr.
      destruct (2 <=? quarterlyPattern r)%nat; [congruence|].
      destruct (3 <=? textCellCount r)%nat; [congruence | discriminate]. }
    exists 0%nat, r. rewrite Nat.add_0_r. repeat split; auto.
    intros j' row' Hj. inversion Hj.
  - unfold header_test in Hr. apply orb_false_elim in Hr as [Ha Hb].
    rewrite Ha, Hb. intros Hk.
    apply IH in Hk as (j & row & -> & Hn & Hrule & Hbefore).
    exists (S j), row. rewrite Nat.add_succ_r. repeat split; auto.
    intros [|j'] row' Hj Hn'; cbn in Hn'.
    + injection Hn' as <-. unfold header_test. now rewrite Ha, Hb.
    + apply (Hbefore j'); [lia | assumption].
Qed.

Lemma findHeaderRow_from_None (rows : list (list CleanCell)) (i : nat) :
  findHeaderRow_from i rows = None ->
  forall j row, nth_error rows j = Some row -> header_test row = false.
Proof.
  revert i. induction rows as [|r rest IH]; intros i; cbn [findHeaderRow_from].
  - intros _ [|j] row; discriminate.
  - destruct (2 <=? quarterlyPattern r)%nat eqn:Ha; [discriminate|].
    destruct (3 <=? textCellCount r)%nat eqn:Hb; [discriminate|].
    intros Hnone [|j] row Hn; cbn in Hn.
    + injection Hn as <-. unfold header_test. now rewrite Ha, Hb.
    + eapply IH; eauto.
Qed.

Lemma nth_error_firstn_Some {A : Type} (n j : nat) (l : list A) (x : A) :
  nth_error (firstn n l) j = Some x <-> (j < n)%nat /\ nth_error l j = Some x.
Proof.
  revert j l. induction n as [|n IH]; intros j l.
  - cbn. split; [destruct j; discriminate | lia].
  - destruct l as [|y l]; cbn [firstn].
    + destruct j; cbn; split; try discriminate; intros [_ H]; discriminate.
    + destruct j as [|j]; cbn [nth_error].
      * split; [intros H; split; [lia | assumption] | tauto].
      * rewrite IH. split; intros [H1 H2]; split; auto; lia.
Qed.

(** Counting with a test is counting in the sense of [at_least]. *)
Lemma filter_at_least {A : Type} (P : A -> Prop) (p : A -> bool) (l : list A) (n : nat) :
  (forall x, p x = true <-> P x) ->
  (n <= List.length (filter p l))%nat <-> at_least P n l.
Proof.
  intros Hp. split.
  - revert n. induction l as [|x l IH]; intros n Hn; cbn [filter] in Hn.
    + cbn in Hn. replace n with 0%nat by lia. constructor.
    + destruct (p x) eqn:Hx.
      * destruct n as [|n]; [constructor|].
        cbn in Hn. apply at_least_take; [now apply Hp | apply IH; lia].
      * apply at_least_skip. now apply IH.
  - induction 1 as [l | n x l _ IH | n x l Hx _ IH]; cbn [filter].
    + lia.
    + destruct (p x); cbn [List.length]; lia.
    + apply Hp in Hx. rewrite Hx. cbn [List.length]. lia.
Qed.

Lemma filter_map_length {A B : Type} (f : A -> B) (p : B -> bool) (l : list A) :
  List.length (filter p (map f l)) = List.length (filter (fun x => p (f x)) l).
Proof.
  induction l as [|x l IH]; [reflexivity|]. cbn [map filter].
  destruct (p (f x)); cbn [List.length]; now rewrite IH.
Qed.

(** The characters the quarter pattern admits in each place. *)
Ltac character_cases c :=
  destruct c as [[] [] [] [] [] [] [] []]; vm_compute;
  (split; intros H;
   [ first [ discriminate H | tauto ]
   | first [ reflexivity
           | exfalso; repeat (destruct H as [H|H]; [discriminate H|]); exact H ] ]).

Lemma quarter_digit_chars (a : ascii) :
  (49 <=? code a) && (code a <=? 52) = true <-> In a ["1"; "2"; "3"; "4"]%char.
Proof. character_cases a. Qed.

Lemma letter_Q_chars (q : ascii) :
  eqb_ci q "Q" = true <-> In q ["Q"; "q"]%char.
Proof. character_cases q. Qed.

Lemma decimal_digit_chars (d : ascii) :
  is_digit d = true <-> In d decimal_digits.
Proof. character_cases d. Qed.

(** The pattern [/^[1-4]Q\d{2}$/i] tests for a quarter label. *)
Lemma quarter_test_label (s : string) :
  quarter_test s = true <-> quarter_label (VStr s).
Proof.
  unfold quarter_label. split.
  - destruct s as [|a [|q [|d1 [|d2 [|]]]]]; try discriminate.
    unfold quarter_test. rewrite !andb_true_iff.
    intros ((((Ha1 & Ha2) & Hq) & H1) & H2).
    exists a, q, d1, d2. split; [reflexivity|].
    split; [apply quarter_digit_chars; now rewrite Ha1, Ha2|].
    split; [now apply letter_Q_chars|].
    split; now apply decimal_digit_chars.
  - intros (a & q & d1 & d2 & Hs & Ha & Hq & H1 & H2). injection Hs as ->.
    apply quarter_digit_chars in Ha. apply letter_Q_chars in Hq.
    apply decimal_digit_chars in H1, H2.
    unfold quarter_test. now rewrite Ha, Hq, H1, H2.
Qed.

Lemma quarter_label_test (v : Value) :
  match v with VStr s => quarter_test s | _ => false end = true <-> quarter_label v.
Proof.
  destruct v as [| |b|n|s]; try apply quarter_test_label;
    (split; [discriminate | intros (a & q & d1 & d2 & Hs & _); discriminate]).
Qed.

Lemma non_numeric_text_test (v : Value) :
  match v with
  | VStr s => (0 <? Z.of_nat (String.length s)) && isNaN v
  | _ => false
  end = true <-> non_numeric_text v.
Proof.
  unfold non_numeric_text. destruct v as [| |b|n|s];
    try (split; [discriminate | intros (s & Hs & _); discriminate]).
  rewrite andb_true_iff, Z.ltb_lt. split.
  - intros [Hlen Hnan]. exists s. split; [reflexivity|]. split; [|exact Hnan].
    intros ->. cbn in Hlen. lia.
  - intros (s' & Hs & Hne & Hnan). injection Hs as <-. split; [|exact Hnan].
    destruct s; [contradiction | cbn; lia].
Qed.

(** The two counts of [findHeaderRow] are the counts of the rules. *)
Lemma quarterlyPattern_rule_a (row : list CleanCell) :
  (2 <=? quarterlyPattern row)%nat = true <-> rule_a row.
Proof.
  unfold rule_a, quarterlyPattern. rewrite Nat.leb_le.
  rewrite <- (filter_at_least quarter_label
                (fun v => match v with VStr s => quarter_test s | _ => false end))
    by apply quarter_label_test.
  now rewrite filter_map_length.
Qed.

Lemma textCellCount_rule_b (row : list CleanCell) :
  (3 <=? textCellCount row)%nat = true <-> rule_b row.
Proof.
  unfold rule_b, textCellCount. rewrite Nat.leb_le.
  rewrite <- (filter_at_least non_numeric_text
                (fun v => match v with
                          | VStr s => (0 <? Z.of_nat (String.length s)) && isNaN v
                          | _ => false
                          end))
    by apply non_numeric_text_test.
  now rewrite filter_map_length.
Qed.

Lemma header_test_rule (row : list CleanCell) :
  header_test row = true <-> header_rule row.
Proof.
  unfold header_test, header_rule.
  now rewrite orb_true_iff, quarterlyPattern_rule_a, textCellCount_rule_b.
Qed.

Lemma header_test_no_rule (row : list CleanCell) :
  header_test row = false <-> ~ header_rule row.
Proof.
  rewrite <- header_test_rule. destruct (header_test row); split; congruence.
Qed.

(** C5: [findHeaderRow] looks at the first five rows at most, in order, and
    returns the index of the first one on which rule (a), at least two
    cells whose value is a quarter label, or rule (b), at least three cells
    whose value is a non-empty string that does not parse as a number,
    holds; when neither holds on any of these rows it returns 0.  On a grid
    whose first row is ["1Q24","2Q24","3Q24"] it returns 0.  The rules are
    stated on the values of the cells, apart from the counts of the code. *)
Theorem findHeaderRow_first_match :
  (forall cleanData : list (list CleanCell),
      (exists row,
          (findHeaderRow cleanData < 5)%nat
          /\ nth_error cleanData (findHeaderRow cleanData) = Some row
          /\ (rule_a row \/ rule_b row)
          /\ forall j row', (j < findHeaderRow cleanData)%nat ->
                            nth_error cleanData j = Some row' ->
                            ~ rule_a row' /\ ~ rule_b row')
      \/ (findHeaderRow cleanData = 0%nat
          /\ forall j row', (j < 5)%nat -> nth_error cleanData j = Some row' ->
                            ~ rule_a row' /\ ~ rule_b row'))
  /\ (forall Date_parse rest rawFormulas numberFormats,
         findHeaderRow
           (cleanData_of Date_parse
              ([VStr "1Q24"; VStr "2Q24"; VStr "3Q24"] :: rest) rawFormulas numberFormats)
         = 0%nat).
Proof.
  assert (Hno : forall row, header_test row = false -> ~ rule_a row /\ ~ rule_b row).
  { intros row Hr. apply header_test_no_rule in Hr. unfold header_rule in Hr. tauto. }
  split.
  - intros cleanData. unfold findHeaderRow.
    destruct (findHeaderRow_from 0 (firstn 5 cleanData)) as [k|] eqn:Hf.
    + left. apply findHeaderRow_from_Some in Hf as (j & row & -> & Hn & Hr & Hb).
      cbn [Nat.add]. apply nth_error_firstn_Some in Hn as [Hj Hn].
      exists row. split; [assumption|]. split; [assumption|].
      split; [now apply header_test_rule|].
      intros j' row' Hj' Hn'. apply Hno, (Hb j' row' Hj').
      apply nth_error_firstn_Some. split; [lia | assumption].
    + right. split; [reflexivity|].
      intros j row' Hj Hn. apply Hno. eapply findHeaderRow_from_None; eauto.
      apply nth_error_firstn_Some. eauto.
  - reflexivity.
Qed.

(** What each rule counts, row by row: two quarter labels and a number
    satisfy rule (a) alone; three words satisfy rule (b) alone; a word, one
    quarter label, a number and two numerals satisfy neither, a numeral
    being a text that parses as a number; so the header of the third grid
    is found by rule (a) in row 1, that of the fourth by rule (b) in
    row 2. *)
Example header_rules_apart :
  let quarters := [CleanString "1Q24"; CleanString "2q24"; clean_num 5] in
  let words := [CleanString "Item"; CleanString "Region"; CleanString "Notes"] in
  let mixed := [CleanString "Item"; CleanString "1Q24"; clean_num 7;
                CleanString "12"; CleanString "-3.5e2"] in
  (rule_a quarters /\ ~ rule_b quarters)
  /\ (~ rule_a words /\ rule_b words)
  /\ (~ rule_a mixed /\ ~ rule_b mixed)
  /\ findHeaderRow [mixed; quarters; words] = 1%nat
  /\ findHeaderRow [mixed; mixed; words; quarters] = 2%nat
  /\ findHeaderRow [mixed; mixed; mixed; mixed; mixed; words] = 0%nat.
Proof.
  cbv zeta.
  repeat match goal with
         | |- _ /\ _ => split
         | |- rule_a _ => apply quarterlyPattern_rule_a; reflexivity
         | |- rule_b _ => apply textCellCount_rule_b; reflexivity
         | |- ~ rule_a _ =>
             let H := fresh in
             intros H; apply quarterlyPattern_rule_a in H; discriminate H
         | |- ~ rule_b _ =>
             let H := fresh in
             intros H; apply textCellCount_rule_b in H; discriminate H
         | |- _ = _ => reflexivity
         end.
Qed.

(** ** Quarterly extraction *)




(** A numeric cell goes into the series as it is. *)
Lemma number_or_parseFloat_number (n : JsNumber.t) :
  number_or (parseFloat (VNum n)) (VNum n) = VNum n.
Proof. destruct n; reflexivity. Qed.

(** A text cell goes in as the number [parseFloat] reads at its start when
    that number is neither NaN nor zero, and as the text itself otherwise. *)
Lemma number_or_parseFloat_string (s : string) :
  number_or (parseFloat (VStr s)) (VStr s)
  = match StrNumeric.parseFloat_string s with
    | S754_nan | S754_zero _ => VStr s
    | n => VNum n
    end.
Proof.
  unfold number_or, parseFloat. now destruct (StrNumeric.parseFloat_string s).
Qed.

(** The specification's example: headers ["Label","1Q23","2Q23"] and row
    values [100, 200] give the series [("1Q23",100,1), ("2Q23",200,2)], on
    the row alone and in the result of the whole analysis. *)
Example extractQuarterlyData_example :
  quarters
    (extractQuarterlyData
       (rowData_of 1 [CleanString "Revenue"; clean_num 100; clean_num 200])
       [VStr "Label"; VStr "1Q23"; VStr "2Q23"])
  = [ {| quarter := "1Q23"; quarter_value := num 100; columnIndex := 1 |};
      {| quarter := "2Q23"; quarter_value := num 200; columnIndex := 2 |} ]
  /\ forall Date_parse,
      In {| quarterly_label := VStr "Revenue";
            labelType := "Revenue";
            quarters :=
              [ {| quarter := "1Q23"; quarter_value := num 100; columnIndex := 1 |};
                {| quarter := "2Q23"; quarter_value := num 200; columnIndex := 2 |} ];
            quarterly_isTotal := false |}
         (result_quarterlyData
            (analyzeAdvancedTableStructure Date_parse (Some grid_quarterly) None None)).
Proof. split; [reflexivity | intros Date_parse; right; left; reflexivity]. Qed.

(** C3 (where the code departs from it): on headers ["Label","1Q23","2Q23"]
    and row values ["0", 200], the text "0" is parseable, [parseFloat] reads
    the number zero in it, and yet the point of column 1 carries the text
    "0", not the number; so it does in the result of the whole analysis. *)
Theorem extractQuarterlyData_zero_text :
  parseFloat (VStr "0") = S754_zero false
  /\ quarters
       (extractQuarterlyData
          (rowData_of 1 [CleanString "Revenue"; CleanString "0"; clean_num 200])
          [VStr "Label"; VStr "1Q23"; VStr "2Q23"])
     = [ {| quarter := "1Q23"; quarter_value := VStr "0"; columnIndex := 1 |};
         {| quarter := "2Q23"; quarter_value := num 200; columnIndex := 2 |} ]
  /\ forall Date_parse,
      In {| quarterly_label := VStr "Revenue";
            labelType := "Revenue";
            quarters :=
              [ {| quarter := "1Q23"; quarter_value := VStr "0"; columnIndex := 1 |};
                {| quarter := "2Q23"; quarter_value := num 200; columnIndex := 2 |} ];
            quarterly_isTotal := false |}
         (result_quarterlyData
            (analyzeAdvancedTableStructure Date_parse (Some grid_zero_text) None None)).
Proof.
  split; [reflexivity | split; [reflexivity|]].
  intros Date_parse. right. left. reflexivity.
Qed.

(** ** The empty grid *)

(** C8: for an absent grid (null or undefined) and for a grid of zero rows,
    [analyzeAdvancedTableStructure] returns the 'empty' variant, with empty
    headers, no data rows and no key rows; being a total function it
    returns it without raising. *)
Theorem analyzeAdvancedTableStructure_empty (Date_parse : string -> JsNumber.t)
  (rawFormulas : option (list (list Value)))
  (numberFormats : option (list (list string))) :
  let empty := EmptyResult {| empty_type := "empty"; empty_headers := [];
                              empty_dataRows := []; empty_keyRows := [] |} in
  analyzeAdvancedTableStructure Date_parse None rawFormulas numberFormats = empty
  /\ analyzeAdvancedTableStructure Date_parse (Some []) rawFormulas numberFormats = empty
  /\ result_type empty = "empty"
  /\ result_headers empty = []
  /\ result_dataRows empty = []
  /\ result_keyRows empty = [].
Proof. cbv zeta. repeat split. Qed.

(** ** Sampling *)

Lemma sampleCols_maxSampleCols (originalRange : Range) :
  sampleCols originalRange = maxSampleCols originalRange.
Proof.
  unfold sampleCols, maxSampleCols.
  destruct (maxSampleRows originalRange =? 0); lia.
Qed.

Lemma getSmartSampledRange_block (worksheet : Worksheet) (originalRange : Range) :
  getSmartSampledRange worksheet originalRange
  = sampled_block worksheet (maxSampleRows originalRange)
      (maxSampleCols originalRange) originalRange.
Proof.
  unfold getSmartSampledRange, sampled_block. rewrite sampleCols_maxSampleCols.
  reflexivity.
Qed.

(** The sampled range is chosen by the two counts of the original range
    alone: neither its address nor its cells are read. *)
Lemma getSmartSampledRange_by_counts (worksheet : Worksheet) (range1 range2 : Range) :
  rowCount range1 = rowCount range2 ->
  columnCount range1 = columnCount range2 ->
  getSmartSampledRange worksheet range1 = getSmartSampledRange worksheet range2.
Proof.
  intros Hr Hc.
  unfold getSmartSampledRange, sampleCols, maxSampleCols, maxSampleRows.
  now rewrite Hr, Hc.
Qed.

Lemma sample_block_bounds (originalRange : Range) :
  0 <= rowCount originalRange ->
  100001 <= rowCount originalRange * columnCount originalRange ->
  maxSampleRows originalRange = Z.min 316 (rowCount originalRange)
  /\ maxSampleCols originalRange
     = Z.min (100000 / maxSampleRows originalRange) (columnCount originalRange)
  /\ 1 <= maxSampleRows originalRange
  /\ 1 <= maxSampleCols originalRange
  /\ maxSampleRows originalRange * maxSampleCols originalRange <= 100000.
Proof.
  intros Hr Hcells.
  assert (Hrows : maxSampleRows originalRange = Z.min 316 (rowCount originalRange))
    by reflexivity.
  set (rows := rowCount originalRange) in *.
  set (cols := columnCount originalRange) in *.
  assert (rows <> 0) by (intros Hz; rewrite Hz in Hcells; lia).
  assert (1 <= cols).
  { destruct (Z_le_gt_dec cols 0) as [Hc|Hc]; [|lia].
    pose proof (Z.mul_nonneg_nonpos rows cols Hr Hc). lia. }
  assert (Hcols : maxSampleCols originalRange
                  = Z.min (100000 / maxSampleRows originalRange) cols).
  { unfold maxSampleCols. fold cols.
    destruct (Z.eqb_spec (maxSampleRows originalRange) 0) as [Hz|]; [lia | reflexivity]. }
  rewrite Hcols, Hrows.
  assert (Hmin : 1 <= Z.min 316 rows <= 316) by lia.
  assert (Hq : 316 <= 100000 / Z.min 316 rows).
  { apply Z.div_le_lower_bound; nia. }
  assert (Hm : Z.min 316 rows * (100000 / Z.min 316 rows) <= 100000).
  { apply Z.mul_div_le. lia. }
  repeat split; try lia. nia.
Qed.


Lemma selectRange_eq (shouldUseSelection : bool) (selectedRange : Range)
  (worksheet : Worksheet) (selection : Selection) :
  selectRange shouldUseSelection selectedRange worksheet = Some selection ->
  selection
  = if shouldUseSelection && selection_usable selectedRange
    then fit_or_sample worksheet selectedRange true
    else match getUsedRange worksheet with
         | Some usedRange => fit_or_sample worksheet usedRange false
         | None => {| range := None; isSelection := false; isSampled := false |}
         end.
Proof.
  unfold selectRange, selection_usable, fit_or_sample.
  assert (Hused :
    forall unused : Selection,
      unused = {| range := None; isSelection := false; isSampled := false |} ->
      match range unused with
      | Some _ => Some unused
      | None =>
          match getUsedRange worksheet with
          | Some usedRange =>
              if rowCount usedRange * columnCount usedRange <=? MAX_ANALYSIS_CELLS
              then Some {| range := Some usedRange;
                           isSelection := false; isSampled := false |}
              else Some {| range := Some (getSmartSampledRange worksheet usedRange);
                           isSelection := false; isSampled := true |}
          | None => Some unused
          end
      end = Some selection ->
      selection
      = match getUsedRange worksheet with
        | Some usedRange =>
            if rowCount usedRange * columnCount usedRange <=? MAX_ANALYSIS_CELLS
            then {| range := Some usedRange; isSelection := false; isSampled := false |}
            else {| range := Some (getSmartSampledRange worksheet usedRange);
                    isSelection := false; isSampled := true |}
        | None => {| range := None; isSelection := false; isSampled := false |}
        end).
  { intros unused ->. cbn [range].
    destruct (getUsedRange worksheet) as [usedRange|];
      [destruct (rowCount usedRange * columnCount usedRange <=? MAX_ANALYSIS_CELLS)|];
      intros H; now injection H as <-. }
  destruct shouldUseSelection; cbn [andb]; [|now apply Hused].
  destruct ((1 <? rowCount selectedRange) || (1 <? columnCount selectedRange));
    cbn [orb].
  - destruct (rowCount selectedRange * columnCount selectedRange <=? MAX_ANALYSIS_CELLS);
      cbn [range]; intros H; now injection H as <-.
  - destruct (first_cell selectedRange) as [v|]; [|discriminate].
    destruct (negb (is_null v) && negb (is_empty_string v)); [|now apply Hused].
    destruct (rowCount selectedRange * columnCount selectedRange
              <=? MAX_ANALYSIS_CELLS);
      cbn [range]; intros H; now injection H as <-.
Qed.

Lemma fit_or_sample_spec (worksheet : Worksheet) (candidate : Range) (selected : bool) :
  exists chosen,
    range (fit_or_sample worksheet candidate selected) = Some chosen
    /\ isSelection (fit_or_sample worksheet candidate selected) = selected
    /\ (rowCount candidate * columnCount candidate <= 100000 ->
        chosen = candidate
        /\ isSampled (fit_or_sample worksheet candidate selected) = false)
    /\ (100001 <= rowCount candidate * columnCount candidate ->
        isSampled (fit_or_sample worksheet candidate selected) = true
        /\ chosen = sampled_block worksheet (maxSampleRows candidate)
                      (maxSampleCols candidate) candidate).
Proof.
  unfold fit_or_sample, MAX_ANALYSIS_CELLS.
  destruct (Z.leb_spec (rowCount candidate * columnCount candidate) 100000) as [Hle|Hgt];
    cbn [range isSelection isSampled].
  - exists candidate. repeat split; try reflexivity; lia.
  - exists (getSmartSampledRange worksheet candidate).
    split; [reflexivity | split; [reflexivity | split; [lia|]]].
    intros _. split; [reflexivity | apply getSmartSampledRange_block].
Qed.

(** The grids of the chosen range are what gets classified. *)
Lemma readCurrentWorksheetDataEnhanced_classifies (Date_parse : string -> JsNumber.t)
  (shouldUseSelection : bool) (selectedRange : Range) (worksheet : Worksheet)
  (selection : Selection) (chosen : Range) :
  selectRange shouldUseSelection selectedRange worksheet = Some selection ->
  range selection = Some chosen ->
  rowCount chosen <> 0 -> columnCount chosen <> 0 ->
  readCurrentWorksheetDataEnhanced Date_parse shouldUseSelection selectedRange worksheet
  = Some (analyzeAdvancedTableStructure Date_parse (Some (range_values chosen))
            (Some (range_formulas chosen)) (Some (range_numberFormat chosen))).
Proof.
  intros Hs Hr Hrows Hcols. unfold readCurrentWorksheetDataEnhanced. rewrite Hs, Hr.
  apply Z.eqb_neq in Hrows, Hcols. now rewrite Hrows, Hcols.
Qed.

(** What the code does on every candidate: a candidate of at most 100000
    cells is kept whole with no sampling; one of 100001 cells or more is
    replaced by the range the worksheet gives for the address from A1 to
    the letters of column maxSampleCols and row maxSampleRows, with
    maxSampleRows = min(316, rowCount) and maxSampleCols =
    min(floor(100000 / maxSampleRows), colCount), a block within the budget;
    the grids of the chosen range are the ones classified. *)
Lemma selectRange_budget (Date_parse : string -> JsNumber.t)
  (shouldUseSelection : bool) (selectedRange : Range) (worksheet : Worksheet)
  (selection : Selection) :
  selectRange shouldUseSelection selectedRange worksheet = Some selection ->
  match range selection with
  | None => isSampled selection = false
  | Some chosen =>
      exists candidate,
        ((candidate = selectedRange /\ isSelection selection = true)
         \/ (getUsedRange worksheet = Some candidate /\ isSelection selection = false))
        /\ (rowCount candidate * columnCount candidate <= 100000 ->
            chosen = candidate /\ isSampled selection = false)
        /\ (100001 <= rowCount candidate * columnCount candidate ->
            isSampled selection = true
            /\ chosen = sampled_block worksheet (maxSampleRows candidate)
                          (maxSampleCols candidate) candidate
            /\ (0 <= rowCount candidate ->
                maxSampleRows candidate = Z.min (Z.sqrt 100000) (rowCount candidate)
                /\ maxSampleCols candidate
                   = Z.min (100000 / maxSampleRows candidate) (columnCount candidate)
                /\ maxSampleRows candidate * maxSampleCols candidate <= 100000))
        /\ (rowCount chosen <> 0 -> columnCount chosen <> 0 ->
            readCurrentWorksheetDataEnhanced Date_parse shouldUseSelection
              selectedRange worksheet
            = Some (analyzeAdvancedTableStructure Date_parse
                      (Some (range_values chosen)) (Some (range_formulas chosen))
                      (Some (range_numberFormat chosen))))
  end.
Proof.
  intros Hs. pose proof (selectRange_eq _ _ _ _ Hs) as Heq.
  assert (Hsample : forall candidate,
             100001 <= rowCount candidate * columnCount candidate ->
             0 <= rowCount candidate ->
             maxSampleRows candidate = Z.min (Z.sqrt 100000) (rowCount candidate)
             /\ maxSampleCols candidate
                = Z.min (100000 / maxSampleRows candidate) (columnCount candidate)
             /\ maxSampleRows candidate * maxSampleCols candidate <= 100000).
  { intros candidate Hcells Hrows.
    destruct (sample_block_bounds candidate Hrows Hcells) as (Hr & Hc & _ & _ & Hb).
    repeat split; assumption. }
  destruct (shouldUseSelection && selection_usable selectedRange).
  - destruct (fit_or_sample_spec worksheet selectedRange true)
      as (chosen & Hr & Hsel & Hfit & Hsamp).
    rewrite <- Heq in Hr, Hsel, Hfit, Hsamp. rewrite Hr.
    exists selectedRange. split; [left; auto|]. split; [assumption|].
    split; [|intros; eapply readCurrentWorksheetDataEnhanced_classifies; eauto].
    intros Hcells. destruct (Hsamp Hcells) as (? & ?). auto.
  - destruct (getUsedRange worksheet) as [usedRange|]; [|now rewrite Heq].
    destruct (fit_or_sample_spec worksheet usedRange false)
      as (chosen & Hr & Hsel & Hfit & Hsamp).
    rewrite <- Heq in Hr, Hsel, Hfit, Hsamp. rewrite Hr.
    exists usedRange. split; [right; auto|]. split; [assumption|].
    split; [|intros; eapply readCurrentWorksheetDataEnhanced_classifies; eauto].
    intros Hcells. destruct (Hsamp Hcells) as (? & ?). auto.
Qed.

Lemma firstn_seq_min (n start len : nat) :
  firstn n (seq start len) = seq start (Nat.min n len).
Proof.
  revert start len. induction n as [|n IH]; intros start [|len]; cbn; try reflexivity.
  now rewrite IH.
Qed.

(** The top-left block of a block of the sample worksheet. *)
Lemma top_left_block_sheet_grid {A : Type} (cell : Z -> Z -> A)
  (row col rows cols rows' cols' : Z) :
  0 <= rows' <= rows -> 0 <= cols' <= cols ->
  top_left_block rows' cols' (sheet_grid cell row col rows cols)
  = sheet_grid cell row col rows' cols'.
Proof.
  intros Hr Hc. unfold top_left_block, sheet_grid.
  rewrite firstn_map, firstn_seq_min, map_map.
  rewrite Nat.min_l by (apply Z2Nat.inj_le; lia).
  apply map_ext. intros i. rewrite firstn_map, firstn_seq_min.
  now rewrite Nat.min_l by (apply Z2Nat.inj_le; lia).
Qed.

(** C6 (where the code departs from it): on the sample worksheet the
    selection D10:Z10000 has 229793 cells, over the budget, so it is
    sampled: maxSampleRows is 316 and maxSampleCols 23.  The range the code
    then takes is A1:W316 of the worksheet, whose first cell is A1, and its
    grid is what gets classified; the top-left block of 316 by 23 cells of
    the selected grid is D10:Z325, whose first cell is D10.  For the used
    range A1:Z10000, which starts at A1, the range taken is the top-left
    block of the grid. *)
Theorem sampled_block_not_of_selection (Date_parse : string -> JsNumber.t) :
  rowCount sheet_selection * columnCount sheet_selection = 229793
  /\ maxSampleRows sheet_selection = 316
  /\ sampleCols sheet_selection = 23
  /\ (exists chosen,
         selectRange true sheet_selection sheet
         = Some {| range := Some chosen; isSelection := true; isSampled := true |}
         /\ address chosen = "A1:W316"
         /\ range_values chosen = sheet_grid sheet_cell 1 1 316 23
         /\ top_left_block 316 23 (range_values sheet_selection)
            = sheet_grid sheet_cell 10 4 316 23
         /\ range_values chosen <> top_left_block 316 23 (range_values sheet_selection)
         /\ readCurrentWorksheetDataEnhanced Date_parse true sheet_selection sheet
            = Some (analyzeAdvancedTableStructure Date_parse
                      (Some (sheet_grid sheet_cell 1 1 316 23))
                      (Some (range_formulas chosen))
                      (Some (range_numberFormat chosen))))
  /\ (exists usedRange chosen,
         getUsedRange sheet = Some usedRange
         /\ address usedRange = "A1:Z10000"
         /\ selectRange false sheet_selection sheet
            = Some {| range := Some chosen; isSelection := false; isSampled := true |}
         /\ address chosen = "A1:Z316"
         /\ range_values chosen = top_left_block 316 26 (range_values usedRange)).
Proof.
  split; [reflexivity | split; [reflexivity | split; [reflexivity|]]].
  split.
  - exists (getSmartSampledRange sheet sheet_selection).
    split; [reflexivity | split; [reflexivity | split; [reflexivity|]]].
    assert (Hblock : top_left_block 316 23 (range_values sheet_selection)
                     = sheet_grid sheet_cell 10 4 316 23)
      by (apply top_left_block_sheet_grid; lia).
    split; [exact Hblock|]. split.
    + rewrite Hblock.
      change (range_values (getSmartSampledRange sheet sheet_selection))
        with (sheet_grid sheet_cell 1 1 316 23).
      intros Heq.
      apply (f_equal (fun grid => nth 0 (nth 0 grid []) VNull)) in Heq.
      vm_compute in Heq. discriminate Heq.
    + reflexivity.
  - exists (sheet_block 1 1 10000 26 "A1:Z10000"),
           (getSmartSampledRange sheet (sheet_block 1 1 10000 26 "A1:Z10000")).
    split; [reflexivity | split; [reflexivity | split; [reflexivity|]]].
    split; [reflexivity|].
    change (range_values (sheet_block 1 1 10000 26 "A1:Z10000"))
      with (sheet_grid sheet_cell 1 1 10000 26).
    rewrite top_left_block_sheet_grid by lia. reflexivity.
Qed.

(** ** The properties at sample grids *)

(** C1, as stated, fails on a grid of one row and two cells of which one is
    empty: the counts add up to 1, the grid has 1 * 2 = 2 cells. *)
Lemma analyzeDataTypes_sum_counterexample :
  (forall Date_parse,
      sum_counts (analyzeDataTypes Date_parse grid_with_empty_cell None) = 1)
  /\ grid_rowCount grid_with_empty_cell * grid_colCount grid_with_empty_cell = 2.
Proof. split; [intros Date_parse|]; reflexivity. Qed.

Lemma analyzeDataTypes_sum_witness :
  Forall (fun row : list Value => List.length row = 3%nat) grid_financial
  /\ (forall Date_parse,
         sum_counts (analyzeDataTypes Date_parse grid_financial None)
         = grid_rowCount grid_financial * Z.of_nat 3 - count_empty_cells grid_financial).
Proof.
  split.
  - repeat constructor.
  - intros Date_parse.
    apply (analyzeDataTypes_sum Date_parse grid_financial None 3).
    repeat constructor.
Defined.



Lemma blank_label_row_not_materialized_witness :
  nth_error grid_with_blank_label 1 = Some [VStr "   "; num 2]
  /\ all_whitespace "   " = true
  /\ (forall Date_parse : string -> JsNumber.t,
         let rowData := rowData_of 2 [CleanString "Total"; clean_num 3] in
         In rowData
            (result_dataRows
               (analyzeAdvancedTableStructure Date_parse (Some grid_with_blank_label)
                  None None))
         /\ rowIndex rowData <> 1%nat).
Proof.
  split; [reflexivity | split; [reflexivity|]].
  intros Date_parse. split; [right; left; reflexivity|].
  apply (blank_label_row_not_materialized Date_parse grid_with_blank_label None None
           1 "   " [num 2]); [reflexivity | reflexivity |].
  right. left. reflexivity.
Defined.

(** C9 (where the code departs from it): the header row of this grid is row
    0 and its column-0 value is the number 0, a cell of type number, not an
    empty one; the loop skips it all the same, and row 1 alone is
    materialized. *)
Theorem header_row_zero_label_skipped (Date_parse : string -> JsNumber.t) :
  let result :=
    analyzeAdvancedTableStructure Date_parse (Some grid_zero_label_header) None None in
  findHeaderRow (cleanData_of Date_parse grid_zero_label_header None None) = 0%nat
  /\ detectCellType Date_parse (num 0) None = T_number
  /\ is_empty_cell (num 0) = false
  /\ map rowIndex (result_dataRows result) = [1%nat]
  /\ map rowIndex (result_keyRows result) = [1%nat]
  /\ map rowIndex (result_totalRows result) = [].
Proof. cbv zeta. repeat split. Qed.

Lemma header_row_is_processed_witness :
  (forall Date_parse,
      findHeaderRow (cleanData_of Date_parse grid_labelled_header None None) = 0%nat)
  /\ keeps_row [CleanString "Net income"; CleanString "1Q24"; CleanString "2Q24"] = true
  /\ (forall Date_parse,
         let row := [CleanString "Net income"; CleanString "1Q24"; CleanString "2Q24"] in
         let result :=
           analyzeAdvancedTableStructure Date_parse (Some grid_labelled_header) None None in
         In (rowData_of 0 row) (result_dataRows result)
         /\ (isLikelyTotalRow (rowLabel_of row) = true ->
             In (rowData_of 0 row) (result_totalRows result))
         /\ (isLikelyTotalRow (rowLabel_of row) || isKeyFinancialRow (rowLabel_of row) = true ->
             In (rowData_of 0 row) (result_keyRows result))).
Proof.
  split; [reflexivity | split; [reflexivity|]].
  intros Date_parse.
  apply (header_row_is_processed Date_parse grid_labelled_header None None
           [CleanString "Net income"; CleanString "1Q24"; CleanString "2Q24"]);
    reflexivity.
Defined.

(* ===================================================================== *)
(** * Further properties of the code *)
(* ===================================================================== *)

(** ** The type histogram, tag by tag *)

Section HistogramByTag.

Variable Date_parse : string -> JsNumber.t.

Lemma counter_increment (types : TypeCounts) (d t : CellType) :
  counter (if hasOwnProperty types d then increment types d else types) t
  = counter types t
    + (if CellType_eqb t d && negb (CellType_eqb t T_empty) then 1 else 0).
Proof. destruct d, t; cbn; lia. Qed.

Lemma count_type_cons (t d : CellType) (tags : list CellType) :
  count_type t (d :: tags) = (if CellType_eqb t d then 1 else 0) + count_type t tags.
Proof.
  unfold count_type. cbn [filter]. destruct (CellType_eqb t d); cbn [List.length]; lia.
Qed.

Lemma count_type_app (t : CellType) (a b : list CellType) :
  count_type t (a ++ b) = count_type t a + count_type t b.
Proof. unfold count_type. rewrite filter_app, length_app. lia. Qed.

Lemma counter_row (numberFormats : option (list (list string))) (t : CellType)
  (rowIndex : nat) (row : list Value) (colIndex : nat) (types : TypeCounts) :
  CellType_eqb t T_empty = false ->
  counter
    (forEach_from colIndex
       (fun types cell colIndex =>
          let format := grid_entry numberFormats rowIndex colIndex in
          let detectedType := detectCellType Date_parse cell format in
          if hasOwnProperty types detectedType
          then increment types detectedType
          else types) row types) t
  = counter types t
    + count_type t (detected_row Date_parse numberFormats rowIndex colIndex row).
Proof.
  intros Ht. revert colIndex types.
  induction row as [|cell row IH]; intros colIndex types.
  - cbn. unfold count_type. cbn. lia.
  - cbn [forEach_from]. rewrite IH. cbv zeta. rewrite counter_increment, Ht.
    unfold detected_row. cbn [mapi_from]. rewrite count_type_cons.
    cbn [negb]. rewrite andb_true_r. fold (detected_row Date_parse numberFormats rowIndex (S colIndex) row).
    lia.
Qed.

Lemma counter_grid (numberFormats : option (list (list string))) (t : CellType)
  (rawValues : list (list Value)) (rowIndex : nat) (types : TypeCounts) :
  CellType_eqb t T_empty = false ->
  counter
    (forEach_from rowIndex
       (fun types row rowIndex =>
          forEach (fun types cell colIndex =>
            let format := grid_entry numberFormats rowIndex colIndex in
            let detectedType := detectCellType Date_parse cell format in
            if hasOwnProperty types detectedType
            then increment types detectedType
            else types) row types) rawValues types) t
  = counter types t + count_type t (detected_from Date_parse numberFormats rowIndex rawValues).
Proof.
  intros Ht. revert rowIndex types.
  induction rawValues as [|row rows IH]; intros rowIndex types.
  - cbn. unfold count_type. cbn. lia.
  - cbn [forEach_from detected_from]. rewrite IH. unfold forEach.
    rewrite counter_row by assumption. rewrite count_type_app. lia.
Qed.

Lemma counter_analyzeDataTypes (rawValues : list (list Value))
  (numberFormats : option (list (list string))) (t : CellType) :
  CellType_eqb t T_empty = false ->
  counter (analyzeDataTypes Date_parse rawValues numberFormats) t
  = count_type t (detected_types Date_parse rawValues numberFormats).
Proof.
  intros Ht. unfold analyzeDataTypes. cbv zeta.
  etransitivity; [exact (counter_grid numberFormats t rawValues 0 _ Ht)|].
  unfold detected_types.
  destruct t; cbn [counter text number date currency percentage boolean]; lia.
Qed.

(** X3: each counter of the histogram is the number of cells that
    [detectCellType] gives that tag, every cell being taken with the format
    at its own position; this holds for ragged grids and missing formats
    too. *)
Theorem analyzeDataTypes_counts (rawValues : list (list Value))
  (numberFormats : option (list (list string))) :
  let types := analyzeDataTypes Date_parse rawValues numberFormats in
  let tags := detected_types Date_parse rawValues numberFormats in
  text types = count_type T_text tags
  /\ number types = count_type T_number tags
  /\ date types = count_type T_date tags
  /\ currency types = count_type T_currency tags
  /\ percentage types = count_type T_percentage tags
  /\ boolean types = count_type T_boolean tags.
Proof.
  cbv zeta.
  repeat split;
    match goal with
    | |- _ = count_type ?t _ =>
        exact (counter_analyzeDataTypes rawValues numberFormats t eq_refl)
    end.
Qed.

End HistogramByTag.

Section HistogramWithoutFormats.

Variable Date_parse : string -> JsNumber.t.

Lemma count_type_detected_row (numberFormats : option (list (list string)))
  (t : CellType) (P : Value -> bool) (rowIndex : nat) :
  (forall cell colIndex,
      CellType_eqb t
        (detectCellType Date_parse cell (grid_entry numberFormats rowIndex colIndex))
      = P cell) ->
  forall row colIndex,
    count_type t (detected_row Date_parse numberFormats rowIndex colIndex row)
    = Z.of_nat (List.length (filter P row)).
Proof.
  intros HP. induction row as [|cell row IH]; intros colIndex; [reflexivity|].
  unfold detected_row in *. cbn [mapi_from filter].
  rewrite count_type_cons, HP, IH.
  destruct (P cell); cbn [List.length]; lia.
Qed.

Lemma count_type_detected_from (numberFormats : option (list (list string)))
  (t : CellType) (P : Value -> bool) :
  (forall cell rowIndex colIndex,
      CellType_eqb t
        (detectCellType Date_parse cell (grid_entry numberFormats rowIndex colIndex))
      = P cell) ->
  forall rawValues rowIndex,
    count_type t (detected_from Date_parse numberFormats rowIndex rawValues)
    = Z.of_nat (List.length (filter P (List.concat rawValues))).
Proof.
  intros HP. induction rawValues as [|row rows IH]; intros rowIndex; [reflexivity|].
  cbn [detected_from List.concat]. rewrite count_type_app, IH.
  rewrite (count_type_detected_row numberFormats t P rowIndex) by (intros; apply HP).
  rewrite filter_app, length_app. lia.
Qed.

Lemma detectCellType_boolean (cell : Value) (format : option string) :
  CellType_eqb T_boolean (detectCellType Date_parse cell format) = is_boolean_cell cell.
Proof.
  pose proof (detectCellType_classify Date_parse cell format) as H.
  inversion H; subst; reflexivity.
Qed.

Lemma detectCellType_no_format (cell : Value) :
  CellType_eqb T_currency (detectCellType Date_parse cell None) = false
  /\ CellType_eqb T_percentage (detectCellType Date_parse cell None) = false.
Proof.
  pose proof (detectCellType_classify Date_parse cell None) as H.
  inversion H; subst; try (split; reflexivity); cbn in *; discriminate.
Qed.

(** X4: whatever the formats, the boolean counter is the number of boolean
    cells of the grid; and when no format grid is given, nothing is counted
    as currency or percentage. *)
Theorem analyzeDataTypes_boolean_and_no_formats (rawValues : list (list Value)) :
  (forall numberFormats,
      boolean (analyzeDataTypes Date_parse rawValues numberFormats)
      = Z.of_nat (List.length (filter is_boolean_cell (List.concat rawValues))))
  /\ currency (analyzeDataTypes Date_parse rawValues None) = 0
  /\ percentage (analyzeDataTypes Date_parse rawValues None) = 0.
Proof.
  split; [|split].
  - intros numberFormats.
    change (boolean (analyzeDataTypes Date_parse rawValues numberFormats))
      with (counter (analyzeDataTypes Date_parse rawValues numberFormats) T_boolean).
    rewrite counter_analyzeDataTypes by reflexivity.
    apply count_type_detected_from. intros. apply detectCellType_boolean.
  - change (currency (analyzeDataTypes Date_parse rawValues None))
      with (counter (analyzeDataTypes Date_parse rawValues None) T_currency).
    rewrite counter_analyzeDataTypes by reflexivity.
    unfold detected_types.
    rewrite (count_type_detected_from None T_currency (fun _ => false)).
    + induction (List.concat rawValues); auto.
    + intros. apply detectCellType_no_format.
  - change (percentage (analyzeDataTypes Date_parse rawValues None))
      with (counter (analyzeDataTypes Date_parse rawValues None) T_percentage).
    rewrite counter_analyzeDataTypes by reflexivity.
    unfold detected_types.
    rewrite (count_type_detected_from None T_percentage (fun _ => false)).
    + induction (List.concat rawValues); auto.
    + intros. apply detectCellType_no_format.
Qed.

End HistogramWithoutFormats.

(** ** Formulas and formats *)

Lemma fold_left_concat {A S : Type} (f : S -> A -> S) (rows : list (list A)) (s : S) :
  fold_left (fun s row => fold_left f row s) rows s = fold_left f (List.concat rows) s.
Proof.
  revert s. induction rows as [|row rows IH]; intros s; [reflexivity|].
  cbn [fold_left List.concat]. now rewrite fold_left_app, IH.
Qed.

Lemma existsb_eqb_In (x : string) (set : list string) :
  existsb (String.eqb x) set = true <-> In x set.
Proof.
  rewrite existsb_exists. split.
  - intros (y & Hin & Heq). apply String.eqb_eq in Heq. now subst.
  - intros Hin. exists x. split; [assumption | apply String.eqb_refl].
Qed.

Lemma set_add_In (x y : string) (set : list string) :
  In x (set_add y set) <-> x = y \/ In x set.
Proof.
  unfold set_add. destruct (existsb (String.eqb y) set) eqn:He.
  - apply existsb_eqb_In in He. split; [auto | intros [->|]; auto].
  - rewrite in_app_iff. cbn. intuition.
Qed.

Lemma set_add_NoDup (y : string) (set : list string) :
  NoDup set -> NoDup (set_add y set).
Proof.
  intros Hnd. unfold set_add. destruct (existsb (String.eqb y) set) eqn:He; [assumption|].
  assert (Hnot : ~ In y set).
  { intros Hin. apply existsb_eqb_In in Hin. congruence. }
  apply NoDup_app; [assumption | repeat constructor; auto | ].
  - intros x Hx [<- | []]. contradiction.
Qed.

Lemma fold_set_add (names set : list string) :
  let final := fold_left (fun set m => set_add m set) names set in
  (NoDup set -> NoDup final)
  /\ (forall x, In x final <-> In x set \/ In x names).
Proof.
  revert set. induction names as [|n names IH]; intros set; cbn [fold_left].
  - cbn. intuition.
  - specialize (IH (set_add n set)). cbv zeta in IH. destruct IH as [Hnd Hin]. split.
    + intros H. apply Hnd, set_add_NoDup, H.
    + intros x. rewrite Hin, set_add_In. cbn. intuition.
Qed.

Lemma analyzeFormulas_cells (cells : list Value) (count : Z) (set : list string) :
  fold_left
    (fun '(formulaCount, formulaTypes) cell =>
       match cell with
       | VStr s =>
           if startsWith "=" s
           then (formulaCount + 1,
                 fold_left (fun set m => set_add m set) (function_names EmptyString s)
                           formulaTypes)
           else (formulaCount, formulaTypes)
       | _ => (formulaCount, formulaTypes)
       end) cells (count, set)
  = (count + Z.of_nat (List.length (filter is_formula cells)),
     fold_left (fun set m => set_add m set) (flat_map names_of_cell cells) set).
Proof.
  revert count set. induction cells as [|cell cells IH]; intros count set.
  - cbn. f_equal. lia.
  - cbn [fold_left flat_map filter].
    destruct cell as [| |b|n|s]; cbn [is_formula names_of_cell app];
      try (rewrite IH; reflexivity).
    destruct (startsWith "=" s); rewrite IH.
    + rewrite fold_left_app. cbn [List.length]. f_equal. lia.
    + reflexivity.
Qed.

Lemma analyzeFormulas_Some (rows : list (list Value)) :
  analyzeFormulas (Some rows)
  = {| formula_hasFormulas :=
         0 <? Z.of_nat (List.length (filter is_formula (List.concat rows)));
       formulaCount := Z.of_nat (List.length (filter is_formula (List.concat rows)));
       formula_types :=
         fold_left (fun set m => set_add m set)
                   (flat_map names_of_cell (List.concat rows)) [] |}.
Proof.
  unfold analyzeFormulas. rewrite fold_left_concat.
  rewrite (analyzeFormulas_cells (List.concat rows) 0 []). reflexivity.
Qed.

(** X5: [analyzeFormulas] counts the cells of the formula grid that are
    texts starting with "=": formulaCount is their number, between 0 and
    the number of cells, and hasFormulas holds exactly when there is one. *)
Theorem analyzeFormulas_count (rows : list (list Value)) :
  let analysis := analyzeFormulas (Some rows) in
  formulaCount analysis = Z.of_nat (List.length (filter is_formula (List.concat rows)))
  /\ 0 <= formulaCount analysis <= Z.of_nat (List.length (List.concat rows))
  /\ (formula_hasFormulas analysis = true <->
      exists cell, In cell (List.concat rows) /\ is_formula cell = true).
Proof.
  cbv zeta. rewrite analyzeFormulas_Some. cbn [formulaCount formula_hasFormulas].
  split; [reflexivity | split].
  - pose proof (filter_length_le is_formula (List.concat rows)). lia.
  - rewrite Z.ltb_lt. split.
    + intros Hpos.
      destruct (filter is_formula (List.concat rows)) as [|cell rest] eqn:Hf;
        [cbn in Hpos; lia|].
      exists cell. apply filter_In. rewrite Hf. now left.
    + intros (cell & Hin & Hform).
      assert (Hf : In cell (filter is_formula (List.concat rows)))
        by (apply filter_In; auto).
      destruct (filter is_formula (List.concat rows)); [contradiction | cbn; lia].
Qed.

Lemma function_names_upper (s run : string) :
  all_upper run = true ->
  Forall (fun name => all_upper name = true /\ is_empty name = false)
         (function_names run s).
Proof.
  revert run. induction s as [|c s IH]; intros run Hrun; cbn [function_names];
    [constructor|].
  destruct (is_upper c) eqn:Hc.
  - apply IH. clear IH. induction run as [|r run IHr]; cbn in *.
    + now rewrite Hc.
    + apply andb_true_iff in Hrun as [Hr Hrun]. rewrite Hr. cbn. auto.
  - destruct (Ascii.eqb c "(" && negb (is_empty run)) eqn:Hp.
    + constructor; [|now apply IH].
      apply andb_true_iff in Hp as [_ Hne]. split; [assumption|].
      now destruct (is_empty run).
    + now apply IH.
Qed.

(** X6: the function names [analyzeFormulas] reports are without
    repetition; a name is reported exactly when some formula cell contains
    it as a function name; every reported name is a non-empty run of capital
    letters. *)
Theorem analyzeFormulas_types (rows : list (list Value)) :
  let names := formula_types (analyzeFormulas (Some rows)) in
  NoDup names
  /\ (forall name,
         In name names <->
         exists cell, In cell (List.concat rows) /\ In name (names_of_cell cell))
  /\ Forall (fun name => all_upper name = true /\ is_empty name = false) names.
Proof.
  cbv zeta. rewrite analyzeFormulas_Some. cbn [formula_types].
  destruct (fold_set_add (flat_map names_of_cell (List.concat rows)) []) as [Hnd Hin].
  cbv zeta in Hnd, Hin.
  assert (Hiff : forall name,
             In name (fold_left (fun set m => set_add m set)
                                (flat_map names_of_cell (List.concat rows)) []) <->
             exists cell, In cell (List.concat rows) /\ In name (names_of_cell cell)).
  { intros name. rewrite Hin, in_flat_map. cbn. tauto. }
  split; [apply Hnd; constructor | split; [exact Hiff|]].
  apply Forall_forall. intros name Hname. apply Hiff in Hname as (cell & _ & Hn).
  destruct cell as [| |b|n|s]; cbn [names_of_cell] in Hn; try contradiction.
  destruct (startsWith "=" s); [|contradiction].
  pose proof (function_names_upper s "" eq_refl) as Hall.
  rewrite Forall_forall in Hall. now apply Hall.
Qed.

Lemma analyzeNumberFormats_cells (cells set : list string) :
  fold_left (fun set format =>
               if negb (is_empty format) && negb (String.eqb format "General")
               then set_add format set else set) cells set
  = fold_left (fun set m => set_add m set) (filter is_custom_format cells) set.
Proof.
  revert set. induction cells as [|f cells IH]; intros set; [reflexivity|].
  cbn [fold_left filter]. unfold is_custom_format at 1.
  destruct (negb (is_empty f) && negb (String.eqb f "General")); cbn [fold_left]; apply IH.
Qed.

(** X7: the formats [analyzeNumberFormats] reports are without repetition;
    a format is reported exactly when it occurs in the grid and is neither
    empty nor "General"; hasFormatting holds exactly when one is
    reported. *)
Theorem analyzeNumberFormats_types (rows : list (list string)) :
  let analysis := analyzeNumberFormats (Some rows) in
  NoDup (format_types analysis)
  /\ (forall format,
         In format (format_types analysis) <->
         In format (List.concat rows) /\ is_empty format = false /\ format <> "General")
  /\ (hasFormatting analysis = true <->
      exists format, In format (List.concat rows) /\ is_custom_format format = true).
Proof.
  cbv zeta. unfold analyzeNumberFormats. cbn [format_types hasFormatting].
  rewrite fold_left_concat, analyzeNumberFormats_cells.
  destruct (fold_set_add (filter is_custom_format (List.concat rows)) []) as [Hnd Hin].
  cbv zeta in Hnd, Hin.
  assert (Hiff : forall format,
             In format (fold_left (fun set m => set_add m set)
                          (filter is_custom_format (List.concat rows)) []) <->
             In format (List.concat rows) /\ is_custom_format format = true).
  { intros format. rewrite Hin, filter_In. cbn. tauto. }
  set (final := fold_left (fun set m => set_add m set)
                          (filter is_custom_format (List.concat rows)) []) in *.
  split; [apply Hnd; constructor | split].
  - intros format. rewrite Hiff. unfold is_custom_format.
    rewrite andb_true_iff, !negb_true_iff, String.eqb_neq. tauto.
  - rewrite Nat.ltb_lt. split.
    + intros Hpos. destruct final as [|format rest]; [cbn in Hpos; lia|].
      exists format. apply Hiff. now left.
    + intros (format & Hformat). apply Hiff in Hformat.
      destruct final; [contradiction | cbn; lia].
Qed.

Lemma append_assoc (a b c : string) : (a ++ b) ++ c = a ++ (b ++ c).
Proof. induction a; cbn; [reflexivity | now f_equal]. Qed.

Lemma function_names_spec_run (s run name : string) :
  In name (function_names run s) <->
  (exists u rest,
      s = u ++ String "(" rest /\ all_upper u = true /\ name = run ++ u
      /\ is_empty name = false)
  \/ (exists before rest,
         s = before ++ name ++ String "(" rest /\ all_upper name = true
         /\ is_empty name = false /\ is_empty before = false
         /\ ends_upper before = false).
Proof.
  revert run. induction s as [|c s IH]; intros run.
  - cbn [function_names In]. split; [tauto|].
    intros [(u & rest & Hs & _) | (before & rest & Hs & _ & _ & Hne & _)].
    + destruct u; discriminate.
    + destruct before; discriminate.
  - assert (Hlater :
              (exists before rest,
                  String c s = before ++ name ++ String "(" rest /\ all_upper name = true
                  /\ is_empty name = false /\ is_empty before = false
                  /\ ends_upper before = false)
              <-> (is_upper c = false
                   /\ exists u rest,
                       s = u ++ String "(" rest /\ all_upper u = true /\ name = "" ++ u
                       /\ is_empty name = false)
                  \/ (exists before rest,
                         s = before ++ name ++ String "(" rest /\ all_upper name = true
                         /\ is_empty name = false /\ is_empty before = false
                         /\ ends_upper before = false)).
    { split.
      - intros (before & rest & Hs & Hu & He & Hbne & Hbe).
        destruct before as [|c' before]; [discriminate|].
        cbn in Hs. injection Hs as <- Hs.
        destruct before as [|c'' before].
        + left. cbn in Hbe. split; [assumption|]. exists name, rest. auto.
        + right. exists (String c'' before), rest. cbn in Hbe |- *. auto.
      - intros [(Hc & u & rest & Hs & Hu & Hn & He) | (before & rest & Hs & Hu & He & Hbne & Hbe)].
        + cbn in Hn. subst u. exists (String c ""), rest. cbn. rewrite Hs. auto.
        + exists (String c before), rest. cbn [append ends_upper is_empty].
          rewrite Hs, Hbne. auto. }
    cbn [function_names]. destruct (is_upper c) eqn:Hc.
    + rewrite IH, Hlater. split.
      * intros [(u & rest & Hs & Hu & Hn & He) | Hl].
        -- left. exists (String c u), rest. cbn [append all_upper].
           rewrite Hs, Hc, Hu. rewrite append_assoc in Hn. auto.
        -- right. now right.
      * intros [(u & rest & Hs & Hu & Hn & He) | [[Hf _] | Hl]]; [|discriminate|].
        -- destruct u as [|c' u]; cbn in Hs.
           ++ injection Hs as -> _. discriminate.
           ++ injection Hs as <- Hs. cbn in Hu. apply andb_true_iff in Hu as [_ Hu].
              left. exists u, rest. rewrite append_assoc. auto.
        -- right. exact Hl.
    + assert (Hfirst :
                (exists u rest,
                    String c s = u ++ String "(" rest /\ all_upper u = true
                    /\ name = run ++ u /\ is_empty name = false)
                <-> (Ascii.eqb c "(" = true /\ name = run /\ is_empty run = false)).
      { split.
        - intros (u & rest & Hs & Hu & Hn & He). destruct u as [|c' u]; cbn in Hs.
          + injection Hs as -> _. rewrite append_empty_r in Hn. subst name. auto.
          + injection Hs as <- _. cbn in Hu. rewrite Hc in Hu. discriminate.
        - intros (Hp & -> & He). apply Ascii.eqb_eq in Hp as ->.
          exists "", s. rewrite append_empty_r. auto. }
      rewrite Hfirst, Hlater. clear Hfirst Hlater.
      destruct (Ascii.eqb c "(" && negb (is_empty run)) eqn:Hp.
      * apply andb_true_iff in Hp as [Hp Hne]. apply negb_true_iff in Hne.
        cbn [In]. rewrite IH. intuition (try congruence).
      * rewrite IH. split; [tauto|].
        intros [(Hp' & _ & Hne) | H]; [|tauto].
        rewrite Hp', Hne in Hp. discriminate.
Qed.

(** X8: the names [analyzeFormulas] takes from a formula text are exactly
    the maximal runs of capital letters that an opening parenthesis follows
    (the matches of [A-Z]+ followed by a parenthesis, taken from the left):
    [SUM] and [IF] in "=SUM(A1)+IF(B1,1,0)", nothing in a text where no
    capital letter stands before a parenthesis. *)
Theorem function_names_called (s name : string) :
  In name (function_names "" s) <-> called_in name s.
Proof.
  rewrite function_names_spec_run. unfold called_in. split.
  - intros [(u & rest & Hs & Hu & Hn & He) | (before & rest & Hs & Hu & He & _ & Hbe)].
    + cbn in Hn. subst u. exists "", rest. auto.
    + exists before, rest. auto.
  - intros (before & rest & Hs & Hu & He & Hbe).
    destruct before as [|c before].
    + left. exists name, rest. auto.
    + right. exists (String c before), rest. auto.
Qed.

Example function_names_example :
  function_names "" "=SUM(A1:A3)+IF(B1>0,MAX(C1,2),sum(D1))" = ["SUM"; "IF"; "MAX"].
Proof. reflexivity. Qed.

(** ** Trimming is idempotent *)

Lemma trimEnd_idempotent (s : string) : trimEnd (trimEnd s) = trimEnd s.
Proof.
  induction s as [|c s IH]; [reflexivity|]. cbn [trimEnd].
  destruct (is_whitespace c && is_empty (trimEnd s)) eqn:Hc; [reflexivity|].
  cbn [trimEnd]. now rewrite IH, Hc.
Qed.

Lemma trimStart_shape (s : string) :
  trimStart s = ""
  \/ exists c t, trimStart s = String c t /\ is_whitespace c = false.
Proof.
  induction s as [|c s IH]; [now left|]. cbn [trimStart].
  destruct (is_whitespace c) eqn:Hc; [exact IH | right; eauto].
Qed.

Lemma trim_idempotent (s : string) : trim (trim s) = trim s.
Proof.
  unfold trim. destruct (trimStart_shape s) as [-> | (c & t & -> & Hc)]; [reflexivity|].
  assert (Hend : forall u, trimEnd (String c u) = String c (trimEnd u))
    by (intros u; cbn [trimEnd]; now rewrite Hc).
  rewrite Hend. cbn [trimStart]. rewrite Hc, Hend. now rewrite trimEnd_idempotent.
Qed.

(** ** The rows of the result *)

Lemma filter_filter_implied {A : Type} (f g : A -> bool) (l : list A) :
  (forall x, f x = true -> g x = true) ->
  filter f (filter g l) = filter f l.
Proof.
  intros Himp. induction l as [|x l IH]; [reflexivity|]. cbn [filter].
  destruct (g x) eqn:Hg; cbn [filter].
  - now rewrite IH.
  - destruct (f x) eqn:Hf; [|assumption]. apply Himp in Hf. congruence.
Qed.

Lemma map_mapi_from {A B C : Type} (h : B -> C) (f : A -> nat -> B) (l : list A) (k : nat) :
  map h (mapi_from k f l) = mapi_from k (fun x i => h (f x i)) l.
Proof. revert k. induction l as [|x l IH]; intros k; cbn; [reflexivity | now rewrite IH]. Qed.

Lemma mapi_from_map {A B : Type} (h : A -> B) (l : list A) (k : nat) :
  mapi_from k (fun x _ => h x) l = map h l.
Proof. revert k. induction l as [|x l IH]; intros k; cbn; [reflexivity | now rewrite IH]. Qed.

Lemma mapi_from_ext {A B : Type} (f g : A -> nat -> B) (l : list A) (k : nat) :
  (forall x i, f x i = g x i) -> mapi_from k f l = mapi_from k g l.
Proof.
  intros Hfg. revert k. induction l as [|x l IH]; intros k; cbn; [reflexivity|].
  now rewrite Hfg, IH.
Qed.

Section RowsOfResult.

Variable Date_parse : string -> JsNumber.t.
Variable rawFormulas : option (list (list Value)).
Variable numberFormats : option (list (list string)).

(** A cleaned row, unwrapped, is the raw row cell by cell under
    [clean_value]. *)
Lemma cleanData_of_row (rawValues : list (list Value)) (i : nat) :
  nth_error (cleanData_of Date_parse rawValues rawFormulas numberFormats) i
  = option_map
      (fun row =>
         mapi (fun cell colIndex =>
           match cell with
           | VNull | VUndefined => CleanString ""
           | VStr s => CleanString (trim s)
           | _ =>
               let format := grid_entry numberFormats i colIndex in
               CleanObject
                 {| value := cell;
                    originalType := typeof cell;
                    format := format;
                    isFormula :=
                      match grid_entry rawFormulas i colIndex with
                      | Some f => truthy f && is_formula f
                      | None => false
                      end;
                    detectedType := detectCellType Date_parse cell format |}
           end) row)
      (nth_error rawValues i).
Proof. unfold cleanData_of. now rewrite nth_error_mapi. Qed.

Lemma cleanData_of_values (rawValues : list (list Value)) (i : nat)
  (cleanRow : list CleanCell) :
  nth_error (cleanData_of Date_parse rawValues rawFormulas numberFormats) i = Some cleanRow ->
  exists row,
    nth_error rawValues i = Some row
    /\ map cell_value cleanRow = map clean_value row
    /\ List.length cleanRow = List.length row.
Proof.
  rewrite cleanData_of_row.
  destruct (nth_error rawValues i) as [row|]; [|discriminate].
  cbn [option_map]. intros [= <-]. exists row. split; [reflexivity|].
  unfold mapi. split.
  - rewrite map_mapi_from. rewrite <- (mapi_from_map clean_value row 0).
    apply mapi_from_ext. intros [| |b|n|s] k; reflexivity.
  - generalize 0%nat. induction row; intros k; cbn; [reflexivity | now rewrite IHrow].
Qed.

End RowsOfResult.

Lemma length_mapi_from {A B : Type} (f : A -> nat -> B) (l : list A) (k : nat) :
  List.length (mapi_from k f l) = List.length l.
Proof.
  revert k. induction l as [|x l IH]; intros k; cbn; [reflexivity | now rewrite IH].
Qed.

Lemma materialized_from_bounds (cleanData : list (list CleanCell)) (i : nat) :
  Forall (fun rowData => (i <= rowIndex rowData < i + List.length cleanData)%nat)
         (materialized_from i cleanData)
  /\ StronglySorted lt (map rowIndex (materialized_from i cleanData))
  /\ (List.length (materialized_from i cleanData) <= List.length cleanData)%nat.
Proof.
  revert i. induction cleanData as [|row rest IH]; intros i; cbn [materialized_from].
  - repeat split; constructor.
  - destruct (IH (S i)) as (Hb & Hs & Hl).
    assert (Hb' : Forall (fun rowData =>
                            (i <= rowIndex rowData < i + List.length (row :: rest))%nat)
                         (materialized_from (S i) rest)).
    { eapply Forall_impl; [|exact Hb]. cbn. intros rd. lia. }
    destruct (keeps_row row).
    + split; [|split].
      * constructor; [cbn; lia | assumption].
      * cbn [map]. constructor; [assumption|].
        apply Forall_map. eapply Forall_impl; [|exact Hb]. cbn. intros rd. lia.
      * cbn. lia.
    + split; [assumption | split; [assumption | cbn; lia]].
Qed.

Lemma forEach_processRow_quarterly (cleanData : list (list CleanCell)) (i : nat)
  (result : TableAnalysis) :
  let final := forEach_from i processRow cleanData result in
  quarterlyData final
  = (quarterlyData result
     ++ quarterly_of (columnHeaders result) (materialized_from i cleanData))%list
  /\ headers final = headers result.
Proof.
  revert i result. induction cleanData as [|row rest IH]; intros i result.
  - cbn. unfold quarterly_of. destruct (hasQuarterlyPattern _); now rewrite app_nil_r.
  - cbn [forEach_from materialized_from].
    specialize (IH (S i) (processRow result row i)). cbv zeta in IH |- *.
    destruct IH as (Hq & Hh). rewrite Hq, Hh. clear Hq Hh.
    unfold processRow, keeps_row.
    destruct (truthy (rowLabel_of row)); cbn [negb orb andb];
      [destruct (is_empty_string (rowLabel_of row)); cbn [negb] |];
      try (split; reflexivity).
    cbn [quarterlyData columnHeaders headers]. split; [|reflexivity].
    unfold quarterly_of. destruct (hasQuarterlyPattern (columnHeaders result));
      cbn [andb map filter]; [|reflexivity].
    destruct (0 <? List.length (quarters (extractQuarterlyData (rowData_of i row)
                                            (columnHeaders result))))%nat;
      [now rewrite <- app_assoc | reflexivity].
Qed.

Lemma clean_value_is_clean (cell : Value) : is_clean (clean_value cell).
Proof. destruct cell; cbn; auto. apply trim_idempotent. Qed.

Section ResultStructure.

Variable Date_parse : string -> JsNumber.t.

(** The fields of the result of a grid with at least one row. *)
Lemma analyzeAdvancedTableStructure_fields (row0 : list Value) (rest : list (list Value))
  (rawFormulas : option (list (list Value)))
  (numberFormats : option (list (list string))) :
  let rawValues := row0 :: rest in
  let cleanData := cleanData_of Date_parse rawValues rawFormulas numberFormats in
  let result :=
    analyzeAdvancedTableStructure Date_parse (Some rawValues) rawFormulas numberFormats in
  result_columnHeaders result = map cell_value (nth (findHeaderRow cleanData) cleanData [])
  /\ result_headers result = []
  /\ result_rowLabels result = map label (materialized_from 0 cleanData)
  /\ result_quarterlyData result
     = quarterly_of (result_columnHeaders result) (materialized_from 0 cleanData).
Proof.
  cbv zeta. unfold analyzeAdvancedTableStructure.
  cbn [result_columnHeaders result_headers result_rowLabels result_quarterlyData].
  match goal with
  | |- context [forEach processRow ?cd ?r] =>
      pose proof (forEach_processRow cd 0 r) as H1;
      pose proof (forEach_processRow_quarterly cd 0 r) as H2
  end.
  cbv zeta in H1, H2. destruct H1 as (_ & _ & _ & Hl & Hc). destruct H2 as (Hq & Hh).
  unfold forEach. rewrite Hl, Hc, Hq, Hh.
  cbn [columnHeaders headers rowLabels quarterlyData app]. auto.
Qed.

(** X9: in every result, keyRows is dataRows restricted to the rows that
    are total rows or carry a key-financial label, totalRows is keyRows
    restricted to the total rows, both in row order, so totalRows is within
    keyRows and keyRows within dataRows; rowLabels lists the labels of
    dataRows. *)
Theorem result_row_lists (rawValues : option (list (list Value)))
  (rawFormulas : option (list (list Value)))
  (numberFormats : option (list (list string))) :
  let result :=
    analyzeAdvancedTableStructure Date_parse rawValues rawFormulas numberFormats in
  result_keyRows result = filter isKeyRow (result_dataRows result)
  /\ result_totalRows result = filter isTotal (result_keyRows result)
  /\ result_rowLabels result = map label (result_dataRows result)
  /\ incl (result_totalRows result) (result_keyRows result)
  /\ incl (result_keyRows result) (result_dataRows result).
Proof.
  cbv zeta.
  assert (Hlists :
            result_keyRows
              (analyzeAdvancedTableStructure Date_parse rawValues rawFormulas numberFormats)
            = filter isKeyRow
                (result_dataRows
                   (analyzeAdvancedTableStructure Date_parse rawValues rawFormulas
                      numberFormats))
            /\ result_totalRows
                 (analyzeAdvancedTableStructure Date_parse rawValues rawFormulas numberFormats)
               = filter isTotal
                   (result_dataRows
                      (analyzeAdvancedTableStructure Date_parse rawValues rawFormulas
                         numberFormats))
            /\ result_rowLabels
                 (analyzeAdvancedTableStructure Date_parse rawValues rawFormulas numberFormats)
               = map label
                   (result_dataRows
                      (analyzeAdvancedTableStructure Date_parse rawValues rawFormulas
                         numberFormats))).
  { destruct rawValues as [[|row0 rest]|]; [cbn; auto | | cbn; auto].
    destruct (analyzeAdvancedTableStructure_rows Date_parse (row0 :: rest) rawFormulas
                numberFormats) as (Hd & Hk & Ht).
    destruct (analyzeAdvancedTableStructure_fields row0 rest rawFormulas numberFormats)
      as (_ & _ & Hl & _).
    cbv zeta in Hd, Hk, Ht, Hl. rewrite Hk, Ht, Hl, Hd. auto. }
  destruct Hlists as (Hk & Ht & Hl).
  assert (Ht' : result_totalRows
                  (analyzeAdvancedTableStructure Date_parse rawValues rawFormulas
                     numberFormats)
                = filter isTotal
                    (result_keyRows
                       (analyzeAdvancedTableStructure Date_parse rawValues rawFormulas
                          numberFormats))).
  { rewrite Ht, Hk. symmetry. apply filter_filter_implied.
    intros rd Hrd. unfold isKeyRow. now rewrite Hrd. }
  repeat split; try assumption.
  - rewrite Ht'. apply incl_filter.
  - rewrite Hk. apply incl_filter.
Qed.

(** X10: dataRows keeps the order of the grid: the row indices of its rows
    are strictly increasing and below the number of rows of the grid, so no
    grid row is materialized twice and dataRows is never longer than the
    grid. *)
Theorem result_dataRows_in_order (rawValues : list (list Value))
  (rawFormulas : option (list (list Value)))
  (numberFormats : option (list (list string))) :
  let result :=
    analyzeAdvancedTableStructure Date_parse (Some rawValues) rawFormulas numberFormats in
  StronglySorted lt (map rowIndex (result_dataRows result))
  /\ Forall (fun rowData => (rowIndex rowData < List.length rawValues)%nat)
            (result_dataRows result)
  /\ (List.length (result_dataRows result) <= List.length rawValues)%nat.
Proof.
  cbv zeta.
  destruct (analyzeAdvancedTableStructure_rows Date_parse rawValues rawFormulas numberFormats)
    as (Hd & _).
  cbv zeta in Hd. rewrite Hd.
  destruct (materialized_from_bounds
              (cleanData_of Date_parse rawValues rawFormulas numberFormats) 0)
    as (Hb & Hs & Hl).
  assert (Hlen : List.length (cleanData_of Date_parse rawValues rawFormulas numberFormats)
                 = List.length rawValues) by apply length_mapi_from.
  rewrite Hlen in *.
  split; [exact Hs | split; [|exact Hl]].
  eapply Forall_impl; [|exact Hb]. cbn. intros rd. lia.
Qed.

End ResultStructure.

Lemma findHeaderRow_le (cleanData : list (list CleanCell)) :
  (findHeaderRow cleanData <= 4)%nat
  /\ (findHeaderRow cleanData <= List.length cleanData - 1)%nat.
Proof.
  unfold findHeaderRow.
  destruct (findHeaderRow_from 0 (firstn 5 cleanData)) as [k|] eqn:Hf; [|lia].
  apply findHeaderRow_from_Some in Hf as (j & row & -> & Hn & _).
  apply nth_error_firstn_Some in Hn as [Hj Hn].
  assert (j < List.length cleanData)%nat by (apply nth_error_Some; congruence).
  cbn [Nat.add]. lia.
Qed.

(** X11: [findHeaderRow] always returns a usable index: at most 4, and
    below the number of rows whenever there is a row (0 on no rows at
    all). *)
Theorem findHeaderRow_bounds (cleanData : list (list CleanCell)) :
  (findHeaderRow cleanData <= 4)%nat
  /\ (findHeaderRow cleanData <= List.length cleanData - 1)%nat.
Proof. apply findHeaderRow_le. Qed.

Section RowContent.

Variable Date_parse : string -> JsNumber.t.
Variable rawFormulas : option (list (list Value)).
Variable numberFormats : option (list (list string)).

Lemma keeps_row_nonempty (row : list CleanCell) :
  keeps_row row = true -> exists cell rest, row = cell :: rest.
Proof. destruct row as [|cell rest]; [discriminate | eauto]. Qed.

(** A data row of the result, traced back to the raw grid. *)
Lemma result_dataRows_raw (rawValues : list (list Value)) (rowData : RowData) :
  In rowData
     (result_dataRows
        (analyzeAdvancedTableStructure Date_parse (Some rawValues) rawFormulas
           numberFormats)) ->
  exists cleanRow first rest,
    nth_error (cleanData_of Date_parse rawValues rawFormulas numberFormats)
              (rowIndex rowData) = Some cleanRow
    /\ nth_error rawValues (rowIndex rowData) = Some (first :: rest)
    /\ rowData = rowData_of (rowIndex rowData) cleanRow
    /\ keeps_row cleanRow = true
    /\ map cell_value cleanRow = map clean_value (first :: rest)
    /\ List.length cleanRow = S (List.length rest).
Proof.
  intros Hin. apply result_dataRows_inv in Hin as (cleanRow & Hn & Hk & Heq).
  destruct (cleanData_of_values Date_parse rawFormulas numberFormats rawValues _ _ Hn)
    as (row & Hrow & Hmap & Hlen).
  destruct (keeps_row_nonempty _ Hk) as (cell & crest & ->).
  destruct row as [|first rest]; [discriminate|].
  exists (cell :: crest), first, rest. cbn in Hlen. repeat split; auto.
Qed.

(** X12: a row object carries the cleaned raw row: its label is the
    cleaned first cell, its values are the cleaned other cells in order
    (null and undefined turned into the empty text, texts trimmed, numbers
    and booleans as they are), and its type list has one tag per cell of
    the raw row; the label is truthy. *)
Theorem result_row_content (rawValues : list (list Value)) (rowData : RowData) :
  In rowData
     (result_dataRows
        (analyzeAdvancedTableStructure Date_parse (Some rawValues) rawFormulas
           numberFormats)) ->
  exists first rest,
    nth_error rawValues (rowIndex rowData) = Some (first :: rest)
    /\ label rowData = clean_value first
    /\ values rowData = map clean_value rest
    /\ truthy (label rowData) = true
    /\ List.length (dataTypes_row rowData) = S (List.length rest).
Proof.
  intros Hin.
  destruct (result_dataRows_raw rawValues rowData Hin)
    as (cleanRow & first & rest & _ & Hraw & Heq & Hk & Hmap & Hlen).
  exists first, rest. split; [assumption|].
  destruct cleanRow as [|cell crest]; [discriminate|].
  cbn [map] in Hmap. injection Hmap as Hcell Hrest.
  rewrite Heq. cbn [label values dataTypes_row rowData_of rowLabel_of tl].
  rewrite length_map. repeat split; auto.
  unfold keeps_row in Hk. cbn [rowLabel_of] in Hk.
  now apply andb_true_iff in Hk as [? _].
Qed.

End RowContent.

Section ResultValues.

Variable Date_parse : string -> JsNumber.t.
Variable rawFormulas : option (list (list Value)).
Variable numberFormats : option (list (list string)).

Lemma header_row_raw (row0 : list Value) (rest : list (list Value)) :
  let rawValues := row0 :: rest in
  let cleanData := cleanData_of Date_parse rawValues rawFormulas numberFormats in
  exists cleanRow row,
    nth_error cleanData (findHeaderRow cleanData) = Some cleanRow
    /\ nth_error rawValues (findHeaderRow cleanData) = Some row
    /\ map cell_value cleanRow = map clean_value row
    /\ nth (findHeaderRow cleanData) cleanData [] = cleanRow.
Proof.
  cbv zeta.
  set (cleanData := cleanData_of Date_parse (row0 :: rest) rawFormulas numberFormats).
  destruct (findHeaderRow_le cleanData) as [_ Hb].
  assert (Hlen : List.length cleanData = S (List.length rest))
    by (subst cleanData; unfold cleanData_of, mapi; now rewrite length_mapi_from).
  destruct (nth_error cleanData (findHeaderRow cleanData)) as [cleanRow|] eqn:Hn.
  - destruct (cleanData_of_values Date_parse rawFormulas numberFormats _ _ _ Hn)
      as (row & Hrow & Hmap & _).
    exists cleanRow, row. repeat split; auto.
    now apply nth_error_nth.
  - apply nth_error_None in Hn. lia.
Qed.

(** X13: the column headers of the result are the cleaned cells of the raw
    row at the detected header index, one per cell of that row; the field
    named headers stays empty. *)
Theorem result_columnHeaders_of_header_row (row0 : list Value) (rest : list (list Value)) :
  let rawValues := row0 :: rest in
  let cleanData := cleanData_of Date_parse rawValues rawFormulas numberFormats in
  let result :=
    analyzeAdvancedTableStructure Date_parse (Some rawValues) rawFormulas numberFormats in
  exists row,
    nth_error rawValues (findHeaderRow cleanData) = Some row
    /\ result_columnHeaders result = map clean_value row
    /\ List.length (result_columnHeaders result) = List.length row
    /\ result_headers result = [].
Proof.
  cbv zeta.
  destruct (header_row_raw row0 rest) as (cleanRow & row & Hn & Hrow & Hmap & Hnth).
  destruct (analyzeAdvancedTableStructure_fields Date_parse row0 rest rawFormulas
              numberFormats) as (Hc & Hh & _).
  cbv zeta in *. exists row. rewrite Hc, Hnth, Hmap, length_map. auto.
Qed.

(** X14: nothing uncleaned reaches the result: no column header, row label
    or row value is null or undefined, and every text among them is its own
    trim (no white space at either end). *)
Theorem result_values_clean (rawValues : option (list (list Value))) :
  let result :=
    analyzeAdvancedTableStructure Date_parse rawValues rawFormulas numberFormats in
  Forall is_clean
    (result_columnHeaders result ++ result_rowLabels result
     ++ flat_map values (result_dataRows result)).
Proof.
  cbv zeta. destruct rawValues as [[|row0 rest]|]; [constructor | | constructor].
  destruct (analyzeAdvancedTableStructure_fields Date_parse row0 rest rawFormulas
              numberFormats) as (Hc & _ & Hl & _).
  destruct (analyzeAdvancedTableStructure_rows Date_parse (row0 :: rest) rawFormulas
              numberFormats) as (Hd & _).
  cbv zeta in Hc, Hl, Hd.
  assert (Hrows : forall rowData,
             In rowData
                (result_dataRows
                   (analyzeAdvancedTableStructure Date_parse (Some (row0 :: rest))
                      rawFormulas numberFormats)) ->
             is_clean (label rowData) /\ Forall is_clean (values rowData)).
  { intros rowData Hin.
    destruct (result_dataRows_raw Date_parse rawFormulas numberFormats _ _ Hin)
      as (cleanRow & first & others & _ & _ & Heq & _ & Hmap & _).
    destruct cleanRow as [|cell crest]; [discriminate|].
    cbn [map] in Hmap. injection Hmap as Hcell Hrest.
    rewrite Heq. cbn [label values rowData_of rowLabel_of tl].
    rewrite Hcell, Hrest. split; [apply clean_value_is_clean|].
    apply Forall_map, Forall_forall. intros cell' _. apply clean_value_is_clean. }
  apply Forall_app. split; [|apply Forall_app; split].
  - rewrite Hc.
    destruct (header_row_raw row0 rest) as (cleanRow & row & _ & _ & Hmap & ->).
    rewrite Hmap. apply Forall_map, Forall_forall. intros cell _.
    apply clean_value_is_clean.
  - rewrite Hl, <- Hd. apply Forall_map, Forall_forall. intros rowData Hin.
    now apply Hrows.
  - apply Forall_flat_map, Forall_forall. intros rowData Hin. now apply Hrows.
Qed.

(** X15: quarterlyData holds, in row order, the series of exactly those
    data rows that have at least one point under the column headers, and
    nothing when no column header is a quarter label; so it is never longer
    than dataRows and holds no empty series. *)
Theorem result_quarterlyData_of_rows (rawValues : option (list (list Value))) :
  let result :=
    analyzeAdvancedTableStructure Date_parse rawValues rawFormulas numberFormats in
  result_quarterlyData result
  = quarterly_of (result_columnHeaders result) (result_dataRows result)
  /\ (hasQuarterlyPattern (result_columnHeaders result) = false ->
      result_quarterlyData result = [])
  /\ (List.length (result_quarterlyData result)
      <= List.length (result_dataRows result))%nat
  /\ Forall (fun quarterlyRow => (0 < List.length (quarters quarterlyRow))%nat)
            (result_quarterlyData result).
Proof.
  cbv zeta.
  assert (Heq : result_quarterlyData
                  (analyzeAdvancedTableStructure Date_parse rawValues rawFormulas
                     numberFormats)
                = quarterly_of
                    (result_columnHeaders
                       (analyzeAdvancedTableStructure Date_parse rawValues rawFormulas
                          numberFormats))
                    (result_dataRows
                       (analyzeAdvancedTableStructure Date_parse rawValues rawFormulas
                          numberFormats))).
  { destruct rawValues as [[|row0 rest]|]; [reflexivity | | reflexivity].
    destruct (analyzeAdvancedTableStructure_fields Date_parse row0 rest rawFormulas
                numberFormats) as (_ & _ & _ & Hq).
    destruct (analyzeAdvancedTableStructure_rows Date_parse (row0 :: rest) rawFormulas
                numberFormats) as (Hd & _).
    cbv zeta in Hq, Hd. now rewrite Hq, Hd. }
  rewrite Heq. unfold quarterly_of.
  destruct (hasQuarterlyPattern _).
  - split; [reflexivity | split; [discriminate | split]].
    + etransitivity; [apply filter_length_le|]. now rewrite length_map.
    + apply Forall_forall. intros q Hq. apply filter_In in Hq as [_ Hq].
      now apply Nat.ltb_lt in Hq.
  - split; [reflexivity | split; [reflexivity | split; [cbn; lia | constructor]]].
Qed.

End ResultValues.

(** ** What a row object records about formulas and types *)

Lemma existsb_mapi_from {A B : Type} (P : B -> bool) (f : A -> nat -> B)
  (l : list A) (k : nat) :
  existsb P (mapi_from k f l) = true <->
  exists c x, nth_error l c = Some x /\ P (f x (k + c)%nat) = true.
Proof.
  revert k. induction l as [|y l IH]; intros k; cbn [mapi_from existsb].
  - split; [discriminate | intros (c & x & Hn & _)]. now destruct c.
  - rewrite orb_true_iff, IH. split.
    + intros [Hy | (c & x & Hn & Hp)].
      * exists 0%nat, y. now rewrite Nat.add_0_r.
      * exists (S c), x. now rewrite Nat.add_succ_r.
    + intros (c & x & Hn & Hp). destruct c as [|c]; cbn in Hn.
      * injection Hn as ->. rewrite Nat.add_0_r in Hp. now left.
      * right. exists c, x. now rewrite Nat.add_succ_r in Hp.
Qed.

Section RowFlags.

Variable Date_parse : string -> JsNumber.t.
Variable rawFormulas : option (list (list Value)).
Variable numberFormats : option (list (list string)).

Lemma result_dataRows_cleaned (rawValues : list (list Value)) (rowData : RowData) :
  In rowData
     (result_dataRows
        (analyzeAdvancedTableStructure Date_parse (Some rawValues) rawFormulas
           numberFormats)) ->
  exists row,
    nth_error rawValues (rowIndex rowData) = Some row
    /\ rowData
       = rowData_of (rowIndex rowData)
           (clean_row Date_parse rawFormulas numberFormats (rowIndex rowData) row).
Proof.
  intros Hin. apply result_dataRows_inv in Hin as (cleanRow & Hn & _ & Heq).
  rewrite cleanData_of_row in Hn.
  destruct (nth_error rawValues (rowIndex rowData)) as [row|]; [|discriminate].
  cbn [option_map] in Hn. injection Hn as Hn. exists row. split; [reflexivity|].
  rewrite Heq at 1. cbn [rowIndex rowData_of]. now rewrite <- Hn.
Qed.

Lemma clean_row_hasFormulas (rowIndex : nat) (row : list Value) :
  hasFormulas (rowData_of rowIndex
                 (clean_row Date_parse rawFormulas numberFormats rowIndex row)) = true <->
  exists colIndex cell formula,
    nth_error row colIndex = Some cell
    /\ is_number_cell cell || is_boolean_cell cell = true
    /\ grid_entry rawFormulas rowIndex colIndex = Some formula
    /\ is_formula formula = true.
Proof.
  cbn [hasFormulas rowData_of]. unfold clean_row, mapi.
  rewrite existsb_mapi_from. cbn [Nat.add]. split.
  - intros (c & cell & Hn & Hp). exists c, cell.
    destruct cell as [| |b|n|s]; cbn in Hp; try discriminate;
      destruct (grid_entry rawFormulas rowIndex c) as [f|];
      try discriminate;
      apply andb_true_iff in Hp as [_ Hf]; exists f; auto.
  - intros (c & cell & f & Hn & Hkind & Hf & Hform). exists c, cell.
    split; [assumption|].
    assert (Htruthy : truthy f = true).
    { destruct f as [| |b|n|s]; try discriminate. cbn in *.
      destruct s; [discriminate | reflexivity]. }
    destruct cell as [| |b|n|s]; try discriminate; cbn; now rewrite Hf, Htruthy, Hform.
Qed.

(** X16: the hasFormulas flag of a row object is set exactly when some
    number or boolean cell of the row has, at its position in the formula
    grid, a text starting with "="; a formula whose cell holds a text or
    nothing never sets it. *)
Theorem row_hasFormulas_iff (rawValues : list (list Value)) (rowData : RowData) :
  In rowData
     (result_dataRows
        (analyzeAdvancedTableStructure Date_parse (Some rawValues) rawFormulas
           numberFormats)) ->
  exists row,
    nth_error rawValues (rowIndex rowData) = Some row
    /\ (hasFormulas rowData = true <->
        exists colIndex cell formula,
          nth_error row colIndex = Some cell
          /\ is_number_cell cell || is_boolean_cell cell = true
          /\ grid_entry rawFormulas (rowIndex rowData) colIndex = Some formula
          /\ is_formula formula = true).
Proof.
  intros Hin. destruct (result_dataRows_cleaned rawValues rowData Hin) as (row & Hrow & Heq).
  exists row. split; [assumption|].
  rewrite Heq at 1. apply clean_row_hasFormulas.
Qed.

(** X17: the type list of a row object has, for each cell of the raw row,
    the detected type when the cell is a number or a boolean and 'text'
    otherwise, also for an empty cell and for a text that the histogram
    counts as a date or a number; the tag 'empty' never occurs in it. *)
Theorem row_dataTypes (rawValues : list (list Value)) (rowData : RowData) :
  In rowData
     (result_dataRows
        (analyzeAdvancedTableStructure Date_parse (Some rawValues) rawFormulas
           numberFormats)) ->
  exists row,
    nth_error rawValues (rowIndex rowData) = Some row
    /\ dataTypes_row rowData
       = mapi (row_cell_type Date_parse numberFormats (rowIndex rowData)) row
    /\ existsb (CellType_eqb T_empty) (dataTypes_row rowData) = false.
Proof.
  intros Hin. destruct (result_dataRows_cleaned rawValues rowData Hin) as (row & Hrow & Heq).
  exists row. split; [assumption|].
  assert (Htypes : dataTypes_row rowData
                   = mapi (row_cell_type Date_parse numberFormats (rowIndex rowData)) row).
  { rewrite Heq at 1. cbn [dataTypes_row rowData_of]. unfold clean_row, mapi.
    rewrite map_mapi_from. apply mapi_from_ext.
    intros [| |b|n|s] c; reflexivity. }
  split; [assumption|]. rewrite Htypes.
  destruct (existsb _ _) eqn:He; [|reflexivity].
  unfold mapi in He. apply existsb_mapi_from in He as (c & cell & _ & Hp).
  unfold row_cell_type in Hp.
  pose proof (detectCellType_empty Date_parse cell
                (grid_entry numberFormats (rowIndex rowData) (0 + c))
                {| text := 0; number := 0; date := 0; currency := 0;
                   percentage := 0; boolean := 0 |}) as Hd.
  destruct cell as [| |b|n|s];
    cbn [is_number_cell is_boolean_cell orb is_empty_cell negb] in Hp, Hd;
    try (cbn in Hp; discriminate);
    destruct (detectCellType _ _ _); discriminate.
Qed.

Lemma forEach_processRow_analyses (cleanData : list (list CleanCell)) (i : nat)
  (result : TableAnalysis) :
  let final := forEach_from i processRow cleanData result in
  formulaAnalysis final = formulaAnalysis result
  /\ formatAnalysis final = formatAnalysis result
  /\ dataTypes final = dataTypes result.
Proof.
  revert i result. induction cleanData as [|row rest IH]; intros i result;
    [cbn; auto|].
  cbn [forEach_from]. specialize (IH (S i) (processRow result row i)).
  cbv zeta in IH |- *. destruct IH as (-> & -> & ->). unfold processRow.
  destruct (negb (truthy (rowLabel_of row)) || is_empty_string (rowLabel_of row));
    auto.
Qed.

(** X25: the formula analysis, the format analysis and the type counts in
    the result are those of the whole grids, whatever rows the loop keeps;
    and the two formula flags agree one way: when a row object is flagged
    as having formulas, the formula analysis reports formulas and counts at
    least one. *)
Theorem result_analyses (row0 : list Value) (rest : list (list Value)) :
  let rawValues := row0 :: rest in
  let result :=
    analyzeAdvancedTableStructure Date_parse (Some rawValues) rawFormulas
      numberFormats in
  result_formulaAnalysis result = Some (analyzeFormulas rawFormulas)
  /\ result_formatAnalysis result = Some (analyzeNumberFormats numberFormats)
  /\ result_dataTypes result = Some (analyzeDataTypes Date_parse rawValues numberFormats)
  /\ (forall rowData,
        In rowData (result_dataRows result) ->
        hasFormulas rowData = true ->
        formula_hasFormulas (analyzeFormulas rawFormulas) = true
        /\ 1 <= formulaCount (analyzeFormulas rawFormulas)).
Proof.
  cbv zeta. split; [|split; [|split]].
  1-3: unfold analyzeAdvancedTableStructure;
    cbn [result_formulaAnalysis result_formatAnalysis result_dataTypes];
    match goal with
    | |- context [forEach processRow ?cd ?r] =>
        destruct (forEach_processRow_analyses cd 0 r) as (H1 & H2 & H3)
    end;
    unfold forEach; rewrite ?H1, ?H2, ?H3; reflexivity.
  intros rowData Hin Hflag.
  destruct (result_dataRows_cleaned (row0 :: rest) rowData Hin) as (row & Hrow & Heq).
  rewrite Heq in Hflag.
  apply clean_row_hasFormulas in Hflag as (c & cell & f & _ & _ & Hf & Hform).
  destruct rawFormulas as [rows|]; [|discriminate].
  cbn [grid_entry] in Hf.
  destruct (nth_error rows (rowIndex rowData)) as [frow|] eqn:Hr; [|discriminate].
  assert (Hin' : In f (filter is_formula (List.concat rows))).
  { apply filter_In. split; [|assumption]. apply in_concat. exists frow.
    split; eapply nth_error_In; eassumption. }
  rewrite analyzeFormulas_Some. cbn [formula_hasFormulas formulaCount].
  destruct (filter is_formula (List.concat rows)); [contradiction|].
  cbn [List.length]. split; [apply Z.ltb_lt|]; lia.
Qed.

End RowFlags.

Lemma result_row_content_witness :
  nth_error grid_financial 1 = Some [VStr "Total Revenue"; num 100; num 200]
  /\ (forall Date_parse : string -> JsNumber.t,
         let rowData :=
           rowData_of 1 [CleanString "Total Revenue"; clean_num 100; clean_num 200] in
         In rowData
            (result_dataRows
               (analyzeAdvancedTableStructure Date_parse (Some grid_financial)
                  None None))
         /\ exists first rest,
              nth_error grid_financial (rowIndex rowData) = Some (first :: rest)
              /\ label rowData = clean_value first
              /\ values rowData = map clean_value rest
              /\ truthy (label rowData) = true
              /\ List.length (dataTypes_row rowData) = S (List.length rest)).
Proof.
  split; [reflexivity|].
  intros Date_parse rowData.
  assert (Hin : In rowData
                  (result_dataRows
                     (analyzeAdvancedTableStructure Date_parse (Some grid_financial)
                        None None)))
    by (right; left; reflexivity).
  split; [exact Hin|].
  exact (result_row_content Date_parse None None grid_financial rowData Hin).
Defined.

Lemma row_hasFormulas_iff_witness :
  nth_error grid_financial 1 = Some [VStr "Total Revenue"; num 100; num 200]
  /\ (forall Date_parse : string -> JsNumber.t,
         let rawFormulas :=
           Some [ [VStr "Label"; VStr "1Q23"; VStr "2Q23"];
                  [VStr "=A9"; num 100; VStr "=SUM(C3:C4)"];
                  [VStr "Gross Margin %"; num 40; num 45];
                  [VStr "Headcount"; num 7; num 8] ] in
         let rowData :=
           rowData_of 1
             (clean_row Date_parse rawFormulas None 1
                [VStr "Total Revenue"; num 100; num 200]) in
         In rowData
            (result_dataRows
               (analyzeAdvancedTableStructure Date_parse (Some grid_financial)
                  rawFormulas None))
         /\ hasFormulas rowData = true
         /\ exists row,
              nth_error grid_financial (rowIndex rowData) = Some row
              /\ (hasFormulas rowData = true <->
                  exists colIndex cell formula,
                    nth_error row colIndex = Some cell
                    /\ is_number_cell cell || is_boolean_cell cell = true
                    /\ grid_entry rawFormulas (rowIndex rowData) colIndex = Some formula
                    /\ is_formula formula = true)).
Proof.
  split; [reflexivity|].
  intros Date_parse rawFormulas rowData.
  assert (Hin : In rowData
                  (result_dataRows
                     (analyzeAdvancedTableStructure Date_parse (Some grid_financial)
                        rawFormulas None)))
    by (right; left; reflexivity).
  split; [exact Hin|]. split; [reflexivity|].
  exact (row_hasFormulas_iff Date_parse rawFormulas None grid_financial rowData Hin).
Defined.

Lemma row_dataTypes_witness :
  nth_error grid_financial 1 = Some [VStr "Total Revenue"; num 100; num 200]
  /\ (forall Date_parse : string -> JsNumber.t,
         let rowData :=
           rowData_of 1 [CleanString "Total Revenue"; clean_num 100; clean_num 200] in
         In rowData
            (result_dataRows
               (analyzeAdvancedTableStructure Date_parse (Some grid_financial)
                  None None))
         /\ dataTypes_row rowData = [T_text; T_number; T_number]
         /\ exists row,
              nth_error grid_financial (rowIndex rowData) = Some row
              /\ dataTypes_row rowData
                 = mapi (row_cell_type Date_parse None (rowIndex rowData)) row
              /\ existsb (CellType_eqb T_empty) (dataTypes_row rowData) = false).
Proof.
  split; [reflexivity|].
  intros Date_parse rowData.
  assert (Hin : In rowData
                  (result_dataRows
                     (analyzeAdvancedTableStructure Date_parse (Some grid_financial)
                        None None)))
    by (right; left; reflexivity).
  split; [exact Hin|]. split; [reflexivity|].
  exact (row_dataTypes Date_parse None None grid_financial rowData Hin).
Defined.

(** ** The header row among the quarterly series *)


Section HeaderSeries.

Variable Date_parse : string -> JsNumber.t.
Variable rawFormulas : option (list (list Value)).
Variable numberFormats : option (list (list string)).


End HeaderSeries.


(** ** The choice of the range *)


(** The selection of one empty cell is passed over for the used range; the
    selection that reports no cell and brings no row of values makes the
    read fail. *)
Example selectRange_single_cells :
  let cell (v : Value) :=
    {| range_values := [[v]]; range_formulas := [[v]];
       range_numberFormat := [["General"]]; rowCount := 1; columnCount := 1;
       address := "B2"; _isSampled := false; _originalSize := None |} in
  let nothing :=
    {| range_values := []; range_formulas := []; range_numberFormat := [];
       rowCount := 0; columnCount := 0; address := "";
       _isSampled := false; _originalSize := None |} in
  let blank := {| getUsedRange := None; getRange := fun _ => nothing |} in
  selectRange true (cell (VStr "")) blank
  = Some {| range := None; isSelection := false; isSampled := false |}
  /\ selectRange true (cell VNull) blank
     = Some {| range := None; isSelection := false; isSampled := false |}
  /\ selectRange true (cell (num 0)) blank
     = Some {| range := Some (cell (num 0)); isSelection := true; isSampled := false |}
  /\ selectRange true nothing blank = None
  /\ selectRange false nothing blank
     = Some {| range := None; isSelection := false; isSampled := false |}
  /\ forall Date_parse,
      readCurrentWorksheetDataEnhanced Date_parse true nothing blank = None.
Proof. cbv zeta. repeat split. Qed.



(** ** The sampling plan *)

Lemma StronglySorted_arith (start step : Z) (n k : nat) :
  0 < step ->
  StronglySorted Z.lt (map (fun i => start + Z.of_nat i * step) (seq k n)).
Proof.
  intros Hstep. revert k. induction n as [|n IH]; intros k; cbn [seq map].
  - constructor.
  - constructor; [apply IH|].
    apply Forall_forall. intros r Hr. apply in_map_iff in Hr as (i & <- & Hi).
    apply in_seq in Hi. nia.
Qed.

(** X21: the plan of getSmartSampledRange accounts for exactly the rows of
    the block it returns: header, middle and footer rows add up to
    maxSampleRows; the middle row numbers it computes are as many as
    middleRows, strictly increasing, and all lie after the header block and
    before the footer block; and the list of addresses has one entry for
    each of them between those of the two blocks. *)
Theorem sampling_plan_rows (originalRange : Range) :
  0 <= rowCount originalRange ->
  headerRows originalRange + middleRows originalRange + footerRows originalRange
  = maxSampleRows originalRange
  /\ List.length (sampledMiddleRows originalRange)
     = Z.to_nat (middleRows originalRange)
  /\ StronglySorted Z.lt (sampledMiddleRows originalRange)
  /\ Forall (fun rowNum =>
               headerRows originalRange < rowNum
               <= rowCount originalRange - footerRows originalRange)
            (sampledMiddleRows originalRange)
  /\ List.length (compositeRanges originalRange)
     = (Z.to_nat (Z.min 1 (headerRows originalRange))
        + List.length (sampledMiddleRows originalRange)
        + Z.to_nat (Z.min 1 (footerRows originalRange)))%nat.
Proof.
  intros Hrows.
  unfold sampledMiddleRows, compositeRanges.
  set (total := rowCount originalRange) in *.
  assert (Hmax : maxSampleRows originalRange = Z.min 316 total) by reflexivity.
  assert (Hhead : headerRows originalRange = Z.min 5 total) by reflexivity.
  assert (Hfoot : footerRows originalRange = Z.min 3 (total - headerRows originalRange))
    by reflexivity.
  assert (Hmid : middleRows originalRange
                 = Z.max 0 (maxSampleRows originalRange - headerRows originalRange
                            - footerRows originalRange)) by reflexivity.
  set (mx := maxSampleRows originalRange) in *.
  set (header := headerRows originalRange) in *.
  set (footer := footerRows originalRange) in *.
  set (middle := middleRows originalRange) in *.
  split; [lia|].
  destruct (Z.ltb_spec 0 middle) as [Hpos|Hzero].
  - set (step := (total - header - footer) / middle).
    assert (Hstep : 1 <= step).
    { subst step. apply Z.div_le_lower_bound; lia. }
    assert (Hfit : middle * step <= total - header - footer).
    { subst step. apply Z.mul_div_le. lia. }
    split; [now rewrite length_map, length_seq|].
    split; [apply (StronglySorted_arith (header + 1) step); lia|].
    split.
    + apply Forall_forall. intros r Hr. apply in_map_iff in Hr as (i & <- & Hi).
      apply in_seq in Hi. nia.
    + rewrite !length_app, !length_map, !length_seq.
      destruct (Z.ltb_spec 0 header), (Z.ltb_spec 0 footer); cbn [List.length]; lia.
  - split; [cbn; lia|]. split; [constructor|]. split; [constructor|].
    rewrite !length_app.
    destruct (Z.ltb_spec 0 header), (Z.ltb_spec 0 footer); cbn [List.length]; lia.
Qed.

Lemma sampling_plan_rows_witness :
  (let originalRange :=
     {| range_values := []; range_formulas := []; range_numberFormat := [];
        rowCount := 2000; columnCount := 60; address := "A1:BH2000";
        _isSampled := false; _originalSize := None |} in
   0 <= rowCount originalRange
   /\ maxSampleRows originalRange = 316
   /\ hd 0 (sampledMiddleRows originalRange) = 6
   /\ headerRows originalRange + middleRows originalRange + footerRows originalRange
      = maxSampleRows originalRange
   /\ List.length (sampledMiddleRows originalRange)
      = Z.to_nat (middleRows originalRange)
   /\ StronglySorted Z.lt (sampledMiddleRows originalRange)
   /\ Forall (fun rowNum =>
                headerRows originalRange < rowNum
                <= rowCount originalRange - footerRows originalRange)
             (sampledMiddleRows originalRange)
   /\ List.length (compositeRanges originalRange)
      = (Z.to_nat (Z.min 1 (headerRows originalRange))
         + List.length (sampledMiddleRows originalRange)
         + Z.to_nat (Z.min 1 (footerRows originalRange)))%nat).
Proof.
  cbv zeta.
  split; [cbn; lia | split; [reflexivity | split; [reflexivity|]]].
  apply (sampling_plan_rows
           {| range_values := []; range_formulas := []; range_numberFormat := [];
              rowCount := 2000; columnCount := 60; address := "A1:BH2000";
              _isSampled := false; _originalSize := None |}).
  cbn. lia.
Defined.

(** ** The subtotal flag *)

(** X22: the isSubtotal flag of a row object is isLikelySubtotalRow of its
    label: set exactly when the label is a text that has subtotal, sub-total
    or sub total in it, in either case; such a row is put among the total
    rows only if its label also begins with a total keyword. *)
Theorem row_isSubtotal_iff (Date_parse : string -> JsNumber.t)
  (rawValues : option (list (list Value)))
  (rawFormulas : option (list (list Value)))
  (numberFormats : option (list (list string))) (rowData : RowData) :
  let result :=
    analyzeAdvancedTableStructure Date_parse rawValues rawFormulas numberFormats in
  In rowData (result_dataRows result) ->
  isSubtotal rowData = isLikelySubtotalRow (label rowData)
  /\ (isSubtotal rowData = true <->
      exists s, label rowData = VStr s /\ contains_one_of subtotalKeywords s)
  /\ (In rowData (result_totalRows result) <->
      exists s, label rowData = VStr s /\ begins_with_one_of totalKeywords s).
Proof.
  cbv zeta. intros Hin.
  destruct rawValues as [rawValues|]; [|contradiction].
  assert (Hclean : forall s, label rowData = VStr s -> trim s = s).
  { intros s Hs.
    destruct (result_dataRows_raw Date_parse rawFormulas numberFormats rawValues
                rowData Hin) as (cleanRow & first & rest & _ & _ & Heq & _ & Hmap & _).
    destruct cleanRow as [|cell cells]; [discriminate|]. cbn [map] in Hmap.
    injection Hmap as Hcell _. rewrite Heq in Hs. cbn [label rowData_of rowLabel_of] in Hs.
    rewrite Hcell in Hs. pose proof (clean_value_is_clean first) as Hc.
    rewrite Hs in Hc. exact Hc. }
  destruct (analyzeAdvancedTableStructure_rows Date_parse rawValues rawFormulas
              numberFormats) as (Hd & _ & Ht).
  cbv zeta in Hd, Ht. rewrite Ht, filter_In, <- Hd.
  apply result_dataRows_inv in Hin as Hinv.
  destruct Hinv as (row & _ & _ & Heq).
  assert (Hsub : isSubtotal rowData = isLikelySubtotalRow (label rowData))
    by (rewrite Heq; reflexivity).
  assert (Htot : isTotal rowData = isLikelyTotalRow (label rowData))
    by (rewrite Heq; reflexivity).
  split; [exact Hsub|]. rewrite Hsub, Htot. split; split.
  - destruct (label rowData) as [| |b|n|s] eqn:Hl; try discriminate.
    intros Hm. exists s. split; [reflexivity|].
    unfold isLikelySubtotalRow in Hm. rewrite (Hclean s eq_refl) in Hm.
    now apply test_anywhere_iff.
  - intros (s & Hs & Hc). rewrite Hs. unfold isLikelySubtotalRow.
    rewrite (Hclean s Hs). now apply test_anywhere_iff.
  - intros [_ Hm]. destruct (label rowData) as [| |b|n|s] eqn:Hl; try discriminate.
    exists s. split; [reflexivity|]. apply isLikelyTotalRow_iff in Hm.
    now rewrite (Hclean s eq_refl) in Hm.
  - intros (s & Hs & Hb). split; [assumption|]. rewrite Hs.
    apply isLikelyTotalRow_iff. now rewrite (Hclean s Hs).
Qed.

Lemma row_isSubtotal_iff_witness :
  isLikelySubtotalRow (VStr "Total Revenue") = false
  /\ (forall Date_parse : string -> JsNumber.t,
         let result :=
           analyzeAdvancedTableStructure Date_parse (Some grid_financial) None None in
         let rowData :=
           rowData_of 1 [CleanString "Total Revenue"; clean_num 100; clean_num 200] in
         In rowData (result_dataRows result)
         /\ isSubtotal rowData = isLikelySubtotalRow (label rowData)
         /\ (isSubtotal rowData = true <->
             exists s, label rowData = VStr s /\ contains_one_of subtotalKeywords s)
         /\ (In rowData (result_totalRows result) <->
             exists s, label rowData = VStr s /\ begins_with_one_of totalKeywords s)).
Proof.
  split; [reflexivity|].
  intros Date_parse result rowData.
  assert (Hin : In rowData (result_dataRows result)) by (right; left; reflexivity).
  split; [exact Hin|].
  exact (row_isSubtotal_iff Date_parse (Some grid_financial) None None rowData Hin).
Defined.

(* ===================================================================== *)
(** * AIService: the conversation history *)
(* ===================================================================== *)

Module AIServiceFacts.
Import AIService.

Lemma length_slice_last {A : Type} (n : nat) (arr : list A) :
  List.length (slice_last n arr) = Nat.min n (List.length arr).
Proof. unfold slice_last. rewrite length_skipn. lia. Qed.

Lemma addToConversationHistory_slice (now role content : string)
  (conversationHistory : list Message) :
  addToConversationHistory now role content conversationHistory
  = slice_last (MAX_HISTORY * 2)
      (conversationHistory
       ++ [ {| role := role; content := content; timestamp := now |} ])%list.
Proof.
  unfold addToConversationHistory, slice_last.
  destruct (Nat.ltb_spec (MAX_HISTORY * 2)
              (List.length (conversationHistory
                            ++ [ {| role := role; content := content;
                                    timestamp := now |} ])%list)) as [Hlt|Hle];
    [reflexivity|].
  replace (_ - _)%nat with 0%nat by lia. reflexivity.
Qed.

Lemma slice_last_snoc {A : Type} (n : nat) (arr : list A) (x : A) :
  (0 < n)%nat ->
  slice_last n (slice_last n arr ++ [x]) = slice_last n (arr ++ [x]).
Proof.
  intros Hn. unfold slice_last at 1 3. rewrite !length_app, length_slice_last.
  cbn [List.length]. unfold slice_last.
  destruct (Nat.le_gt_cases (List.length arr) n) as [Hle|Hgt].
  - replace (List.length arr - n)%nat with 0%nat by lia. cbn [skipn].
    f_equal. lia.
  - replace (Nat.min n (List.length arr) + 1 - n)%nat with 1%nat by lia.
    rewrite !skipn_app, skipn_skipn, length_skipn.
    replace (1 - (List.length arr - (List.length arr - n)))%nat with 0%nat by lia.
    replace (List.length arr + 1 - n - List.length arr)%nat with 0%nat by lia.
    cbn [skipn]. f_equal. f_equal. lia.
Qed.

Lemma run_app (calls1 calls2 : list Call) (conversationHistory : list Message) :
  run (calls1 ++ calls2) conversationHistory
  = run calls2 (run calls1 conversationHistory).
Proof. apply fold_left_app. Qed.

Lemma run_adds_of (messages : list Message) :
  run (adds_of messages) [] = slice_last (MAX_HISTORY * 2) messages.
Proof.
  induction messages as [|m messages IH] using rev_ind; [reflexivity|].
  unfold adds_of. rewrite map_app, run_app. fold (adds_of messages). rewrite IH.
  cbn [map run fold_left call]. rewrite addToConversationHistory_slice.
  destruct m as [r c t]. cbn [role content timestamp].
  apply slice_last_snoc. cbn. lia.
Qed.

Lemma run_bounded (calls : list Call) (conversationHistory : list Message) :
  (List.length conversationHistory <= MAX_HISTORY * 2)%nat ->
  (List.length (run calls conversationHistory) <= MAX_HISTORY * 2)%nat.
Proof.
  revert conversationHistory.
  induction calls as [|c calls IH]; intros conversationHistory Hlen; [exact Hlen|].
  cbn [run fold_left]. apply IH. destruct c as [now r ct|]; cbn [call].
  - rewrite addToConversationHistory_slice, length_slice_last. lia.
  - cbn. lia.
Qed.

(** X23: whatever calls are made on a new service, the history never holds
    more than 24 messages and the number of exchanges reported never
    exceeds 12; and each call to addToConversationHistory leaves the new
    message last. *)
Theorem conversationHistory_bounded (calls : list Call) (now role content : string) :
  let conversationHistory := run calls [] in
  (List.length conversationHistory <= 24)%nat
  /\ (getConversationLength conversationHistory <= 12)%nat
  /\ last (addToConversationHistory now role content conversationHistory)
          {| role := ""; content := ""; timestamp := "" |}
     = {| role := role; content := content; timestamp := now |}
  /\ ((List.length conversationHistory < 24)%nat ->
      addToConversationHistory now role content conversationHistory
      = (conversationHistory
         ++ [ {| role := role; content := content; timestamp := now |} ])%list).
Proof.
  cbv zeta.
  assert (Hlen : (List.length (run calls []) <= 24)%nat)
    by (apply (run_bounded calls []); cbn; lia).
  split; [exact Hlen|]. split.
  { unfold getConversationLength. apply Nat.Div0.div_le_upper_bound. lia. }
  split.
  - rewrite addToConversationHistory_slice. unfold slice_last.
    set (h := run calls []) in *.
    set (m := {| role := role; content := content; timestamp := now |}).
    rewrite skipn_app, length_app. cbn [List.length].
    change (MAX_HISTORY * 2)%nat with 24%nat.
    replace (List.length h + 1 - 24 - List.length h)%nat with 0%nat by lia.
    cbn [skipn]. apply last_last.
  - intros Hlt. unfold addToConversationHistory.
    destruct (Nat.ltb_spec (MAX_HISTORY * 2)
                (List.length (run calls []
                              ++ [ {| role := role; content := content;
                                      timestamp := now |} ])%list)) as [Hgt|Hle];
      [|reflexivity].
    rewrite length_app in Hgt. change (MAX_HISTORY * 2)%nat with 24%nat in Hgt.
    cbn [List.length] in Hgt. lia.
Qed.

(** X24: after a clear (or on a new service), the history is the last 24
    of the messages added since, in the order they were added, so that the
    25th message evicts the oldest; the exchange count is then half the
    number of messages added, capped at 12. *)
Theorem conversationHistory_recent (calls : list Call) (messages : list Message)
  (conversationHistory : list Message) :
  run (adds_of messages) [] = slice_last 24 messages
  /\ run (calls ++ Clear :: adds_of messages) conversationHistory
     = slice_last 24 messages
  /\ getConversationLength (run (adds_of messages) [])
     = Nat.min (List.length messages / 2) 12
  /\ ((List.length messages <= 24)%nat -> run (adds_of messages) [] = messages).
Proof.
  pose proof (run_adds_of messages) as Hrun. change (MAX_HISTORY * 2)%nat with 24%nat in Hrun.
  split; [exact Hrun|]. split.
  { rewrite run_app. cbn [run fold_left call clearConversation]. exact Hrun. }
  split.
  - rewrite Hrun. unfold getConversationLength. rewrite length_slice_last.
    destruct (Nat.le_gt_cases 24 (List.length messages)) as [Hge|Hlt].
    + rewrite (Nat.min_l 24) by assumption.
      assert (12 <= List.length messages / 2)%nat
        by (apply Nat.div_le_lower_bound; lia).
      change (24 / 2)%nat with 12%nat. lia.
    + rewrite (Nat.min_r 24) by lia.
      assert (List.length messages / 2 <= 12)%nat
        by (apply Nat.Div0.div_le_upper_bound; lia).
      lia.
  - intros Hle. rewrite Hrun. unfold slice_last.
    replace (List.length messages - 24)%nat with 0%nat by lia. reflexivity.
Qed.

End AIServiceFacts.
